(** * The REQ socket of nanomsg (src/patterns/reqrep/req.c)

    A shallow embedding of the request/reply state machine: the socket
    structure [sp_req], its five virtual functions and the resend callback,
    written over an explicit machine state (socket-owned heap blocks, the
    socket structure, and a log of the calls made to the collaborators).

    Conventions of the embedding.
    - [uint32_t] and [size_t] values are [Z] with the wrap-around written
      out ([uint32_wrap], [size_wrap]); the ABI is LP64, little-endian:
      [sizeof (int) = sizeof (uint32_t) = 4], [sizeof (size_t) = 8].
    - Memory owned by the socket ([request], the temporary [reply]) lives in
      heap blocks that are allocated, written, read and freed as in the C
      code; an access outside a block, to a freed block or to a byte never
      written is the outcome [Fault].
    - Memory owned by the caller is passed by value: an input buffer
      [(buf, len)] is the list of its [len] bytes, an output buffer
      [(buf, *len)] is its capacity on input and, on output, the bytes
      stored at its beginning together with the new value of [*len].
    - A failed [sp_assert], [alloc_assert] or [errnum_assert] is the
      outcome [Abort]. *)

From Stdlib Require Import ZArith Lia List Strings.Byte.
From stdpp Require Import base option list gmap.

Local Open Scope Z_scope.

(** ** Bytes and fixed-width integers *)

Definition byte_to_Z (b : byte) : Z := Z.of_N (Byte.to_N b).

Definition byte_of_Z (z : Z) : byte :=
  match Byte.of_N (Z.to_N (z mod 256)) with
  | Some b => b
  | None => x00
  end.

Definition UINT32_MOD : Z := 2 ^ 32.
Definition SIZE_MOD : Z := 2 ^ 64.
Definition SIZE_MAX : Z := SIZE_MOD - 1.

(** Arithmetic on [uint32_t] and [size_t] is modulo the width. *)
Definition uint32_wrap (z : Z) : Z := z mod UINT32_MOD.
Definition size_wrap (z : Z) : Z := z mod SIZE_MOD.

(** [~v] on a [uint32_t]. *)
Definition uint32_not (v : Z) : Z := uint32_wrap (Z.lnot v).

(** An [int] object: 32 bits, two's complement. *)
Definition INT_MIN : Z := - 2 ^ 31.
Definition INT_MAX : Z := 2 ^ 31 - 1.
Definition int_wrap (z : Z) : Z := (z + 2 ^ 31) mod UINT32_MOD - 2 ^ 31.

(** The object representation of an [int] in the memory of the host
    (little-endian), as read by [*(int* ) optval] and written by
    [*(int* ) optval = v]. *)
Definition int_load (bs : list byte) : Z :=
  match bs with
  | [b0; b1; b2; b3] =>
      int_wrap (byte_to_Z b0 + Z.shiftl (byte_to_Z b1) 8
                + Z.shiftl (byte_to_Z b2) 16 + Z.shiftl (byte_to_Z b3) 24)
  | _ => 0
  end.

Definition int_store (v : Z) : list byte :=
  [byte_of_Z v; byte_of_Z (Z.shiftr v 8);
   byte_of_Z (Z.shiftr v 16); byte_of_Z (Z.shiftr v 24)].

Definition sizeof_int : Z := 4.
Definition sizeof_uint32 : Z := 4.

(** ** utils/wire.h *)

(** Modelled from the spec: utils/wire.h is not among the sources; the spec
    names its two helpers as the big-endian encoder and decoder of a 4-byte
    unsigned integer ("write the big-endian tag", "read 4-byte big-endian
    unsigned integer"). [sp_putl] gives the four bytes stored at the
    destination. *)
Definition sp_putl (val : Z) : list byte :=
  [byte_of_Z (Z.shiftr val 24); byte_of_Z (Z.shiftr val 16);
   byte_of_Z (Z.shiftr val 8); byte_of_Z val].

(** Modelled from the spec: the decoder of utils/wire.h, on the four bytes
    found at the source. *)
Definition sp_getl (bs : list byte) : Z :=
  match bs with
  | [b0; b1; b2; b3] =>
      Z.lor (Z.lor (Z.lor (Z.shiftl (byte_to_Z b0) 24)
                          (Z.shiftl (byte_to_Z b1) 16))
                   (Z.shiftl (byte_to_Z b2) 8))
            (byte_to_Z b3)
  | _ => 0
  end.

(** ** Return codes *)

(** The error numbers req.c names, and whatever else a collaborator may
    hand back. *)
Inductive errnum :=
  | EAGAIN
  | EFSM
  | EINVAL
  | ENOPROTOOPT
  | EOTHER (code : Z).

(** The [int] returned by a socket function: [0] or [-errnum]. *)
Inductive retcode :=
  | RC0
  | RCneg (e : errnum).

Definition is_eagain (rc : retcode) : bool :=
  match rc with RCneg EAGAIN => true | _ => false end.

Definition is_zero (rc : retcode) : bool :=
  match rc with RC0 => true | _ => false end.

(** ** The heap of socket-owned buffers *)

Definition block := positive.

Inductive ptr :=
  | NULL
  | Ptr (b : block).

(** A byte of allocated memory: [None] until it is written. *)
Abbreviation memval := (option byte).

(** Modelled from the spec: utils/alloc.h is not among the sources.
    [blocks] are the live allocations; [avail] is the number of bytes the
    allocator can still hand out, so that [sp_alloc] returns the null
    pointer when the request exceeds it. *)
Record heap := mk_heap {
  blocks : gmap block (list memval);
  avail : Z
}.

(** ** The collaborators *)

(** What the raw socket hands over on a receive: a whole frame, or an
    error number. *)
Inductive raw_recv_result :=
  | RawFrame (frame : list byte)
  | RawFail (e : errnum).

(** The raw pattern socket [struct sp_xreq] (xreq.c is not among the
    sources): its state is any type [X] with an initialiser, a finaliser,
    a send that returns a code and a receive that returns a frame or an
    error number. *)
Class RawSocket (X : Type) := {
  raw_init : X -> X;
  raw_term : X -> X;
  raw_send : X -> list byte -> retcode * X;
  raw_recv : X -> raw_recv_result * X
}.

(** Modelled from the spec: the timer service ("single-shot scheduled
    callbacks with cancellation"). The handle is idle or armed with a
    duration; the callback of this socket is always
    [sp_req_resend_routine]. *)
Inductive sp_sockbase_timer :=
  | TimerIdle
  | TimerArmed (ivl : Z).

(** The calls made to the allocator, the raw socket and the timer service,
    in program order. *)
Inductive event :=
  | EvAlloc (size : Z) (p : ptr)
  | EvFree (p : ptr)
  | EvXreqSend (frame : list byte) (rc : retcode)
  | EvXreqRecv (capacity : Z) (res : raw_recv_result)
  | EvTimerStart (ivl : Z)
  | EvTimerCancel.

Definition SP_REQ_DEFAULT_RESEND_IVL : Z := 60000.

Definition SP_REQ_INPROGRESS : Z := 1.

(** ** The socket and the machine state *)

Section Machine.
Context {X : Type} `{RawSocket X}.

(** The option identifier of the resend interval, declared in sp.h, which is
    not among the sources: any integer. *)
Variable SP_RESEND_IVL : Z.

(** [struct sp_req]. *)
Record sp_req := mk_req {
  xreq : X;
  reqid : Z;
  flags : Z;
  requestlen : Z;
  request : ptr;
  resend_ivl : Z;
  resend_timer : sp_sockbase_timer
}.

Record world := mk_world {
  mem : heap;
  self : sp_req;
  trace : list event
}.

(** How a call ends: it returns [a] in the state [w], a run-time
    assertion stops the process, or the behaviour is undefined. *)
Inductive outcome (A : Type) :=
  | Ret (a : A) (w : world)
  | Abort
  | Fault.
Global Arguments Ret {A} a w.
Global Arguments Abort {A}.
Global Arguments Fault {A}.

Definition M (A : Type) : Type := world -> outcome A.

Definition ret {A} (a : A) : M A := fun w => Ret a w.

Definition bind {A B} (m : M A) (k : A -> M B) : M B :=
  fun w =>
    match m w with
    | Ret a w' => k a w'
    | Abort => Abort
    | Fault => Fault
    end.

Definition abort {A} : M A := fun _ => Abort.

Notation "'let*' x := c 'in' k" := (bind c (fun x => k))
  (at level 10, x pattern, c at level 100, k at level 200).
Notation "c >> k" := (bind c (fun _ => k))
  (at level 100, k at level 200, right associativity).

Definition emit (e : event) : M unit :=
  fun w => Ret tt (mk_world (mem w) (self w) (trace w ++ [e])).

(** Read a field of [*req], and the assignments to its fields. *)
Definition rd {A} (field : sp_req -> A) : M A :=
  fun w => Ret (field (self w)) w.

Definition upd (f : sp_req -> sp_req) : M unit :=
  fun w => Ret tt (mk_world (mem w) (f (self w)) (trace w)).

Definition set_xreq (v : X) (r : sp_req) : sp_req :=
  mk_req v (reqid r) (flags r) (requestlen r) (request r)
         (resend_ivl r) (resend_timer r).
Definition set_reqid (v : Z) (r : sp_req) : sp_req :=
  mk_req (xreq r) v (flags r) (requestlen r) (request r)
         (resend_ivl r) (resend_timer r).
Definition set_flags (v : Z) (r : sp_req) : sp_req :=
  mk_req (xreq r) (reqid r) v (requestlen r) (request r)
         (resend_ivl r) (resend_timer r).
Definition set_requestlen (v : Z) (r : sp_req) : sp_req :=
  mk_req (xreq r) (reqid r) (flags r) v (request r)
         (resend_ivl r) (resend_timer r).
Definition set_request (v : ptr) (r : sp_req) : sp_req :=
  mk_req (xreq r) (reqid r) (flags r) (requestlen r) v
         (resend_ivl r) (resend_timer r).
Definition set_resend_ivl (v : Z) (r : sp_req) : sp_req :=
  mk_req (xreq r) (reqid r) (flags r) (requestlen r) (request r)
         v (resend_timer r).
Definition set_resend_timer (v : sp_sockbase_timer) (r : sp_req) : sp_req :=
  mk_req (xreq r) (reqid r) (flags r) (requestlen r) (request r)
         (resend_ivl r) v.

(** ** utils/alloc.h, utils/err.h and memory accesses *)

(** Modelled from the spec: the allocator of utils/alloc.h ("Allocate a
    new buffer of length ..."): a new block of [size] unwritten bytes, or
    the null pointer when the heap cannot supply them. *)
Definition sp_alloc (size : Z) : M ptr :=
  fun w =>
    let h := mem w in
    if size <=? avail h then
      let b := fresh (dom (blocks h)) in
      Ret (Ptr b)
          (mk_world
             (mk_heap (<[b := replicate (Z.to_nat size) None]> (blocks h))
                      (avail h - size))
             (self w) (trace w ++ [EvAlloc size (Ptr b)]))
    else
      Ret NULL (mk_world h (self w) (trace w ++ [EvAlloc size NULL])).

(** Modelled from the spec: the release of utils/alloc.h ("the old buffer
    is released"). Releasing the null pointer does nothing; releasing a
    block that is not live is undefined. *)
Definition sp_free (p : ptr) : M unit :=
  fun w =>
    let h := mem w in
    match p with
    | NULL => Ret tt (mk_world h (self w) (trace w ++ [EvFree NULL]))
    | Ptr b =>
        match blocks h !! b with
        | Some cells =>
            Ret tt
                (mk_world
                   (mk_heap (delete b (blocks h))
                            (avail h + Z.of_nat (length cells)))
                   (self w) (trace w ++ [EvFree p]))
        | None => Fault
        end
    end.

Definition alloc_assert (p : ptr) : M unit :=
  match p with
  | NULL => abort
  | Ptr _ => ret tt
  end.

Definition sp_assert (cond : bool) : M unit :=
  if cond then ret tt else abort.

Definition errnum_assert (cond : bool) : M unit :=
  if cond then ret tt else abort.

(** The bytes of a run of cells, when each of them has been written. *)
Definition written (cells : list memval) : option (list byte) :=
  mapM id cells.

(** Read [n] bytes at offset [off] of the block [p] points to. *)
Definition load (p : ptr) (off n : Z) : M (list byte) :=
  fun w =>
    match p with
    | NULL => Fault
    | Ptr b =>
        match blocks (mem w) !! b with
        | Some cells =>
            if (0 <=? off) && (0 <=? n)
               && (off + n <=? Z.of_nat (length cells)) then
              match written (take (Z.to_nat n)
                                  (drop (Z.to_nat off) cells)) with
              | Some bs => Ret bs w
              | None => Fault
              end
            else Fault
        | None => Fault
        end
    end.

(** Write the bytes [bs] at offset [off] of the block [p] points to. *)
Definition store (p : ptr) (off : Z) (bs : list byte) : M unit :=
  fun w =>
    match p with
    | NULL => Fault
    | Ptr b =>
        match blocks (mem w) !! b with
        | Some cells =>
            if (0 <=? off)
               && (off + Z.of_nat (length bs) <=? Z.of_nat (length cells))
            then
              let cells' :=
                take (Z.to_nat off) cells ++ (Some <$> bs)
                ++ drop (Z.to_nat off + length bs) cells in
              Ret tt
                  (mk_world
                     (mk_heap (<[b := cells']> (blocks (mem w)))
                              (avail (mem w)))
                     (self w) (trace w))
            else Fault
        | None => Fault
        end
    end.

(** Reading and writing a big-endian [uint32_t] through a pointer. *)
Definition sp_putl_at (p : ptr) (val : Z) : M unit :=
  store p 0 (sp_putl val).

Definition sp_getl_at (p : ptr) : M Z :=
  let* bs := load p 0 4 in
  ret (sp_getl bs).

(** ** The raw socket and the timer, as req.c calls them *)

(** Modelled from the spec: [sp_xreq_init] and [sp_xreq_term] of xreq.c (the
    "standard socket lifecycle hooks" of the raw socket) act on the raw
    socket only. *)
Definition sp_xreq_init : M unit :=
  let* x := rd xreq in
  upd (set_xreq (raw_init x)).

Definition sp_xreq_term : M unit :=
  let* x := rd xreq in
  upd (set_xreq (raw_term x)).

(** Modelled from the spec: [sp_xreq_send (sock, buf, len)] of xreq.c
    ("raw_send(buffer) -> Ok | WouldBlock | Fatal"): the raw socket is lent
    the [len] bytes at [buf] and answers with its code. *)
Definition sp_xreq_send (buf : ptr) (len : Z) : M retcode :=
  let* frame := load buf 0 len in
  let* x := rd xreq in
  let '(rc, x') := raw_send x frame in
  upd (set_xreq x') >>
  emit (EvXreqSend frame rc) >>
  ret rc.

(** Modelled from the spec: [sp_xreq_recv (sock, buf, &len)], the receive of
    xreq.c ("raw_recv(buffer, max_len) -> Ok(actual_len) | WouldBlock |
    Fatal"). On a frame the buffer receives as much of it as fits in its
    [capacity] and [*len] becomes the length of the whole frame; on an error
    nothing is stored and [*len] keeps its value. Returns the code and
    [*len]. *)
Definition sp_xreq_recv (buf : ptr) (capacity : Z) : M (retcode * Z) :=
  let* x := rd xreq in
  let '(res, x') := raw_recv x in
  upd (set_xreq x') >>
  emit (EvXreqRecv capacity res) >>
  match res with
  | RawFrame frame =>
      store buf 0 (take (Z.to_nat capacity) frame) >>
      ret (RC0, Z.of_nat (length frame))
  | RawFail e => ret (RCneg e, capacity)
  end.

(** Modelled from the spec: the two calls of the timer service
    ("start_timer(duration, callback)", "cancel_timer(handle) -- idempotent")
    on the [resend_timer] of the socket. *)
Definition sp_sockbase_timer_start (ivl : Z) : M unit :=
  upd (set_resend_timer (TimerArmed ivl)) >>
  emit (EvTimerStart ivl).

Definition sp_sockbase_timer_cancel : M unit :=
  upd (set_resend_timer TimerIdle) >>
  emit EvTimerCancel.

(** Modelled from the spec: [sp_random_generate (&self->reqid, 4)] of
    utils/random.h ("fill_random(buffer)"); the 32 bits it stores are the
    parameter [rnd]. *)
Definition sp_random_generate (rnd : Z) : M unit :=
  upd (set_reqid (uint32_wrap rnd)).

(** ** req.c *)

Definition in_progress (fl : Z) : bool :=
  negb (Z.land fl SP_REQ_INPROGRESS =? 0).

Definition sp_req_init (rnd : Z) : M unit :=
  sp_xreq_init >>
  (*  Start assigning request IDs beginning with a random number. *)
  sp_random_generate rnd >>
  let* id := rd reqid in
  upd (set_reqid (Z.land id 0x7fffffff)) >>
  upd (set_flags 0) >>
  upd (set_requestlen 0) >>
  upd (set_request NULL) >>
  upd (set_resend_ivl SP_REQ_DEFAULT_RESEND_IVL).

Definition sp_req_term : M unit :=
  let* fl := rd flags in
  (if in_progress fl then
     sp_sockbase_timer_cancel >>
     let* p := rd request in
     sp_free p
   else ret tt) >>
  sp_xreq_term.

Definition sp_req_send (buf : list byte) : M retcode :=
  let len := Z.of_nat (length buf) in
  (*  If there's a request in progress, cancel it. *)
  let* fl := rd flags in
  (if in_progress fl then
     let* p := rd request in
     sp_free p >>
     upd (set_requestlen 0) >>
     upd (set_request NULL) >>
     let* fl := rd flags in
     upd (set_flags (Z.land fl (uint32_not SP_REQ_INPROGRESS))) >>
     sp_sockbase_timer_cancel
   else ret tt) >>
  (*  Generate new request ID for the new request. *)
  let* id := rd reqid in
  upd (set_reqid (uint32_wrap (id + 1))) >>
  let* id := rd reqid in
  upd (set_reqid (Z.land id 0x7fffffff)) >>
  (*  Store the message so that it can be re-send if there's no reply.
      Tag it with the request ID. *)
  upd (set_requestlen (size_wrap (sizeof_uint32 + len))) >>
  let* rlen := rd requestlen in
  let* p := sp_alloc rlen in
  upd (set_request p) >>
  let* p := rd request in
  alloc_assert p >>
  let* id := rd reqid in
  sp_putl_at p (Z.lor id 0x80000000) >>
  store p 4 buf >>
  (*  Send the message. If it cannot be sent because of the pushback we'll
      pretend it was sent anyway. *)
  let* rlen := rd requestlen in
  let* rc := sp_xreq_send p rlen in
  errnum_assert (is_zero rc || is_eagain rc) >>
  (*  Remember that we are processing a request and waiting for the reply
      at the moment. *)
  let* fl := rd flags in
  upd (set_flags (Z.lor fl SP_REQ_INPROGRESS)) >>
  (*  Set up the re-send timer. *)
  let* ivl := rd resend_ivl in
  sp_sockbase_timer_start ivl >>
  ret RC0.

(** [sp_req_recv (self, buf, len)] with [*len = len] on entry: the code, the
    bytes stored at [buf], and [*len] on return. *)
Definition sp_req_recv (len : Z) : M (retcode * list byte * Z) :=
  (*  No request was sent. Waiting for a reply doesn't make sense. *)
  let* fl := rd flags in
  if negb (in_progress fl) then ret (RCneg EFSM, [], len) else
  let replylen := size_wrap (sizeof_uint32 + len) in
  let* reply := sp_alloc replylen in
  alloc_assert reply >>
  let* (rc, replylen) := sp_xreq_recv reply replylen in
  if is_eagain rc then
    sp_free reply >>
    ret (RCneg EAGAIN, [], len)
  else
  errnum_assert (is_zero rc) >>
  (*  Ignore malformed replies. *)
  if replylen <? sizeof_uint32 then
    sp_free reply >>
    ret (RCneg EAGAIN, [], len)
  else
  (*  Ignore replies with incorrect request IDs. *)
  let* id := sp_getl_at reply in
  if Z.land id 0x80000000 =? 0 then
    sp_free reply >>
    ret (RCneg EAGAIN, [], len)
  else
  let id := Z.land id 0x7fffffff in
  let* cur := rd reqid in
  if negb (id =? cur) then
    sp_free reply >>
    ret (RCneg EAGAIN, [], len)
  else
  (*  Correct reply received. Pass it to the caller. *)
  let n := if len <? size_wrap (replylen - sizeof_uint32)
           then len else size_wrap (replylen - sizeof_uint32) in
  let* copied := load reply 4 n in
  let len' := size_wrap (replylen - sizeof_uint32) in
  (*  Clean-up. *)
  sp_sockbase_timer_cancel >>
  sp_free reply >>
  let* p := rd request in
  sp_free p >>
  upd (set_requestlen 0) >>
  upd (set_request NULL) >>
  let* fl := rd flags in
  upd (set_flags (Z.land fl (uint32_not SP_REQ_INPROGRESS))) >>
  ret (RC0, copied, len').

Definition sp_req_resend_routine : M unit :=
  let* fl := rd flags in
  sp_assert (in_progress fl) >>
  (*  Re-send the request. *)
  let* p := rd request in
  let* rlen := rd requestlen in
  let* rc := sp_xreq_send p rlen in
  errnum_assert (is_zero rc || is_eagain rc) >>
  (*  Set up the next re-send timer. *)
  let* ivl := rd resend_ivl in
  sp_sockbase_timer_start ivl.

(** [sp_req_setopt (self, option, optval, optvallen)]; [optvallen] is the
    length of [optval]. *)
Definition sp_req_setopt (option : Z) (optval : list byte) : M retcode :=
  let optvallen := Z.of_nat (length optval) in
  if option =? SP_RESEND_IVL then
    if negb (optvallen =? sizeof_int) then ret (RCneg EINVAL) else
    upd (set_resend_ivl (int_load optval)) >>
    ret RC0
  else ret (RCneg ENOPROTOOPT).

(** [sp_req_getopt (self, option, optval, optvallen)] with
    [*optvallen = optvallen] on entry: the code, the bytes stored at
    [optval], and [*optvallen] on return. *)
Definition sp_req_getopt (option : Z) (optvallen : Z)
  : M (retcode * list byte * Z) :=
  if option =? SP_RESEND_IVL then
    if optvallen <? sizeof_int then ret (RCneg EINVAL, [], optvallen) else
    let* ivl := rd resend_ivl in
    ret (RC0, int_store ivl, sizeof_int)
  else ret (RCneg ENOPROTOOPT, [], optvallen).

(** ** The socket seen from outside *)

(** The bytes of the stored request: the contents of the block [request]
    points to. *)
Definition request_bytes (w : world) : option (list byte) :=
  match request (self w) with
  | NULL => None
  | Ptr b =>
      match blocks (mem w) !! b with
      | Some cells => written cells
      | None => None
      end
  end.

Definition timer_armed (t : sp_sockbase_timer) : bool :=
  match t with
  | TimerArmed _ => true
  | TimerIdle => false
  end.

(** The representation invariant of the socket. While a request is in
    progress, [request] points to a live, fully written block of
    [requestlen] bytes and the resend timer is armed; otherwise there is no
    stored request. *)
Definition req_wf (w : world) : bool :=
  if in_progress (flags (self w)) then
    match request_bytes w with
    | Some bs =>
        (requestlen (self w) =? Z.of_nat (length bs))
        && timer_armed (resend_timer (self w))
    | None => false
    end
  else
    match request (self w) with
    | NULL => requestlen (self w) =? 0
    | Ptr _ => false
    end.

(** The bytes a [send] can allocate: what the allocator has left, and the
    stored request that the [send] releases first. *)
Definition heap_room (w : world) : Z :=
  avail (mem w)
  + (if in_progress (flags (self w)) then requestlen (self w) else 0).

(** The calls a client and the timer service make on one socket. *)
Inductive call :=
  | CallSend (buf : list byte)
  | CallRecv (len : Z)
  | CallResend
  | CallSetopt (option : Z) (optval : list byte)
  | CallGetopt (option : Z) (optvallen : Z).

(** Run a sequence of calls; the result lists, in order, the tagged request
    each [CallSend] left in the stored buffer. *)
Fixpoint run (cs : list call) : M (list (list byte)) :=
  match cs with
  | [] => ret []
  | CallSend buf :: cs' =>
      sp_req_send buf >>
      let* p := rd request in
      let* rlen := rd requestlen in
      let* frame := load p 0 rlen in
      let* frames := run cs' in
      ret (frame :: frames)
  | CallRecv len :: cs' => sp_req_recv len >> run cs'
  | CallResend :: cs' => sp_req_resend_routine >> run cs'
  | CallSetopt o v :: cs' => sp_req_setopt o v >> run cs'
  | CallGetopt o n :: cs' => sp_req_getopt o n >> run cs'
  end.

Fixpoint count_sends (cs : list call) : nat :=
  match cs with
  | [] => 0%nat
  | CallSend _ :: cs' => S (count_sends cs')
  | _ :: cs' => count_sends cs'
  end.

(** ** Notions used to state the properties *)

(** The replies a [recv] in progress discards: nothing available, a frame
    too short for a tag, a tag without the marker bit, or an ID other than
    the current one [cur]. *)
Definition rejected (cur : Z) (res : raw_recv_result) : Prop :=
  match res with
  | RawFail e => e = EAGAIN
  | RawFrame frame =>
      Z.of_nat (length frame) < 4
      \/ Z.testbit (sp_getl (take 4 frame)) 31 = false
      \/ sp_getl (take 4 frame) mod 2 ^ 31 <> cur
  end.

(** A computation that, when it returns, leaves [reqid] as it found it. *)
Definition keeps_reqid {A} (m : M A) : Prop :=
  forall w a w', m w = Ret a w' -> reqid (self w') = reqid (self w).

(** The state a returning computation ends in ([w] itself otherwise). *)
Definition state_after {A} (m : M A) (w : world) : world :=
  match m w with
  | Ret _ w' => w'
  | Abort | Fault => w
  end.

(** ** Notions used to state further properties *)

(** The live blocks other than the stored request. *)
Definition other_blocks (w : world) : gmap block (list memval) :=
  if in_progress (flags (self w)) then
    match request (self w) with
    | Ptr b => delete b (blocks (mem w))
    | NULL => blocks (mem w)
    end
  else blocks (mem w).

(** The stored request carries the current ID: while a request is in
    progress, the first four bytes of the stored buffer decode to
    [reqid | 0x80000000], and [reqid] has 31 bits. *)
Definition req_tagged (w : world) : bool :=
  if in_progress (flags (self w)) then
    match request_bytes w with
    | Some bs =>
        (4 <=? Z.of_nat (length bs))
        && (sp_getl (take 4 bs) =? Z.lor (reqid (self w)) 0x80000000)
        && (0 <=? reqid (self w)) && (reqid (self w) <? 2 ^ 31)
    | None => false
    end
  else true.

(** One call, with the code it returns (the resend callback returns
    nothing: 0). *)
Definition do_call (c : call) : M retcode :=
  match c with
  | CallSend buf => sp_req_send buf
  | CallRecv len =>
      let* r := sp_req_recv len in
      ret (fst (fst r))
  | CallResend => sp_req_resend_routine >> ret RC0
  | CallSetopt o v => sp_req_setopt o v
  | CallGetopt o n =>
      let* r := sp_req_getopt o n in
      ret (fst (fst r))
  end.

Fixpoint do_calls (cs : list call) : M (list retcode) :=
  match cs with
  | [] => ret []
  | c :: cs' =>
      let* rc := do_call c in
      let* rcs := do_calls cs' in
      ret (rc :: rcs)
  end.

(** The number of [CallRecv]s of [cs] that returned 0, given the codes [rcs]
    of the calls. *)
Fixpoint recv_successes (cs : list call) (rcs : list retcode) : nat :=
  match cs, rcs with
  | CallRecv _ :: cs', RC0 :: rcs' => S (recv_successes cs' rcs')
  | _ :: cs', _ :: rcs' => recv_successes cs' rcs'
  | _, _ => 0%nat
  end.

(** The frames handed to the raw socket, read off the log of calls. *)
Fixpoint dispatched (tr : list event) : list (list byte) :=
  match tr with
  | [] => []
  | EvXreqSend frame _ :: tr' => frame :: dispatched tr'
  | _ :: tr' => dispatched tr'
  end.

(** The calls to the raw socket's send and to the timer's start that a log
    holds. *)
Definition is_dispatch (e : event) : bool :=
  match e with
  | EvXreqSend _ _ | EvTimerStart _ => true
  | _ => false
  end.

(** The events [recv] may log: everything but a send to the raw socket and
    a start of the timer. *)
Definition passive (e : event) : bool := negb (is_dispatch e).

(** A computation that, when it returns, has appended to the log only
    events that satisfy [ok]. *)
Definition emits_only {A} (ok : event -> bool) (m : M A) : Prop :=
  forall w a w',
    m w = Ret a w' ->
    exists evs, trace w' = trace w ++ evs /\ forallb ok evs = true.

End Machine.

Arguments sp_req X : clear implicits.
Arguments world X : clear implicits.
Arguments outcome X A : clear implicits.
Arguments M X A : clear implicits.

(** ** A scripted raw socket

    An instance of the raw socket used to run the embedding on concrete
    inputs: receives and sends answer from two scripts, and the frames
    handed to [raw_send] are kept in order. *)

Record scripted := mk_scripted {
  recv_script : list raw_recv_result;
  send_script : list retcode;
  sent : list (list byte)
}.

Definition scripted_send (x : scripted) (frame : list byte)
  : retcode * scripted :=
  match send_script x with
  | rc :: rest => (rc, mk_scripted (recv_script x) rest (sent x ++ [frame]))
  | [] => (RC0, mk_scripted (recv_script x) [] (sent x ++ [frame]))
  end.

Definition scripted_recv (x : scripted) : raw_recv_result * scripted :=
  match recv_script x with
  | res :: rest => (res, mk_scripted rest (send_script x) (sent x))
  | [] => (RawFail EAGAIN, x)
  end.

#[export] Instance scripted_raw_socket : RawSocket scripted := {
  raw_init x := x;
  raw_term x := x;
  raw_send := scripted_send;
  raw_recv := scripted_recv
}.

(** A raw socket that accepts every frame and never delivers one; its
    state is the list of the frames accepted. *)
#[export] Instance sink_raw_socket : RawSocket (list (list byte)) := {
  raw_init x := x;
  raw_term x := x;
  raw_send x frame := (RC0, x ++ [frame]);
  raw_recv x := (RawFail EAGAIN, x)
}.

Definition empty_heap (capacity : Z) : heap := mk_heap ∅ capacity.

(** A socket structure before [sp_req_init]: every field holds whatever
    the memory held. *)
Definition raw_world {X} (x : X) (capacity : Z) : world X :=
  mk_world (empty_heap capacity)
           (mk_req x 12345 77 9 (Ptr 5%positive) (-3) (TimerArmed 8)) [].

Definition ping : list byte := [x70; x69; x6e; x67].
Definition pong : list byte := [x70; x6f; x6e; x67].

(** An initialised socket (random seed 42, 100 bytes of heap) over the raw
    socket [x], and the same socket after [send (ping)]; the request then in
    progress has the ID 43. *)
Definition idle_world {X} `{RawSocket X} (x : X) : world X :=
  state_after (sp_req_init 42) (raw_world x 100).

Definition busy_world {X} `{RawSocket X} (x : X) : world X :=
  state_after (sp_req_send ping) (idle_world x).

(** Replies: the answer to request 43, to the superseded request 42, a tag
    without the marker bit, a frame too short to hold a tag, and the answer
    to request 44. *)
Definition reply43 : list byte := [x80; x00; x00; x2b] ++ pong.
Definition reply42 : list byte := [x80; x00; x00; x2a] ++ pong.
Definition reply_unmarked : list byte := [x00; x00; x00; x2b] ++ pong.
Definition reply_short : list byte := [x80; x00; x00].
Definition reply44 : list byte := [x80; x00; x00; x2c] ++ ping.

(** Raw sockets for the examples: one with nothing to deliver, one that
    delivers the given frames in order, one that pushes back on the first
    send. *)
Definition quiet : scripted := mk_scripted [] [] [].

Definition delivering (frames : list (list byte)) : scripted :=
  mk_scripted (RawFrame <$> frames) [] [].

Definition congested : scripted := mk_scripted [] [RCneg EAGAIN] [].

(** The tagged request of [busy_world]. *)
Definition request43 : list byte := [x80; x00; x00; x2b] ++ ping.

(** Raw sockets that fail with the error 5: on the first receive, on the
    first send, and on the second send (the first firing of the timer after
    a [send]). *)
Definition failing_recv : scripted := mk_scripted [RawFail (EOTHER 5)] [] [].

Definition failing_send : scripted := mk_scripted [] [RCneg (EOTHER 5)] [].

Definition failing_resend : scripted :=
  mk_scripted [] [RC0; RCneg (EOTHER 5)] [].

(** A session of a client, with 1 as the identifier of the resend interval
    option: a request that is answered, a second [recv], a new request, a
    firing of the timer, a [recv], the two option calls and a third
    request; and the codes it returns over a raw socket that delivers
    [reply43] and then [reply42]. *)
Definition session : list call :=
  [CallSend ping; CallRecv 8; CallRecv 8; CallSend pong; CallResend;
   CallRecv 8; CallSetopt 1 [x10; x27; x00; x00]; CallGetopt 1 4;
   CallSend ping].

Definition session_codes : list retcode :=
  [RC0; RC0; RCneg EFSM; RC0; RC0; RCneg EAGAIN; RC0; RC0; RC0].

(** * Properties *)

(** ** Bytes, tags and [int] objects *)

Lemma byte_to_Z_range (b : byte) : 0 <= byte_to_Z b < 256.
Proof.
  unfold byte_to_Z. pose proof (Byte.to_N_bounded b) as Hb.
  lia.
Qed.

Lemma byte_to_of_Z (z : Z) : byte_to_Z (byte_of_Z z) = z mod 256.
Proof.
  unfold byte_to_Z, byte_of_Z.
  assert (Hr : 0 <= z mod 256 < 256) by (apply Z.mod_pos_bound; lia).
  destruct (Byte.of_N (Z.to_N (z mod 256))) as [b|] eqn:E.
  - apply Byte.to_of_N in E. rewrite E. lia.
  - apply Byte.of_N_None_iff in E. lia.
Qed.

Lemma byte_of_to_Z (b : byte) : byte_of_Z (byte_to_Z b) = b.
Proof.
  unfold byte_of_Z. pose proof (byte_to_Z_range b) as Hr.
  rewrite Z.mod_small by lia. unfold byte_to_Z.
  rewrite N2Z.id, Byte.of_to_N. reflexivity.
Qed.

Lemma byte_testbit (z n : Z) :
  0 <= n ->
  Z.testbit (byte_to_Z (byte_of_Z z)) n = (n <? 8) && Z.testbit z n.
Proof.
  intros Hn. rewrite byte_to_of_Z. change 256 with (2 ^ 8).
  destruct (Z.ltb_spec n 8).
  - rewrite Z.mod_pow2_bits_low by lia. reflexivity.
  - rewrite Z.mod_pow2_bits_high by lia. reflexivity.
Qed.

Lemma byte_to_Z_testbit_high (b : byte) (n : Z) :
  8 <= n -> Z.testbit (byte_to_Z b) n = false.
Proof.
  intros Hn. rewrite <- (byte_of_to_Z b), byte_testbit by lia.
  destruct (Z.ltb_spec n 8); [lia | reflexivity].
Qed.

Lemma sp_getl_putl (v : Z) : sp_getl (sp_putl v) = v mod 2 ^ 32.
Proof.
  unfold sp_getl, sp_putl. apply Z.bits_inj'. intros n Hn.
  rewrite !Z.lor_spec, !Z.shiftl_spec by lia.
  destruct (Z.ltb_spec n 32) as [Hlt|Hge].
  - rewrite Z.mod_pow2_bits_low by lia.
    destruct (Z.ltb_spec n 8); [|destruct (Z.ltb_spec n 16); [|destruct (Z.ltb_spec n 24)]].
    all: rewrite ?(Z.testbit_neg_r _ (n - 24)), ?(Z.testbit_neg_r _ (n - 16)),
           ?(Z.testbit_neg_r _ (n - 8)) by lia.
    all: rewrite ?byte_testbit by lia.
    all: rewrite ?Z.shiftr_spec by lia.
    all: repeat match goal with
           | |- context [?a <? ?b] => destruct (Z.ltb_spec a b); try lia
           end.
    all: simpl; rewrite ?orb_false_r; f_equal; lia.
  - rewrite Z.mod_pow2_bits_high by lia.
    rewrite !byte_testbit by lia.
    repeat match goal with
           | |- context [?a <? ?b] => destruct (Z.ltb_spec a b); try lia
           end.
Qed.

Lemma sp_getl_range (bs : list byte) : 0 <= sp_getl bs < 2 ^ 32.
Proof.
  assert (Hz : forall z, (forall n, 32 <= n -> Z.testbit z n = false) -> 0 <= z ->
               0 <= z < 2 ^ 32).
  { intros z Hb Hz. split; [lia|].
    destruct (Z.eq_dec z 0) as [->|Hne]; [lia|].
    apply Z.log2_lt_pow2; [lia|].
    destruct (Z.lt_ge_cases (Z.log2 z) 32) as [|Hge]; [lia|].
    specialize (Hb _ Hge). rewrite Z.bit_log2 in Hb by lia. discriminate. }
  unfold sp_getl.
  destruct bs as [|b0 [|b1 [|b2 [|b3 [|? ?]]]]]; try (simpl; lia).
  pose proof (byte_to_Z_range b0). pose proof (byte_to_Z_range b1).
  pose proof (byte_to_Z_range b2). pose proof (byte_to_Z_range b3).
  apply Hz.
  - intros n Hn. rewrite !Z.lor_spec, !Z.shiftl_spec by lia.
    rewrite !byte_to_Z_testbit_high by lia. reflexivity.
  - rewrite !Z.lor_nonneg, !Z.shiftl_nonneg. lia.
Qed.

Lemma land_mask31 (t : Z) : Z.land t 0x7fffffff = t mod 2 ^ 31.
Proof. change 0x7fffffff with (Z.ones 31). apply Z.land_ones. lia. Qed.

Lemma land_bit31 (t : Z) :
  (Z.land t 0x80000000 =? 0) = negb (Z.testbit t 31).
Proof.
  change 0x80000000 with (2 ^ 31).
  destruct (Z.testbit t 31) eqn:Hb; simpl.
  - apply Z.eqb_neq. intros Hz.
    assert (Ht : Z.testbit (Z.land t (2 ^ 31)) 31 = true).
    { rewrite Z.land_spec, Hb, Z.pow2_bits_true by lia. reflexivity. }
    rewrite Hz in Ht. rewrite Z.bits_0 in Ht. discriminate.
  - apply Z.eqb_eq. apply Z.bits_inj'. intros n Hn.
    rewrite Z.land_spec, Z.bits_0, Z.pow2_bits_eqb by lia.
    destruct (Z.eqb_spec 31 n) as [<-|]; [rewrite Hb; reflexivity|].
    apply andb_false_r.
Qed.

Lemma lor_bit31 (id : Z) :
  0 <= id < 2 ^ 31 -> Z.lor id 0x80000000 = id + 2 ^ 31.
Proof.
  intros Hid. change 0x80000000 with (2 ^ 31).
  rewrite Z.add_comm. rewrite <- Z.add_nocarry_lor; [ring|].
  rewrite Z.land_comm.
  apply Z.bits_inj'. intros n Hn.
  rewrite Z.land_spec, Z.bits_0, Z.pow2_bits_eqb by lia.
  destruct (Z.eqb_spec 31 n) as [<-|]; [|reflexivity].
  replace (Z.testbit id 31) with false; [reflexivity|].
  symmetry. destruct (Z.eq_dec id 0) as [->|]; [apply Z.bits_0|].
  apply Z.bits_above_log2; [lia|]. apply Z.log2_lt_pow2; lia.
Qed.

Lemma mod32_mod31 (z : Z) : (z mod 2 ^ 32) mod 2 ^ 31 = z mod 2 ^ 31.
Proof.
  apply Z.mod_mod_divide. exists 2. reflexivity.
Qed.

(** The request ID after [++req->reqid; req->reqid &= 0x7fffffff]. *)
Lemma next_reqid (id : Z) :
  Z.land (uint32_wrap (id + 1)) 0x7fffffff = (id + 1) mod 2 ^ 31.
Proof. rewrite land_mask31. unfold uint32_wrap, UINT32_MOD. apply mod32_mod31. Qed.

Lemma tag_roundtrip (id : Z) :
  0 <= id < 2 ^ 31 ->
  sp_getl (sp_putl (Z.lor id 0x80000000)) = id + 2 ^ 31.
Proof.
  intros Hid. rewrite sp_getl_putl, lor_bit31 by lia.
  apply Z.mod_small. lia.
Qed.

Lemma testbit31_add (id : Z) :
  0 <= id < 2 ^ 31 -> Z.testbit (id + 2 ^ 31) 31 = true.
Proof.
  intros Hid. rewrite <- lor_bit31 by lia. change 0x80000000 with (2 ^ 31).
  rewrite Z.lor_spec, Z.pow2_bits_true by lia. apply orb_true_r.
Qed.

Lemma length_sp_putl (v : Z) : length (sp_putl v) = 4%nat.
Proof. reflexivity. Qed.

Lemma int_wrap_small (v : Z) : INT_MIN <= v <= INT_MAX -> int_wrap v = v.
Proof.
  unfold int_wrap, INT_MIN, INT_MAX, UINT32_MOD. intros Hv.
  rewrite Z.mod_small by lia. lia.
Qed.

Lemma int_wrap_range (z : Z) : INT_MIN <= int_wrap z <= INT_MAX.
Proof.
  unfold int_wrap, INT_MIN, INT_MAX, UINT32_MOD.
  pose proof (Z.mod_pos_bound (z + 2 ^ 31) (2 ^ 32) eq_refl). lia.
Qed.

Lemma int_load_store (v : Z) :
  INT_MIN <= v <= INT_MAX -> int_load (int_store v) = v.
Proof.
  intros Hv. rewrite <- (int_wrap_small v Hv) at 2.
  unfold int_load, int_store. rewrite !byte_to_of_Z.
  rewrite !Z.shiftl_mul_pow2, !Z.shiftr_div_pow2 by lia.
  unfold int_wrap, UINT32_MOD. f_equal.
  change (2 ^ 8) with 256. change (2 ^ 16) with 65536.
  change (2 ^ 24) with 16777216. change (2 ^ 32) with 4294967296.
  change (2 ^ 31) with 2147483648.
  Z.to_euclidean_division_equations. lia.
Qed.

Lemma byte_of_Z_eq (z : Z) (b : byte) :
  z mod 256 = byte_to_Z b -> byte_of_Z z = b.
Proof.
  intros Hz. rewrite <- (byte_of_to_Z b), <- Hz.
  unfold byte_of_Z. rewrite Z.mod_mod by lia. reflexivity.
Qed.

Lemma int_store_load (bs : list byte) :
  length bs = 4%nat -> int_store (int_load bs) = bs.
Proof.
  destruct bs as [|b0 [|b1 [|b2 [|b3 [|? ?]]]]]; try discriminate.
  intros _. unfold int_load, int_store.
  pose proof (byte_to_Z_range b0). pose proof (byte_to_Z_range b1).
  pose proof (byte_to_Z_range b2). pose proof (byte_to_Z_range b3).
  rewrite !Z.shiftl_mul_pow2, !Z.shiftr_div_pow2 by lia.
  unfold int_wrap, UINT32_MOD.
  change (2 ^ 8) with 256. change (2 ^ 16) with 65536.
  change (2 ^ 24) with 16777216. change (2 ^ 32) with 4294967296.
  change (2 ^ 31) with 2147483648.
  repeat f_equal; apply byte_of_Z_eq;
    Z.to_euclidean_division_equations; lia.
Qed.

(** ** Stepping through the monad *)

Section Proofs.
Context {X : Type} `{RawSocket X}.
Variable SP_RESEND_IVL : Z.
Implicit Types (w : world X).

Lemma bind_rd {A B} (f : sp_req X -> A) (k : A -> M X B) w :
  bind (rd f) k w = k (f (self w)) w.
Proof. reflexivity. Qed.

Lemma bind_upd {B} (g : sp_req X -> sp_req X) (k : unit -> M X B) w :
  bind (upd g) k w = k tt (mk_world (mem w) (g (self w)) (trace w)).
Proof. reflexivity. Qed.

Lemma bind_emit {B} (e : event) (k : unit -> M X B) w :
  bind (emit e) k w = k tt (mk_world (mem w) (self w) (trace w ++ [e])).
Proof. reflexivity. Qed.

Lemma bind_ret {A B} (a : A) (k : A -> M X B) w : bind (ret a) k w = k a w.
Proof. reflexivity. Qed.

Lemma bind_assoc {A B C} (m : M X A) (k1 : A -> M X B) (k2 : B -> M X C) w :
  bind (bind m k1) k2 w = bind m (fun a => bind (k1 a) k2) w.
Proof. unfold bind. destruct (m w); reflexivity. Qed.

Lemma Ret_world {A} (a b : A) w1 w2 : Ret a w1 = Ret b w2 -> w1 = w2.
Proof. intros [= _ ->]. reflexivity. Qed.

Lemma bind_inv {A B} (m : M X A) (k : A -> M X B) w b w2 :
  bind m k w = Ret b w2 ->
  exists a w1, m w = Ret a w1 /\ k a w1 = Ret b w2.
Proof. unfold bind. destruct (m w) as [a w1| |]; [eauto | discriminate..]. Qed.

(** ** The allocator and memory accesses *)

Lemma fresh_block_unused w :
  blocks (mem w) !! fresh (dom (blocks (mem w))) = None.
Proof. apply not_elem_of_dom. apply is_fresh. Qed.

Lemma sp_alloc_ok w size :
  size <= avail (mem w) ->
  sp_alloc size w =
    Ret (Ptr (fresh (dom (blocks (mem w)))))
        (mk_world
           (mk_heap (<[fresh (dom (blocks (mem w))) :=
                        replicate (Z.to_nat size) None]> (blocks (mem w)))
                    (avail (mem w) - size))
           (self w)
           (trace w ++ [EvAlloc size (Ptr (fresh (dom (blocks (mem w)))))])).
Proof.
  intros Hle. unfold sp_alloc.
  destruct (Z.leb_spec size (avail (mem w))); [reflexivity | lia].
Qed.

Lemma sp_free_ok w b cells :
  blocks (mem w) !! b = Some cells ->
  sp_free (Ptr b) w =
    Ret tt (mk_world
              (mk_heap (delete b (blocks (mem w)))
                       (avail (mem w) + Z.of_nat (length cells)))
              (self w) (trace w ++ [EvFree (Ptr b)])).
Proof. intros Hb. unfold sp_free. rewrite Hb. reflexivity. Qed.

Lemma written_bytes (bs : list byte) : written (Some <$> bs) = Some bs.
Proof. unfold written. apply mapM_fmap_Some. reflexivity. Qed.

Lemma written_inv (cells : list memval) (bs : list byte) :
  written cells = Some bs -> cells = Some <$> bs.
Proof.
  unfold written. intros Hm. apply mapM_Some in Hm.
  induction Hm as [|c b cells bs Hc _ IH]; [reflexivity|].
  simpl in *. subst. reflexivity.
Qed.

Lemma load_ok w b cells off n bs :
  blocks (mem w) !! b = Some cells ->
  0 <= off -> 0 <= n -> off + n <= Z.of_nat (length cells) ->
  take (Z.to_nat n) (drop (Z.to_nat off) cells) = Some <$> bs ->
  load (Ptr b) off n w = Ret bs w.
Proof.
  intros Hb Hoff Hn Hlen Hbs. unfold load. rewrite Hb.
  destruct (Z.leb_spec 0 off); [|lia].
  destruct (Z.leb_spec 0 n); [|lia].
  destruct (Z.leb_spec (off + n) (Z.of_nat (length cells))); [|lia].
  simpl. rewrite Hbs, written_bytes. reflexivity.
Qed.

Lemma store_ok w b cells off bs :
  blocks (mem w) !! b = Some cells ->
  0 <= off -> off + Z.of_nat (length bs) <= Z.of_nat (length cells) ->
  store (Ptr b) off bs w =
    Ret tt (mk_world
              (mk_heap (<[b := take (Z.to_nat off) cells ++ (Some <$> bs)
                               ++ drop (Z.to_nat off + length bs) cells]>
                          (blocks (mem w)))
                       (avail (mem w)))
              (self w) (trace w)).
Proof.
  intros Hb Hoff Hlen. unfold store. rewrite Hb.
  destruct (Z.leb_spec 0 off); [|lia].
  destruct (Z.leb_spec (off + Z.of_nat (length bs)) (Z.of_nat (length cells)));
    [|lia].
  reflexivity.
Qed.

Lemma load_inv w p off n bs w' :
  load p off n w = Ret bs w' ->
  w' = w /\ exists b cells,
    p = Ptr b /\ blocks (mem w) !! b = Some cells /\
    0 <= off /\ 0 <= n /\ off + n <= Z.of_nat (length cells) /\
    take (Z.to_nat n) (drop (Z.to_nat off) cells) = Some <$> bs.
Proof.
  unfold load. destruct p as [|b]; [discriminate|].
  destruct (blocks (mem w) !! b) as [cells|] eqn:Hb; [|discriminate].
  destruct (Z.leb_spec 0 off); [|discriminate].
  destruct (Z.leb_spec 0 n); [|discriminate].
  destruct (Z.leb_spec (off + n) (Z.of_nat (length cells))); [|discriminate].
  simpl.
  destruct (written _) as [bs'|] eqn:Hw; [|discriminate].
  intros [= -> ->]. split; [reflexivity|].
  exists b, cells. repeat split; try assumption. by apply written_inv.
Qed.

Lemma store_inv w p off bs w' :
  store p off bs w = Ret tt w' ->
  exists b cells,
    p = Ptr b /\ blocks (mem w) !! b = Some cells /\
    0 <= off /\ off + Z.of_nat (length bs) <= Z.of_nat (length cells) /\
    w' = mk_world
           (mk_heap (<[b := take (Z.to_nat off) cells ++ (Some <$> bs)
                            ++ drop (Z.to_nat off + length bs) cells]>
                       (blocks (mem w)))
                    (avail (mem w)))
           (self w) (trace w).
Proof.
  unfold store. destruct p as [|b]; [discriminate|].
  destruct (blocks (mem w) !! b) as [cells|] eqn:Hb; [|discriminate].
  destruct (Z.leb_spec 0 off); [|discriminate].
  destruct (Z.leb_spec (off + Z.of_nat (length bs)) (Z.of_nat (length cells)));
    [|discriminate].
  simpl. intros [= <-]. exists b, cells. repeat split; assumption.
Qed.

Lemma sp_alloc_inv w size p w' :
  sp_alloc size w = Ret p w' ->
  (p = NULL /\ avail (mem w) < size /\
   w' = mk_world (mem w) (self w) (trace w ++ [EvAlloc size NULL]))
  \/ (p = Ptr (fresh (dom (blocks (mem w)))) /\ size <= avail (mem w) /\
      w' = mk_world
             (mk_heap (<[fresh (dom (blocks (mem w))) :=
                          replicate (Z.to_nat size) None]> (blocks (mem w)))
                      (avail (mem w) - size))
             (self w)
             (trace w ++ [EvAlloc size (Ptr (fresh (dom (blocks (mem w)))))])).
Proof.
  unfold sp_alloc. destruct (Z.leb_spec size (avail (mem w))).
  - intros [= <- <-]. right. auto.
  - intros [= <- <-]. left. auto.
Qed.

Lemma sp_free_inv w p w' :
  sp_free p w = Ret tt w' ->
  (p = NULL /\ w' = mk_world (mem w) (self w) (trace w ++ [EvFree NULL]))
  \/ exists b cells,
      p = Ptr b /\ blocks (mem w) !! b = Some cells /\
      w' = mk_world
             (mk_heap (delete b (blocks (mem w)))
                      (avail (mem w) + Z.of_nat (length cells)))
             (self w) (trace w ++ [EvFree (Ptr b)]).
Proof.
  unfold sp_free. destruct p as [|b].
  - intros [= <-]. left. auto.
  - destruct (blocks (mem w) !! b) as [cells|] eqn:Hb; [|discriminate].
    intros [= <-]. right. eauto.
Qed.

Ltac norm :=
  cbn [mem self trace blocks avail xreq reqid flags requestlen request
       resend_ivl resend_timer set_xreq set_reqid set_flags set_requestlen
       set_request set_resend_ivl set_resend_timer] in *.

Ltac step :=
  repeat (first [ rewrite bind_assoc | rewrite bind_rd | rewrite bind_upd
                | rewrite bind_emit | rewrite bind_ret ]; norm).

Lemma size_wrap_small (n : Z) : 0 <= n <= SIZE_MAX -> size_wrap n = n.
Proof. unfold size_wrap, SIZE_MAX. intros Hn. apply Z.mod_small. lia. Qed.

(** The cells of a block after [sp_putl] at offset 0 and [memcpy] at
    offset 4 have filled it. *)
Lemma filled_cells (hd buf : list byte) :
  length hd = 4%nat ->
  let c0 : list memval := replicate (Z.to_nat (4 + Z.of_nat (length buf))) None in
  let c1 := take (Z.to_nat 0) c0 ++ (Some <$> hd)
            ++ drop (Z.to_nat 0 + length hd) c0 in
  take (Z.to_nat 4) c1 ++ (Some <$> buf) ++ drop (Z.to_nat 4 + length buf) c1
  = Some <$> (hd ++ buf).
Proof.
  intros Hhd c0 c1. subst c0 c1. rewrite Hhd.
  change (Z.to_nat 0) with 0%nat. change (Z.to_nat 4) with 4%nat.
  rewrite take_0, app_nil_l, drop_replicate.
  rewrite take_app_length' by (rewrite length_fmap; lia).
  rewrite drop_app_ge by (rewrite length_fmap; lia).
  rewrite length_fmap, drop_replicate, Hhd.
  replace (Z.to_nat (4 + Z.of_nat (length buf)) - (0 + 4)
           - (4 + length buf - 4))%nat with 0%nat by lia.
  simpl. rewrite app_nil_r, fmap_app. reflexivity.
Qed.

(** [sp_req_send] on a socket with no request in progress, when the
    tagged request fits in a [size_t] and in the heap. *)
Lemma send_idle_eq w buf :
  let len := Z.of_nat (length buf) in
  let id' := Z.land (uint32_wrap (reqid (self w) + 1)) 0x7fffffff in
  let frame := sp_putl (Z.lor id' 0x80000000) ++ buf in
  let b := fresh (dom (blocks (mem w))) in
  in_progress (flags (self w)) = false ->
  4 + len <= SIZE_MAX ->
  4 + len <= avail (mem w) ->
  sp_req_send buf w =
    let '(rc, x') := raw_send (xreq (self w)) frame in
    if is_zero rc || is_eagain rc then
      Ret RC0
        (mk_world
           (mk_heap (<[b := Some <$> frame]> (blocks (mem w)))
                    (avail (mem w) - (4 + len)))
           (mk_req x' id' (Z.lor (flags (self w)) SP_REQ_INPROGRESS)
                   (4 + len) (Ptr b) (resend_ivl (self w))
                   (TimerArmed (resend_ivl (self w))))
           (trace w ++ [EvAlloc (4 + len) (Ptr b); EvXreqSend frame rc;
                        EvTimerStart (resend_ivl (self w))]))
    else Abort.
Proof.
  intros len id' frame b Hidle Hsz Hav. subst len.
  unfold sp_req_send. rewrite bind_rd, Hidle. step.
  change sizeof_uint32 with 4.
  rewrite size_wrap_small by lia.
  unfold bind at 1. rewrite sp_alloc_ok by (norm; lia). norm. step.
  unfold alloc_assert. step.
  unfold sp_putl_at. fold id'. fold b.
  unfold bind at 1.
  erewrite store_ok; [| norm; apply lookup_insert_eq | lia
                      | rewrite length_replicate; simpl; lia ].
  norm. unfold bind at 1.
  erewrite store_ok; [| norm; apply lookup_insert_eq | lia | ].
  2:{ rewrite !length_app, length_take, length_fmap, length_drop,
        length_replicate. simpl. lia. }
  norm. rewrite !insert_insert_eq.
  rewrite (filled_cells (sp_putl (Z.lor id' 0x80000000)) buf eq_refl).
  fold frame.
  unfold sp_xreq_send. step. unfold bind at 1.
  erewrite load_ok with (bs := frame);
    [| norm; apply lookup_insert_eq | lia | lia | | ].
  2:{ rewrite length_fmap. unfold frame. rewrite length_app. simpl. lia. }
  2:{ change (Z.to_nat 0) with 0%nat. rewrite drop_0. apply take_ge.
      rewrite length_fmap. unfold frame. rewrite length_app. simpl. lia. }
  step. destruct (raw_send (xreq (self w)) frame) as [rc x']. step.
  unfold errnum_assert. destruct (is_zero rc || is_eagain rc); [|reflexivity].
  step. unfold sp_sockbase_timer_start. step.
  unfold ret. rewrite <- !app_assoc. reflexivity.
Qed.

Lemma in_progress_testbit (fl : Z) : in_progress fl = Z.testbit fl 0.
Proof.
  unfold in_progress, SP_REQ_INPROGRESS.
  change 1 with (Z.ones 1). rewrite Z.land_ones by lia.
  rewrite Z.bit0_odd, Zmod_odd. change (2 ^ 1) with 2.
  destruct (Z.odd fl); reflexivity.
Qed.

Lemma in_progress_clear (fl : Z) :
  in_progress (Z.land fl (uint32_not SP_REQ_INPROGRESS)) = false.
Proof.
  rewrite in_progress_testbit, Z.land_spec. apply andb_false_r.
Qed.

Lemma in_progress_set (fl : Z) :
  in_progress (Z.lor fl SP_REQ_INPROGRESS) = true.
Proof.
  rewrite in_progress_testbit, Z.lor_spec. apply orb_true_r.
Qed.

(** A [send] over a request in progress is the [send] of the socket in which
    that request has been cancelled. *)
Lemma send_supersede w buf b cells :
  in_progress (flags (self w)) = true ->
  request (self w) = Ptr b ->
  blocks (mem w) !! b = Some cells ->
  sp_req_send buf w =
    sp_req_send buf
      (mk_world
         (mk_heap (delete b (blocks (mem w)))
                  (avail (mem w) + Z.of_nat (length cells)))
         (mk_req (xreq (self w)) (reqid (self w))
                 (Z.land (flags (self w)) (uint32_not SP_REQ_INPROGRESS))
                 0 NULL (resend_ivl (self w)) TimerIdle)
         (trace w ++ [EvFree (Ptr b); EvTimerCancel])).
Proof.
  intros Hbusy Hp Hb.
  unfold sp_req_send at 2. rewrite bind_rd. norm.
  rewrite in_progress_clear, bind_ret.
  unfold sp_req_send. rewrite bind_rd, Hbusy. step. rewrite Hp.
  unfold bind at 1. rewrite (sp_free_ok _ _ _ Hb). norm. step.
  unfold sp_sockbase_timer_cancel. step.
  rewrite <- !app_assoc. reflexivity.
Qed.

Lemma heap_restore (h : heap) (b : block) (cells : list memval) (cap : Z) :
  blocks h !! b = None ->
  Z.of_nat (length cells) = cap ->
  mk_heap (delete b (<[b := cells]> (blocks h)))
          (avail h - cap + Z.of_nat (length cells)) = h.
Proof.
  intros Hb Hlen. destruct h as [bl av]. simpl in *.
  rewrite delete_insert_id by assumption. f_equal. lia.
Qed.

Lemma length_stored (cells : list memval) (off : nat) (bs : list byte) :
  (off + length bs <= length cells)%nat ->
  length (take off cells ++ (Some <$> bs) ++ drop (off + length bs) cells)
  = length cells.
Proof.
  intros Hle. rewrite !length_app, length_take, length_fmap, length_drop. lia.
Qed.

(** Reading inside the written prefix of a block. *)
Lemma take_drop_written (bs : list byte) (rest : list memval) (off n : nat) :
  (off + n <= length bs)%nat ->
  take n (drop off ((Some <$> bs) ++ rest)) = Some <$> take n (drop off bs).
Proof.
  intros Hle. rewrite drop_app_le by (rewrite length_fmap; lia).
  rewrite take_app_le by (rewrite length_drop, length_fmap; lia).
  rewrite fmap_take, fmap_drop. reflexivity.
Qed.

(** Releasing the temporary reply buffer restores the heap. *)
Lemma discard_reply (h : heap) (b : block) (cells : list memval)
      (s : sp_req X) (tr : list event) (len cap : Z) :
  blocks h !! b = None ->
  Z.of_nat (length cells) = cap ->
  bind (sp_free (Ptr b)) (fun _ => ret (RCneg EAGAIN, @nil byte, len))
       (mk_world (mk_heap (<[b := cells]> (blocks h)) (avail h - cap)) s tr)
  = Ret (RCneg EAGAIN, [], len) (mk_world h s (tr ++ [EvFree (Ptr b)])).
Proof.
  intros Hb Hlen. unfold bind.
  erewrite sp_free_ok by (norm; apply lookup_insert_eq). norm.
  rewrite heap_restore by assumption. reflexivity.
Qed.

Lemma recv_reject w len res x' :
  let cap := 4 + len in
  let b := fresh (dom (blocks (mem w))) in
  in_progress (flags (self w)) = true ->
  0 <= len -> 4 + len <= SIZE_MAX -> 4 + len <= avail (mem w) ->
  raw_recv (xreq (self w)) = (res, x') ->
  rejected (reqid (self w)) res ->
  sp_req_recv len w =
    Ret (RCneg EAGAIN, [], len)
        (mk_world (mem w) (set_xreq x' (self w))
                  (trace w ++ [EvAlloc cap (Ptr b); EvXreqRecv cap res;
                               EvFree (Ptr b)])).
Proof.
  intros cap b Hbusy Hlen Hsz Hav Hrecv Hrej. subst cap.
  unfold sp_req_recv. rewrite bind_rd, Hbusy. cbn [negb].
  change sizeof_uint32 with 4. rewrite size_wrap_small by lia.
  unfold bind at 1. rewrite sp_alloc_ok by lia. norm.
  unfold alloc_assert. step. fold b.
  unfold sp_xreq_recv. step. rewrite Hrecv. step.
  assert (Hfresh : blocks (mem w) !! b = None) by apply fresh_block_unused.
  destruct res as [frame|e]; cbn [rejected] in Hrej.
  - rewrite bind_assoc. unfold bind at 1.
    erewrite store_ok; [| norm; apply lookup_insert_eq | lia | ].
    2:{ rewrite length_take, length_replicate. lia. }
    norm. step. rewrite insert_insert_eq.
    set (cells := take (Z.to_nat 0) _ ++ _ ++ _).
    assert (Hcells : Z.of_nat (length cells) = 4 + len).
    { subst cells. rewrite length_stored.
      - rewrite length_replicate. lia.
      - rewrite length_take, length_replicate. simpl. lia. }
    cbn [is_eagain is_zero errnum_assert]. step.
    destruct (Z.ltb_spec (Z.of_nat (length frame)) 4) as [Hshort|Hlong].
    { rewrite discard_reply by assumption. rewrite <- !app_assoc. reflexivity. }
    unfold sp_getl_at. step. unfold bind at 1.
    erewrite load_ok with (bs := take 4 frame);
      [| norm; apply lookup_insert_eq | lia | lia | lia | ].
    2:{ subst cells. change (Z.to_nat 0) with 0%nat. change (Z.to_nat 4) with 4%nat.
        rewrite take_0, app_nil_l.
        rewrite (take_drop_written _ _ 0 4)
          by (rewrite length_take; lia).
        rewrite drop_0, take_take. f_equal. f_equal. lia. }
    step. rewrite land_bit31, land_mask31.
    destruct Hrej as [Hrej|[Hrej|Hrej]]; [lia| |].
    + rewrite Hrej. cbn [negb].
      rewrite discard_reply by assumption. rewrite <- !app_assoc. reflexivity.
    + destruct (Z.testbit (sp_getl (take 4 frame)) 31); cbn [negb].
      * rewrite bind_rd. norm.
        destruct (Z.eqb_spec (sp_getl (take 4 frame) mod 2 ^ 31) (reqid (self w)));
          [contradiction|]. cbn [negb].
        rewrite discard_reply by assumption. rewrite <- !app_assoc. reflexivity.
      * rewrite discard_reply by assumption. rewrite <- !app_assoc. reflexivity.
  - subst e. step. cbn [is_eagain].
    rewrite discard_reply by (try assumption; rewrite length_replicate; lia).
    rewrite <- !app_assoc. reflexivity.
Qed.

Lemma recv_accept w len frame x' breq rcells :
  let cap := 4 + len in
  let b := fresh (dom (blocks (mem w))) in
  let plen := Z.of_nat (length frame) - 4 in
  in_progress (flags (self w)) = true ->
  0 <= len -> 4 + len <= SIZE_MAX -> 4 + len <= avail (mem w) ->
  request (self w) = Ptr breq ->
  blocks (mem w) !! breq = Some rcells ->
  raw_recv (xreq (self w)) = (RawFrame frame, x') ->
  4 <= Z.of_nat (length frame) <= SIZE_MAX ->
  Z.testbit (sp_getl (take 4 frame)) 31 = true ->
  sp_getl (take 4 frame) mod 2 ^ 31 = reqid (self w) ->
  sp_req_recv len w =
    Ret (RC0, take (Z.to_nat (Z.min len plen)) (drop 4 frame), plen)
        (mk_world
           (mk_heap (delete breq (blocks (mem w)))
                    (avail (mem w) + Z.of_nat (length rcells)))
           (mk_req x' (reqid (self w))
                   (Z.land (flags (self w)) (uint32_not SP_REQ_INPROGRESS))
                   0 NULL (resend_ivl (self w)) TimerIdle)
           (trace w ++ [EvAlloc cap (Ptr b); EvXreqRecv cap (RawFrame frame);
                        EvTimerCancel; EvFree (Ptr b); EvFree (Ptr breq)])).
Proof.
  intros cap b plen Hbusy Hlen Hsz Hav Hp Hreq Hrecv Hfl Hbit Hid.
  subst cap plen.
  unfold sp_req_recv. rewrite bind_rd, Hbusy. cbn [negb].
  change sizeof_uint32 with 4. rewrite size_wrap_small by lia.
  unfold bind at 1. rewrite sp_alloc_ok by lia. norm.
  unfold alloc_assert. step. fold b.
  unfold sp_xreq_recv. step. rewrite Hrecv. step.
  assert (Hfresh : blocks (mem w) !! b = None) by apply fresh_block_unused.
  assert (Hne : b <> breq) by congruence.
  unfold bind at 1.
  erewrite store_ok; [| norm; apply lookup_insert_eq | lia | ].
  2:{ rewrite length_take, length_replicate. lia. }
  norm. step. rewrite insert_insert_eq.
  change (Z.to_nat 0) with 0%nat. rewrite take_0, app_nil_l.
  set (rest := drop _ (replicate _ None)).
  cbn [is_eagain is_zero errnum_assert]. step.
  destruct (Z.ltb_spec (Z.of_nat (length frame)) 4) as [Hshort|_]; [lia|].
  unfold sp_getl_at. step. unfold bind at 1.
  erewrite load_ok with (bs := take 4 frame);
    [| norm; apply lookup_insert_eq | lia | lia | | ].
  2:{ rewrite length_app, length_fmap, length_take. lia. }
  2:{ change (Z.to_nat 0) with 0%nat. change (Z.to_nat 4) with 4%nat.
      rewrite (take_drop_written _ _ 0 4) by (rewrite length_take; lia).
      rewrite drop_0, take_take. f_equal. f_equal. lia. }
  step. rewrite land_bit31, land_mask31, Hbit. cbn [negb].
  rewrite bind_rd. norm. rewrite Hid, Z.eqb_refl. cbn [negb].
  rewrite (size_wrap_small (Z.of_nat (length frame) - 4)) by lia.
  replace (if len <? Z.of_nat (length frame) - 4 then len
           else Z.of_nat (length frame) - 4)
    with (Z.min len (Z.of_nat (length frame) - 4))
    by (destruct (Z.ltb_spec len (Z.of_nat (length frame) - 4)); lia).
  unfold bind at 1.
  erewrite load_ok
    with (bs := take (Z.to_nat (Z.min len (Z.of_nat (length frame) - 4)))
                     (drop 4 frame));
    [| norm; apply lookup_insert_eq | lia | lia | | ].
  2:{ rewrite length_app, length_fmap, length_take. lia. }
  2:{ change (Z.to_nat 4) with 4%nat.
      rewrite take_drop_written by (rewrite length_take; lia).
      f_equal. rewrite !take_drop_commute, take_take. f_equal. f_equal. lia. }
  unfold sp_sockbase_timer_cancel. step.
  unfold bind at 1.
  erewrite sp_free_ok by (norm; apply lookup_insert_eq). norm. step.
  rewrite Hp. unfold bind at 1.
  erewrite sp_free_ok
    by (norm; rewrite lookup_delete_ne, lookup_insert_ne by assumption;
        exact Hreq).
  norm. step. unfold ret.
  rewrite delete_insert_id by assumption.
  rewrite <- !app_assoc. f_equal. f_equal. f_equal.
  rewrite length_app, length_fmap, length_take. subst rest.
  rewrite length_drop, length_replicate, length_take. lia.
Qed.

Lemma resend_eq w b bs :
  in_progress (flags (self w)) = true ->
  request (self w) = Ptr b ->
  blocks (mem w) !! b = Some (Some <$> bs) ->
  requestlen (self w) = Z.of_nat (length bs) ->
  sp_req_resend_routine w =
    let '(rc, x') := raw_send (xreq (self w)) bs in
    if is_zero rc || is_eagain rc then
      Ret tt
          (mk_world (mem w)
             (mk_req x' (reqid (self w)) (flags (self w))
                     (requestlen (self w)) (request (self w))
                     (resend_ivl (self w)) (TimerArmed (resend_ivl (self w))))
             (trace w ++ [EvXreqSend bs rc;
                          EvTimerStart (resend_ivl (self w))]))
    else Abort.
Proof.
  intros Hbusy Hp Hb Hlen.
  unfold sp_req_resend_routine. rewrite bind_rd, Hbusy.
  unfold sp_assert. step. unfold sp_xreq_send. step.
  rewrite Hp, Hlen. unfold bind at 1.
  erewrite load_ok with (bs := bs); [| exact Hb | lia | lia | | ].
  2:{ rewrite length_fmap. lia. }
  2:{ change (Z.to_nat 0) with 0%nat. rewrite drop_0. apply take_ge.
      rewrite length_fmap. lia. }
  step. destruct (raw_send (xreq (self w)) bs) as [rc x']. step.
  unfold errnum_assert. destruct (is_zero rc || is_eagain rc); [|reflexivity].
  step. unfold sp_sockbase_timer_start. step.
  unfold emit, set_resend_timer, set_xreq. norm.
  rewrite Hp, Hlen, <- !app_assoc. reflexivity.
Qed.

Lemma resend_idle w :
  in_progress (flags (self w)) = false -> sp_req_resend_routine w = Abort.
Proof.
  intros Hidle. unfold sp_req_resend_routine. rewrite bind_rd, Hidle.
  reflexivity.
Qed.

(** ** What leaves the request ID alone *)

Lemma keeps_bind {A B} (m : M X A) (k : A -> M X B) :
  keeps_reqid m -> (forall a, keeps_reqid (k a)) -> keeps_reqid (bind m k).
Proof.
  intros Hm Hk w b w2 Hb. apply bind_inv in Hb as (a & w1 & H1 & H2).
  rewrite (Hk _ _ _ _ H2). exact (Hm _ _ _ H1).
Qed.

Lemma keeps_ret {A} (a : A) : keeps_reqid (ret (X:=X) a).
Proof. intros w a' w' [= _ <-]. reflexivity. Qed.

Lemma keeps_abort {A} : keeps_reqid (abort (X:=X) (A:=A)).
Proof. intros w a w' [=]. Qed.

Lemma keeps_rd {A} (f : sp_req X -> A) : keeps_reqid (rd f).
Proof. intros w a w' [= _ <-]. reflexivity. Qed.

Lemma keeps_upd (g : sp_req X -> sp_req X) :
  (forall s, reqid (g s) = reqid s) -> keeps_reqid (upd g).
Proof. intros Hg w [] w' [= <-]. apply Hg. Qed.

Lemma keeps_emit (e : event) : keeps_reqid (emit (X:=X) e).
Proof. intros w [] w' [= <-]. reflexivity. Qed.

Lemma keeps_alloc (size : Z) : keeps_reqid (sp_alloc (X:=X) size).
Proof.
  intros w p w' Ha.
  apply sp_alloc_inv in Ha as [(_ & _ & ->)|(_ & _ & ->)]; reflexivity.
Qed.

Lemma keeps_free (p : ptr) : keeps_reqid (sp_free (X:=X) p).
Proof.
  intros w [] w' Hf.
  apply sp_free_inv in Hf as [(_ & ->)|(b & cells & _ & _ & ->)]; reflexivity.
Qed.

Lemma keeps_load (p : ptr) (off n : Z) : keeps_reqid (load (X:=X) p off n).
Proof. intros w bs w' Hl. apply load_inv in Hl as [-> _]. reflexivity. Qed.

Lemma keeps_store (p : ptr) (off : Z) (bs : list byte) :
  keeps_reqid (store (X:=X) p off bs).
Proof.
  intros w [] w' Hs.
  apply store_inv in Hs as (b & cells & _ & _ & _ & _ & ->). reflexivity.
Qed.

Ltac keeps :=
  repeat first
    [ apply keeps_ret | apply keeps_abort | apply keeps_rd | apply keeps_emit
    | apply keeps_alloc | apply keeps_free | apply keeps_load
    | apply keeps_store
    | apply keeps_upd; intros []; reflexivity
    | apply keeps_bind; [|intros ?]
    | match goal with
      | |- keeps_reqid (if ?c then _ else _) => destruct c
      | |- keeps_reqid (match ?x with _ => _ end) => destruct x
      end ].

Lemma keeps_xreq_send (p : ptr) (len : Z) : keeps_reqid (sp_xreq_send p len).
Proof. unfold sp_xreq_send. keeps. Qed.

Lemma keeps_xreq_recv (p : ptr) (cap : Z) : keeps_reqid (sp_xreq_recv p cap).
Proof. unfold sp_xreq_recv. keeps. Qed.

Lemma keeps_timer_start (ivl : Z) :
  keeps_reqid (sp_sockbase_timer_start (X:=X) ivl).
Proof. unfold sp_sockbase_timer_start. keeps. Qed.

Lemma keeps_timer_cancel : keeps_reqid (sp_sockbase_timer_cancel (X:=X)).
Proof. unfold sp_sockbase_timer_cancel. keeps. Qed.

Lemma keeps_recv (len : Z) : keeps_reqid (sp_req_recv len).
Proof.
  unfold sp_req_recv, alloc_assert, errnum_assert, sp_getl_at.
  pose proof keeps_xreq_recv. pose proof keeps_timer_cancel.
  keeps; auto.
Qed.

Lemma keeps_resend : keeps_reqid sp_req_resend_routine.
Proof.
  unfold sp_req_resend_routine, sp_assert, errnum_assert.
  pose proof keeps_xreq_send. pose proof keeps_timer_start.
  keeps; auto.
Qed.

Lemma keeps_setopt (SP : Z) (option : Z) (optval : list byte) :
  keeps_reqid (sp_req_setopt (X:=X) SP option optval).
Proof. unfold sp_req_setopt. keeps. Qed.

Lemma keeps_getopt (SP : Z) (option optvallen : Z) :
  keeps_reqid (sp_req_getopt (X:=X) SP option optvallen).
Proof. unfold sp_req_getopt. keeps. Qed.

(** ** What a returning [send] tells *)

Lemma send_cancel_inv w buf rc w' :
  in_progress (flags (self w)) = true ->
  sp_req_send buf w = Ret rc w' ->
  exists w1,
    in_progress (flags (self w1)) = false /\
    reqid (self w1) = reqid (self w) /\
    sp_req_send buf w1 = Ret rc w'.
Proof.
  intros Hbusy Hsend.
  destruct (request (self w)) as [|b] eqn:Hp.
  - exists (mk_world (mem w)
              (mk_req (xreq (self w)) (reqid (self w))
                      (Z.land (flags (self w)) (uint32_not SP_REQ_INPROGRESS))
                      0 NULL (resend_ivl (self w)) TimerIdle)
              (trace w ++ [EvFree NULL; EvTimerCancel])).
    norm. split; [apply in_progress_clear|]. split; [reflexivity|].
    rewrite <- Hsend. symmetry.
    unfold sp_req_send at 2. rewrite bind_rd. norm.
    rewrite in_progress_clear, bind_ret.
    unfold sp_req_send. rewrite bind_rd, Hbusy. step. rewrite Hp.
    unfold bind at 1. unfold sp_free at 1. norm. step.
    unfold sp_sockbase_timer_cancel. step.
    rewrite <- !app_assoc. reflexivity.
  - destruct (blocks (mem w) !! b) as [cells|] eqn:Hb.
    + rewrite (send_supersede _ _ _ _ Hbusy Hp Hb) in Hsend.
      eexists. split; [|split; [|exact Hsend]]; norm.
      * apply in_progress_clear.
      * reflexivity.
    + exfalso. revert Hsend.
      unfold sp_req_send. rewrite bind_rd, Hbusy. step. rewrite Hp.
      unfold bind at 1. unfold sp_free at 1. rewrite Hb. discriminate.
Qed.

Ltac step_in H :=
  repeat (first [ rewrite bind_assoc in H | rewrite bind_rd in H
                | rewrite bind_upd in H | rewrite bind_emit in H
                | rewrite bind_ret in H ]; norm).

Lemma send_idle_inv w buf rc w' :
  in_progress (flags (self w)) = false ->
  sp_req_send buf w = Ret rc w' ->
  4 + Z.of_nat (length buf) <= SIZE_MAX /\
  4 + Z.of_nat (length buf) <= avail (mem w).
Proof.
  intros Hidle Hsend. revert Hsend.
  unfold sp_req_send. rewrite bind_rd, Hidle. step.
  change sizeof_uint32 with 4.
  set (sz := size_wrap (4 + Z.of_nat (length buf))).
  assert (Hsz : 0 <= sz < SIZE_MOD).
  { apply Z.mod_pos_bound. reflexivity. }
  assert (Hle : sz <= 4 + Z.of_nat (length buf)).
  { apply Z.mod_le; [lia | reflexivity]. }
  intros Hsend. apply bind_inv in Hsend as (p & w1 & Ha & Hsend).
  apply sp_alloc_inv in Ha as [(-> & _ & ->)|(-> & Hav & ->)].
  { step_in Hsend. discriminate. }
  step_in Hsend. unfold alloc_assert in Hsend. step_in Hsend.
  unfold sp_putl_at in Hsend.
  apply bind_inv in Hsend as ([] & w2 & Hs1 & Hsend).
  apply store_inv in Hs1 as (b1 & c1 & Hb1 & Hc1 & _ & Hlen1 & ->).
  assert (b1 = fresh (dom (blocks (mem w)))) as -> by congruence.
  norm. rewrite lookup_insert_eq in Hc1.
  apply (inj Some) in Hc1. subst c1.
  rewrite length_replicate, length_sp_putl in Hlen1.
  apply bind_inv in Hsend as ([] & w3 & Hs2 & Hsend).
  apply store_inv in Hs2 as (b2 & c2 & Hb2 & Hc2 & _ & Hlen2 & ->).
  assert (b2 = fresh (dom (blocks (mem w)))) as -> by congruence.
  norm. rewrite lookup_insert_eq in Hc2.
  apply (inj Some) in Hc2. subst c2.
  rewrite length_stored in Hlen2
    by (rewrite length_replicate, length_sp_putl; lia).
  rewrite length_replicate in Hlen2.
  assert (sz = 4 + Z.of_nat (length buf)) by lia.
  unfold SIZE_MAX. lia.
Qed.

(** The state a returning [send] leaves, from a socket with no request in
    progress. *)
Lemma send_idle_ret w buf rc w' :
  in_progress (flags (self w)) = false ->
  sp_req_send buf w = Ret rc w' ->
  let id' := (reqid (self w) + 1) mod 2 ^ 31 in
  let frame := sp_putl (Z.lor id' 0x80000000) ++ buf in
  rc = RC0 /\
  reqid (self w') = id' /\
  exists b,
    request (self w') = Ptr b /\
    blocks (mem w') !! b = Some (Some <$> frame) /\
    requestlen (self w') = Z.of_nat (length frame).
Proof.
  intros Hidle Hsend id' frame.
  destruct (send_idle_inv _ _ _ _ Hidle Hsend) as [Hsz Hav].
  rewrite (send_idle_eq _ _ Hidle Hsz Hav) in Hsend.
  rewrite next_reqid in Hsend. fold id' frame in Hsend.
  destruct (raw_send (xreq (self w)) frame) as [rc0 x'].
  destruct (is_zero rc0 || is_eagain rc0); [|discriminate].
  injection Hsend as <- <-. norm. split; [reflexivity|]. split; [reflexivity|].
  eexists. split; [reflexivity|]. split; [apply lookup_insert_eq|].
  unfold frame. rewrite length_app. simpl length. lia.
Qed.

Lemma send_ret w buf rc w' :
  sp_req_send buf w = Ret rc w' ->
  let id' := (reqid (self w) + 1) mod 2 ^ 31 in
  let frame := sp_putl (Z.lor id' 0x80000000) ++ buf in
  rc = RC0 /\
  reqid (self w') = id' /\
  exists b,
    request (self w') = Ptr b /\
    blocks (mem w') !! b = Some (Some <$> frame) /\
    requestlen (self w') = Z.of_nat (length frame).
Proof.
  intros Hsend. destruct (in_progress (flags (self w))) eqn:Hfl.
  - destruct (send_cancel_inv _ _ _ _ Hfl Hsend) as (w1 & Hidle & Hid & Hs1).
    rewrite <- Hid. exact (send_idle_ret _ _ _ _ Hidle Hs1).
  - exact (send_idle_ret _ _ _ _ Hfl Hsend).
Qed.

(** ** The representation invariant *)

Lemma req_wf_busy w :
  req_wf w = true ->
  in_progress (flags (self w)) = true ->
  exists b bs,
    request (self w) = Ptr b /\
    blocks (mem w) !! b = Some (Some <$> bs) /\
    request_bytes w = Some bs /\
    requestlen (self w) = Z.of_nat (length bs) /\
    timer_armed (resend_timer (self w)) = true.
Proof.
  unfold req_wf, request_bytes. intros Hwf Hbusy. rewrite Hbusy in Hwf.
  destruct (request (self w)) as [|b]; [discriminate|].
  destruct (blocks (mem w) !! b) as [cells|] eqn:Hb; [|discriminate].
  destruct (written cells) as [bs|] eqn:Hw; [|discriminate].
  apply andb_true_iff in Hwf as [Hlen Harmed]. apply Z.eqb_eq in Hlen.
  apply written_inv in Hw as ->. exists b, bs.
  repeat split; first [assumption | reflexivity].
Qed.

Lemma req_wf_intro w b bs :
  in_progress (flags (self w)) = true ->
  request (self w) = Ptr b ->
  blocks (mem w) !! b = Some (Some <$> bs) ->
  requestlen (self w) = Z.of_nat (length bs) ->
  timer_armed (resend_timer (self w)) = true ->
  req_wf w = true.
Proof.
  intros Hbusy Hp Hb Hlen Harmed. unfold req_wf, request_bytes.
  rewrite Hbusy, Hp, Hb, written_bytes, Hlen, Harmed, Z.eqb_refl.
  reflexivity.
Qed.

Lemma avail_le_heap_room w : req_wf w = true -> avail (mem w) <= heap_room w.
Proof.
  intros Hwf. unfold heap_room.
  destruct (in_progress (flags (self w))) eqn:Hfl; [|lia].
  destruct (req_wf_busy _ Hwf Hfl) as (_ & bs & _ & _ & _ & -> & _). lia.
Qed.

(** [send] from any well-formed state, when the tagged request fits and
    the raw socket answers 0 or [-EAGAIN]. *)
Lemma send_room w (buf : list byte) (rc : retcode) (x' : X) :
  let len := Z.of_nat (length buf) in
  let id' := (reqid (self w) + 1) mod 2 ^ 31 in
  let frame := sp_putl (Z.lor id' 0x80000000) ++ buf in
  req_wf w = true ->
  4 + len <= SIZE_MAX ->
  4 + len <= heap_room w ->
  raw_send (xreq (self w)) frame = (rc, x') ->
  rc = RC0 \/ rc = RCneg EAGAIN ->
  exists w',
    sp_req_send buf w = Ret RC0 w' /\
    reqid (self w') = id' /\
    request_bytes w' = Some frame /\
    requestlen (self w') = 4 + len /\
    resend_timer (self w') = TimerArmed (resend_ivl (self w)) /\
    resend_ivl (self w') = resend_ivl (self w) /\
    (exists tr, trace w' = tr ++ [EvXreqSend frame rc;
                                  EvTimerStart (resend_ivl (self w))]) /\
    in_progress (flags (self w')) = true /\
    req_wf w' = true /\
    heap_room w' = heap_room w.
Proof.
  intros len id' frame Hwf Hsz Hav Hsend Hrc.
  assert (Hok : is_zero rc || is_eagain rc = true)
    by (destruct Hrc as [-> | ->]; reflexivity).
  assert (Hidle : forall w0,
    in_progress (flags (self w0)) = false ->
    reqid (self w0) = reqid (self w) ->
    xreq (self w0) = xreq (self w) ->
    resend_ivl (self w0) = resend_ivl (self w) ->
    avail (mem w0) = heap_room w ->
    exists w',
      sp_req_send buf w0 = Ret RC0 w' /\
      reqid (self w') = id' /\
      request_bytes w' = Some frame /\
      requestlen (self w') = 4 + len /\
      resend_timer (self w') = TimerArmed (resend_ivl (self w)) /\
      resend_ivl (self w') = resend_ivl (self w) /\
      (exists tr, trace w' = tr ++ [EvXreqSend frame rc;
                                    EvTimerStart (resend_ivl (self w))]) /\
      in_progress (flags (self w')) = true /\
      req_wf w' = true /\
      heap_room w' = heap_room w).
  { intros w0 Hfl Hid Hx Hivl Hav0.
    rewrite send_idle_eq by (try assumption; fold len; lia).
    rewrite next_reqid, Hid, Hx, Hivl. fold id' frame. rewrite Hsend, Hok.
    eexists. split; [reflexivity|]. norm.
    match goal with
    | |- _ /\ request_bytes ?wn = _ /\ _ =>
        assert (Hb : request_bytes wn = Some frame)
    end.
    { unfold request_bytes. norm. rewrite lookup_insert_eq. apply written_bytes. }
    repeat split.
    - exact Hb.
    - eexists (trace w0 ++ [_]). rewrite <- app_assoc. reflexivity.
    - apply in_progress_set.
    - unfold req_wf. rewrite Hb. norm. rewrite in_progress_set.
      unfold frame. rewrite length_app, length_sp_putl.
      replace (Z.of_nat (4 + length buf)) with (4 + Z.of_nat (length buf)) by lia.
      rewrite Z.eqb_refl. reflexivity.
    - unfold heap_room at 1. norm. rewrite in_progress_set. lia. }
  destruct (in_progress (flags (self w))) eqn:Hfl.
  - destruct (req_wf_busy _ Hwf Hfl) as (b & bs & Hp & Hb & _ & Hrl & _).
    rewrite (send_supersede _ _ _ _ Hfl Hp Hb).
    apply Hidle; norm; try reflexivity; [apply in_progress_clear|].
    unfold heap_room. rewrite Hfl, Hrl, length_fmap. reflexivity.
  - apply Hidle; try reflexivity; [assumption|].
    unfold heap_room. rewrite Hfl. lia.
Qed.

Lemma send_total w (buf : list byte) (rc : retcode) (x' : X) :
  let len := Z.of_nat (length buf) in
  let id' := (reqid (self w) + 1) mod 2 ^ 31 in
  let frame := sp_putl (Z.lor id' 0x80000000) ++ buf in
  req_wf w = true ->
  4 + len <= SIZE_MAX ->
  4 + len <= avail (mem w) ->
  raw_send (xreq (self w)) frame = (rc, x') ->
  rc = RC0 \/ rc = RCneg EAGAIN ->
  exists w',
    sp_req_send buf w = Ret RC0 w' /\
    reqid (self w') = id' /\
    request_bytes w' = Some frame /\
    requestlen (self w') = 4 + len /\
    resend_timer (self w') = TimerArmed (resend_ivl (self w)) /\
    resend_ivl (self w') = resend_ivl (self w) /\
    (exists tr, trace w' = tr ++ [EvXreqSend frame rc;
                                  EvTimerStart (resend_ivl (self w))]) /\
    in_progress (flags (self w')) = true /\
    req_wf w' = true.
Proof.
  intros len id' frame Hwf Hsz Hav Hsend Hrc.
  pose proof (avail_le_heap_room _ Hwf) as Hroom.
  destruct (send_room w buf rc x' Hwf Hsz ltac:(fold len; lia) Hsend Hrc)
    as (w' & H1 & H2 & H3 & H4 & H5 & H6 & H7 & H8 & H9 & _).
  exists w'. repeat split; assumption.
Qed.

(** Consecutive [send]s all return, as long as each request fits in the
    room the first one had and the raw socket never fails. *)
Lemma sends_return (bufs : list (list byte)) w :
  req_wf w = true ->
  (forall (x : X) (frame : list byte),
      fst (raw_send x frame) = RC0 \/ fst (raw_send x frame) = RCneg EAGAIN) ->
  Forall (fun buf => 4 + Z.of_nat (length buf) <= SIZE_MAX
                     /\ 4 + Z.of_nat (length buf) <= heap_room w) bufs ->
  exists frames w',
    run SP_RESEND_IVL (CallSend <$> bufs) w = Ret frames w'.
Proof.
  intros Hwf Hraw Hfit. revert w Hwf Hfit.
  induction bufs as [|buf bufs IH]; intros w Hwf Hfit.
  - eexists _, _. reflexivity.
  - apply Forall_cons in Hfit as [[Hsz Hroom] Hfit].
    set (frame := sp_putl (Z.lor ((reqid (self w) + 1) mod 2 ^ 31) 0x80000000)
                  ++ buf).
    destruct (raw_send (xreq (self w)) frame) as [rc x'] eqn:Hsend.
    pose proof (Hraw (xreq (self w)) frame) as Hrc. rewrite Hsend in Hrc.
    destruct (send_room w buf rc x' Hwf Hsz Hroom Hsend Hrc)
      as (w1 & Hs & _ & _ & _ & _ & _ & _ & Hfl & Hwf1 & Hroom1).
    destruct (req_wf_busy _ Hwf1 Hfl) as (b & bs & Hp & Hb & _ & Hlen & _).
    rewrite <- Hroom1 in Hfit.
    destruct (IH w1 Hwf1 Hfit) as (frames & w' & Hrun).
    exists (bs :: frames), w'.
    rewrite fmap_cons. cbn [run]. unfold bind at 1. rewrite Hs.
    rewrite !bind_rd, Hp, Hlen. unfold bind at 1.
    erewrite load_ok with (bs := bs); [| exact Hb | lia | lia | | ].
    + unfold bind. rewrite Hrun. reflexivity.
    + rewrite length_fmap. lia.
    + change (Z.to_nat 0) with 0%nat. rewrite drop_0. apply take_ge.
      rewrite length_fmap. lia.
Qed.

(** ** The properties of the specification *)

(** C9. After [sp_req_init] the request ID is the value drawn from the
    random source reduced to 31 bits (bit 31 clear), no request is in
    progress, there is no stored request (null pointer, length 0), and the
    resend interval is 60000 ms. The call always returns; it allocates
    nothing and makes no call to the timer. *)
Theorem init_state (rnd : Z) w :
  exists w',
    sp_req_init rnd w = Ret tt w' /\
    reqid (self w') = Z.land (uint32_wrap rnd) 0x7fffffff /\
    reqid (self w') = rnd mod 2 ^ 31 /\
    Z.testbit (reqid (self w')) 31 = false /\
    flags (self w') = 0 /\
    in_progress (flags (self w')) = false /\
    request (self w') = NULL /\
    requestlen (self w') = 0 /\
    request_bytes w' = None /\
    resend_ivl (self w') = 60000 /\
    req_wf w' = true /\
    mem w' = mem w /\ trace w' = trace w.
Proof.
  eexists. split.
  { unfold sp_req_init, sp_xreq_init, sp_random_generate. step. reflexivity. }
  norm. rewrite land_mask31. unfold uint32_wrap, UINT32_MOD.
  rewrite mod32_mod31.
  assert (Hr : 0 <= rnd mod 2 ^ 31 < 2 ^ 31) by (apply Z.mod_pos_bound; lia).
  repeat split.
  destruct (Z.eq_dec (rnd mod 2 ^ 31) 0) as [->|Hne]; [apply Z.bits_0|].
  apply Z.bits_above_log2; [lia|]. apply Z.log2_lt_pow2; lia.
Qed.

(** C6. A [recv] while no request is in progress returns [-EFSM] at once
    and changes nothing; in particular a [recv] that follows a successful
    [recv] with no [send] in between returns [-EFSM]. *)
Theorem recv_idle_efsm w (len : Z) :
  (in_progress (flags (self w)) = false ->
   sp_req_recv len w = Ret (RCneg EFSM, [], len) w)
  /\ (forall w0 len0 data n,
        sp_req_recv len0 w0 = Ret (RC0, data, n) w ->
        sp_req_recv len w = Ret (RCneg EFSM, [], len) w).
Proof.
  assert (Hidle : in_progress (flags (self w)) = false ->
                  sp_req_recv len w = Ret (RCneg EFSM, [], len) w).
  { intros Hfl. unfold sp_req_recv. rewrite bind_rd, Hfl. reflexivity. }
  split; [exact Hidle|].
  intros w0 len0 data n Hrecv. apply Hidle. clear Hidle. revert Hrecv.
  unfold sp_req_recv. rewrite bind_rd.
  destruct (in_progress (flags (self w0))); cbn [negb]; [|discriminate].
  intros Hrecv.
  repeat match type of Hrecv with
    | bind (rd _) _ _ = Ret _ _ => rewrite bind_rd in Hrecv
    | bind (upd _) _ _ = Ret _ _ => rewrite bind_upd in Hrecv
    | bind _ _ _ = Ret _ _ =>
        apply bind_inv in Hrecv as (? & ? & _ & Hrecv)
    | (let (_, _) := ?p in _) _ = Ret _ _ => destruct p
    | (if ?c then _ else _) _ = Ret _ _ => destruct c
    end.
  all: try discriminate.
  all: apply Ret_world in Hrecv; subst w; norm; apply in_progress_clear.
Qed.

(** C2. While a request is in progress, a [recv] that finds no reply, or a
    reply shorter than 4 bytes, or a tag with bit 31 clear, or an ID other
    than the current one, returns [-EAGAIN] and leaves the socket as it was:
    still in progress, same ID, same stored request, timer untouched. The
    reply buffer it allocated is released and the heap is as before. *)
Theorem recv_rejects_keep_state w (len : Z) (res : raw_recv_result) (x' : X) :
  in_progress (flags (self w)) = true ->
  0 <= len -> 4 + len <= SIZE_MAX -> 4 + len <= avail (mem w) ->
  raw_recv (xreq (self w)) = (res, x') ->
  (res = RawFail EAGAIN
   \/ exists frame, res = RawFrame frame /\
        (Z.of_nat (length frame) < 4
         \/ Z.testbit (sp_getl (take 4 frame)) 31 = false
         \/ sp_getl (take 4 frame) mod 2 ^ 31 <> reqid (self w))) ->
  exists w',
    sp_req_recv len w = Ret (RCneg EAGAIN, [], len) w' /\
    in_progress (flags (self w')) = true /\
    self w' = set_xreq x' (self w) /\
    reqid (self w') = reqid (self w) /\
    flags (self w') = flags (self w) /\
    request (self w') = request (self w) /\
    requestlen (self w') = requestlen (self w) /\
    resend_ivl (self w') = resend_ivl (self w) /\
    resend_timer (self w') = resend_timer (self w) /\
    mem w' = mem w /\
    request_bytes w' = request_bytes w /\
    req_wf w' = req_wf w /\
    (req_wf w = true -> timer_armed (resend_timer (self w')) = true) /\
    exists p, trace w' = trace w ++ [EvAlloc (4 + len) p;
                                     EvXreqRecv (4 + len) res; EvFree p].
Proof.
  intros Hbusy Hlen Hsz Hav Hrecv Hrej.
  assert (Hr : rejected (reqid (self w)) res).
  { destruct Hrej as [->|(frame & -> & Hrej)]; [reflexivity|exact Hrej]. }
  eexists. split; [exact (recv_reject _ _ _ _ Hbusy Hlen Hsz Hav Hrecv Hr)|].
  norm. do 11 (split; [first [assumption | reflexivity]|]). split.
  - intros Hwf. destruct (req_wf_busy _ Hwf Hbusy) as (_ & _ & _ & _ & _ & _ & Ht).
    exact Ht.
  - eauto.
Qed.

(** C5. When the reply matches the request in progress, [recv] copies the
    first [min (len, n)] bytes of the reply payload (the [n] bytes after the
    4-byte tag) to the caller and reports [n], the full payload length, also
    when [n] exceeds the caller's [len]. The request is then over: timer
    cancelled, stored request released, no request in progress. *)
Theorem recv_delivers_payload w (len : Z) (frame : list byte) (x' : X) :
  let payload := drop 4 frame in
  in_progress (flags (self w)) = true ->
  req_wf w = true ->
  0 <= len -> 4 + len <= SIZE_MAX -> 4 + len <= avail (mem w) ->
  raw_recv (xreq (self w)) = (RawFrame frame, x') ->
  4 <= Z.of_nat (length frame) <= SIZE_MAX ->
  Z.testbit (sp_getl (take 4 frame)) 31 = true ->
  sp_getl (take 4 frame) mod 2 ^ 31 = reqid (self w) ->
  exists copied w',
    sp_req_recv len w = Ret (RC0, copied, Z.of_nat (length payload)) w' /\
    copied = take (Z.to_nat (Z.min len (Z.of_nat (length payload)))) payload /\
    Z.of_nat (length copied) = Z.min len (Z.of_nat (length payload)) /\
    in_progress (flags (self w')) = false /\
    request (self w') = NULL /\
    requestlen (self w') = 0 /\
    resend_timer (self w') = TimerIdle /\
    reqid (self w') = reqid (self w) /\
    req_wf w' = true.
Proof.
  intros payload Hbusy Hwf Hlen Hsz Hav Hrecv Hfl Hbit Hid.
  destruct (req_wf_busy _ Hwf Hbusy) as (b & bs & Hp & Hb & _).
  assert (Hpl : Z.of_nat (length payload) = Z.of_nat (length frame) - 4).
  { unfold payload. rewrite length_drop. lia. }
  eexists _, _. split.
  { rewrite (recv_accept _ _ _ _ _ _ Hbusy Hlen Hsz Hav Hp Hb Hrecv Hfl
               Hbit Hid).
    rewrite <- Hpl. reflexivity. }
  norm. rewrite in_progress_clear.
  repeat split.
  - clear Hpl. subst payload. rewrite length_take. lia.
  - unfold req_wf. norm. rewrite in_progress_clear. reflexivity.
Qed.

(** C4. [send (buf)] stores, and hands to the raw socket, a buffer of
    exactly [4 + len] bytes: the big-endian encoding of
    [reqid | 0x80000000] followed by the bytes of [buf] unchanged. *)
Theorem send_stores_tagged_request w (buf : list byte) (rc : retcode) (x' : X) :
  let len := Z.of_nat (length buf) in
  let id' := (reqid (self w) + 1) mod 2 ^ 31 in
  let tag := Z.lor id' 0x80000000 in
  let frame := [byte_of_Z (tag / 2 ^ 24); byte_of_Z (tag / 2 ^ 16);
                byte_of_Z (tag / 2 ^ 8); byte_of_Z tag] ++ buf in
  req_wf w = true ->
  4 + len <= SIZE_MAX ->
  4 + len <= avail (mem w) ->
  raw_send (xreq (self w)) frame = (rc, x') ->
  rc = RC0 \/ rc = RCneg EAGAIN ->
  exists w',
    sp_req_send buf w = Ret RC0 w' /\
    reqid (self w') = id' /\
    request_bytes w' = Some frame /\
    requestlen (self w') = 4 + len /\
    Z.of_nat (length frame) = 4 + len /\
    sp_getl (take 4 frame) = tag /\
    drop 4 frame = buf /\
    (exists tr, trace w' = tr ++ [EvXreqSend frame rc;
                                  EvTimerStart (resend_ivl (self w))]) /\
    in_progress (flags (self w')) = true /\
    req_wf w' = true.
Proof.
  intros len id' tag frame Hwf Hsz Hav Hsend Hrc.
  assert (Hframe : frame = sp_putl tag ++ buf).
  { unfold frame, sp_putl. rewrite !Z.shiftr_div_pow2 by lia. reflexivity. }
  rewrite Hframe in *.
  destruct (send_total w buf rc x' Hwf Hsz Hav Hsend Hrc)
    as (w' & Hs & Hid & Hbs & Hrl & _ & _ & Htr & Hfl & Hwf').
  exists w'. do 4 (split; [assumption|]).
  split; [rewrite length_app, length_sp_putl; lia|].
  split.
  { rewrite take_app_length' by reflexivity.
    assert (0 <= id' < 2 ^ 31) by (apply Z.mod_pos_bound; lia).
    unfold tag. rewrite tag_roundtrip, lor_bit31 by lia. reflexivity. }
  split; [apply drop_app_length'; reflexivity|].
  repeat split; assumption.
Qed.

(** C1. A [send] over a request in progress first cancels it: in the
    intermediate state [w1] the old buffer is released, the flag is clear,
    the timer is cancelled, and nothing else has happened; the new request
    is then built exactly as by a [send] on [w1], so the release and the
    cancellation precede the allocation of the new buffer in the log of
    calls. Afterwards a reply that carries the old ID is discarded by [recv]
    with [-EAGAIN], the new request staying in progress, whatever the raw
    socket holds behind it. *)
Theorem send_supersedes_request w (buf : list byte) (rc : retcode) (x' : X) :
  let len := Z.of_nat (length buf) in
  let id' := (reqid (self w) + 1) mod 2 ^ 31 in
  let frame := sp_putl (Z.lor id' 0x80000000) ++ buf in
  in_progress (flags (self w)) = true ->
  req_wf w = true ->
  4 + len <= SIZE_MAX ->
  4 + len <= avail (mem w) ->
  raw_send (xreq (self w)) frame = (rc, x') ->
  rc = RC0 \/ rc = RCneg EAGAIN ->
  exists b w1 w',
    request (self w) = Ptr b /\
    (* the cancelled request *)
    blocks (mem w1) !! b = None /\
    in_progress (flags (self w1)) = false /\
    request (self w1) = NULL /\
    requestlen (self w1) = 0 /\
    resend_timer (self w1) = TimerIdle /\
    reqid (self w1) = reqid (self w) /\
    trace w1 = trace w ++ [EvFree (Ptr b); EvTimerCancel] /\
    (* the new request, built from there *)
    sp_req_send buf w = sp_req_send buf w1 /\
    sp_req_send buf w = Ret RC0 w' /\
    (exists p, trace w' = trace w1 ++ [EvAlloc (4 + len) p;
                                       EvXreqSend frame rc;
                                       EvTimerStart (resend_ivl (self w))]) /\
    reqid (self w') = id' /\
    in_progress (flags (self w')) = true /\
    (* a reply to the old request is stale *)
    forall (len2 : Z) (stale : list byte) (x2 : X),
      0 <= len2 -> 4 + len2 <= SIZE_MAX -> 4 + len2 <= avail (mem w') ->
      raw_recv (xreq (self w')) = (RawFrame stale, x2) ->
      sp_getl (take 4 stale) mod 2 ^ 31 = reqid (self w) ->
      exists w2,
        sp_req_recv len2 w' = Ret (RCneg EAGAIN, [], len2) w2 /\
        self w2 = set_xreq x2 (self w') /\
        mem w2 = mem w' /\
        in_progress (flags (self w2)) = true /\
        reqid (self w2) = id'.
Proof.
  intros len id' frame Hbusy Hwf Hsz Hav Hsend Hrc.
  destruct (req_wf_busy _ Hwf Hbusy) as (b & bs & Hp & Hb & _).
  assert (Hok : is_zero rc || is_eagain rc = true)
    by (destruct Hrc as [-> | ->]; reflexivity).
  pose proof (send_supersede _ buf _ _ Hbusy Hp Hb) as Heq.
  set (w1 := mk_world _ _ _) in Heq.
  assert (Hidle1 : in_progress (flags (self w1)) = false)
    by apply in_progress_clear.
  assert (Hs1 := send_idle_eq w1 buf Hidle1).
  cbn zeta in Hs1. subst w1. norm.
  rewrite next_reqid in Hs1. fold id' frame len in Hs1.
  rewrite Hsend, Hok in Hs1. specialize (Hs1 Hsz ltac:(lia)).
  match type of Hs1 with
  | sp_req_send _ ?w1 = Ret _ ?w' => exists b, w1, w'
  end.
  split; [exact Hp|].
  split; [norm; apply lookup_delete_eq|].
  split; [exact Hidle1|]. norm.
  do 5 (split; [reflexivity|]).
  split; [exact Heq|]. split; [rewrite Heq; exact Hs1|]. norm.
  split; [eauto|]. split; [reflexivity|]. split; [apply in_progress_set|].
  intros len2 stale x2 Hlen2 Hsz2 Hav2 Hrecv Hold.
  assert (Hne : sp_getl (take 4 stale) mod 2 ^ 31 <> id').
  { rewrite Hold. unfold id'.
    assert (0 <= reqid (self w) < 2 ^ 31)
      by (rewrite <- Hold; apply Z.mod_pos_bound; lia).
    destruct (Z.eq_dec (reqid (self w)) (2 ^ 31 - 1)) as [->|].
    - reflexivity || (intros Hc; vm_compute in Hc; discriminate).
    - rewrite Z.mod_small by lia. lia. }
  match type of Hs1 with _ = Ret _ ?w' => set (wn := w') in * end.
  assert (Hbusy' : in_progress (flags (self wn)) = true)
    by apply in_progress_set.
  assert (Hrej : rejected (reqid (self wn)) (RawFrame stale)).
  { cbn [rejected]. right. right. exact Hne. }
  rewrite (recv_reject wn len2 _ x2 Hbusy' Hlen2 Hsz2 Hav2 Hrecv Hrej).
  eexists. split; [reflexivity|]. norm. repeat split. exact Hbusy'.
Qed.

(** C7. When the resend timer fires while a request is in progress, the
    stored request is handed to the raw socket again, byte for byte, from
    the same block, and the timer is armed again for [resend_ivl]; nothing
    is allocated or released and no other field changes. Fired while no
    request is in progress, the callback stops on its assertion. *)
Theorem resend_redispatches_request w (bs : list byte) (rc : retcode) (x' : X) :
  (in_progress (flags (self w)) = true ->
   req_wf w = true ->
   request_bytes w = Some bs ->
   raw_send (xreq (self w)) bs = (rc, x') ->
   rc = RC0 \/ rc = RCneg EAGAIN ->
   exists w',
     sp_req_resend_routine w = Ret tt w' /\
     trace w' = trace w ++ [EvXreqSend bs rc;
                            EvTimerStart (resend_ivl (self w))] /\
     resend_timer (self w') = TimerArmed (resend_ivl (self w)) /\
     reqid (self w') = reqid (self w) /\
     flags (self w') = flags (self w) /\
     request (self w') = request (self w) /\
     requestlen (self w') = requestlen (self w) /\
     resend_ivl (self w') = resend_ivl (self w) /\
     mem w' = mem w /\
     request_bytes w' = Some bs /\
     req_wf w' = true)
  /\ (in_progress (flags (self w)) = false ->
      sp_req_resend_routine w = Abort).
Proof.
  split; [|apply resend_idle].
  intros Hbusy Hwf Hbs Hsend Hrc.
  destruct (req_wf_busy _ Hwf Hbusy) as (b & bs' & Hp & Hb & Hbs' & Hlen & _).
  assert (bs' = bs) as -> by congruence.
  assert (Hok : is_zero rc || is_eagain rc = true)
    by (destruct Hrc as [-> | ->]; reflexivity).
  rewrite (resend_eq _ _ _ Hbusy Hp Hb Hlen), Hsend, Hok.
  eexists. split; [reflexivity|]. norm. repeat split.
  - unfold request_bytes in *. norm. exact Hbs.
  - apply (req_wf_intro _ b bs); norm; auto.
Qed.

(** C8, as the code has it. Setting the resend interval requires an option
    value of exactly [sizeof (int)] bytes and fails with [-EINVAL] otherwise.
    Getting it requires a buffer of at least [sizeof (int)] bytes: it fails
    with [-EINVAL] on a smaller one, and otherwise stores the interval and
    reports the length [sizeof (int)]. An option other than the resend
    interval fails with [-ENOPROTOOPT] in both. A successful set is read
    back, byte for byte, by the next get. No call changes anything but
    [resend_ivl]. *)
Theorem resend_ivl_option_checks w (option : Z) (optval : list byte)
        (optvallen : Z) :
  (option = SP_RESEND_IVL ->
   Z.of_nat (length optval) <> sizeof_int ->
   sp_req_setopt SP_RESEND_IVL option optval w = Ret (RCneg EINVAL) w)
  /\ (option = SP_RESEND_IVL ->
      Z.of_nat (length optval) = sizeof_int ->
      sp_req_setopt SP_RESEND_IVL option optval w =
        Ret RC0 (mk_world (mem w) (set_resend_ivl (int_load optval) (self w))
                          (trace w)))
  /\ (option <> SP_RESEND_IVL ->
      sp_req_setopt SP_RESEND_IVL option optval w = Ret (RCneg ENOPROTOOPT) w)
  /\ (option = SP_RESEND_IVL ->
      optvallen < sizeof_int ->
      sp_req_getopt SP_RESEND_IVL option optvallen w =
        Ret (RCneg EINVAL, [], optvallen) w)
  /\ (option = SP_RESEND_IVL ->
      sizeof_int <= optvallen ->
      sp_req_getopt SP_RESEND_IVL option optvallen w =
        Ret (RC0, int_store (resend_ivl (self w)), sizeof_int) w)
  /\ (option <> SP_RESEND_IVL ->
      sp_req_getopt SP_RESEND_IVL option optvallen w =
        Ret (RCneg ENOPROTOOPT, [], optvallen) w)
  /\ (option = SP_RESEND_IVL ->
      Z.of_nat (length optval) = sizeof_int ->
      sizeof_int <= optvallen ->
      exists w',
        sp_req_setopt SP_RESEND_IVL option optval w = Ret RC0 w' /\
        sp_req_getopt SP_RESEND_IVL option optvallen w' =
          Ret (RC0, optval, sizeof_int) w').
Proof.
  unfold sp_req_setopt, sp_req_getopt, sizeof_int.
  repeat split.
  - intros -> Hlen. rewrite Z.eqb_refl.
    destruct (Z.eqb_spec (Z.of_nat (length optval)) 4); [contradiction|].
    reflexivity.
  - intros -> Hlen. rewrite Z.eqb_refl, Hlen. reflexivity.
  - intros Hne. destruct (Z.eqb_spec option SP_RESEND_IVL); [contradiction|].
    reflexivity.
  - intros -> Hlen. rewrite Z.eqb_refl.
    destruct (Z.ltb_spec optvallen 4); [reflexivity | lia].
  - intros -> Hlen. rewrite Z.eqb_refl.
    destruct (Z.ltb_spec optvallen 4); [lia | reflexivity].
  - intros Hne. destruct (Z.eqb_spec option SP_RESEND_IVL); [contradiction|].
    reflexivity.
  - intros -> Hlen Hcap. rewrite Z.eqb_refl, Hlen.
    eexists. split; [reflexivity|].
    destruct (Z.ltb_spec optvallen 4); [lia|].
    rewrite bind_rd. norm. rewrite int_store_load by lia. reflexivity.
Qed.

(** C10. [setopt] accepts every 4-byte value for the resend interval and
    checks nothing but its length: the [int] it holds, zero and negative
    ones included, is stored as it is, and it is the duration the timer is
    armed with by the next [send] and by the next firing of the resend
    callback. Every [int] is the content of some 4-byte value. *)
Theorem setopt_stores_any_interval w (optval : list byte) :
  length optval = 4%nat ->
  let v := int_load optval in
  INT_MIN <= v <= INT_MAX /\
  int_store v = optval /\
  (forall v0, INT_MIN <= v0 <= INT_MAX ->
     length (int_store v0) = 4%nat /\ int_load (int_store v0) = v0) /\
  exists w1,
    sp_req_setopt SP_RESEND_IVL SP_RESEND_IVL optval w = Ret RC0 w1 /\
    resend_ivl (self w1) = v /\
    w1 = mk_world (mem w) (set_resend_ivl v (self w)) (trace w) /\
    (forall (buf : list byte) (rc : retcode) (x' : X),
        req_wf w = true ->
        4 + Z.of_nat (length buf) <= SIZE_MAX ->
        4 + Z.of_nat (length buf) <= avail (mem w) ->
        raw_send (xreq (self w))
                 (sp_putl (Z.lor ((reqid (self w) + 1) mod 2 ^ 31) 0x80000000)
                  ++ buf) = (rc, x') ->
        rc = RC0 \/ rc = RCneg EAGAIN ->
        exists w2 tr,
          sp_req_send buf w1 = Ret RC0 w2 /\
          resend_timer (self w2) = TimerArmed v /\
          trace w2 = tr ++ [EvTimerStart v]) /\
    (forall (bs : list byte) (rc : retcode) (x' : X),
        in_progress (flags (self w)) = true ->
        req_wf w = true ->
        request_bytes w = Some bs ->
        raw_send (xreq (self w)) bs = (rc, x') ->
        rc = RC0 \/ rc = RCneg EAGAIN ->
        exists w2 tr,
          sp_req_resend_routine w1 = Ret tt w2 /\
          resend_timer (self w2) = TimerArmed v /\
          trace w2 = tr ++ [EvTimerStart v]).
Proof.
  intros Hlen4 v.
  split.
  { unfold v, int_load.
    destruct optval as [|b0 [|b1 [|b2 [|b3 [|? ?]]]]]; try discriminate.
    apply int_wrap_range. }
  split; [apply int_store_load, Hlen4|].
  split; [intros v0 Hv0; split; [reflexivity | apply int_load_store, Hv0]|].
  set (w1 := mk_world (mem w) (set_resend_ivl v (self w)) (trace w)).
  assert (Hset : sp_req_setopt SP_RESEND_IVL SP_RESEND_IVL optval w
                 = Ret RC0 w1).
  { unfold sp_req_setopt. rewrite Z.eqb_refl, Hlen4.
    change (negb (Z.of_nat 4 =? sizeof_int)) with false. cbn iota.
    rewrite bind_upd. reflexivity. }
  exists w1. split; [exact Hset|]. split; [reflexivity|].
  split; [reflexivity|]. split.
  - intros buf rc x' Hwf Hsz Hav Hsend Hrc.
    destruct (send_total w1 buf rc x' Hwf Hsz Hav Hsend Hrc)
      as (w2 & Hs & _ & _ & _ & Ht & _ & (tr & Htr) & _).
    exists w2, (tr ++ [EvXreqSend
                         (sp_putl (Z.lor ((reqid (self w) + 1) mod 2 ^ 31)
                                         0x80000000) ++ buf) rc]).
    split; [exact Hs|]. split; [exact Ht|].
    rewrite Htr, <- app_assoc. reflexivity.
  - intros bs rc x' Hbusy Hwf Hbs Hsend Hrc.
    destruct (req_wf_busy _ Hwf Hbusy) as (b & bs' & Hp & Hb & Hbs' & Hlen & _).
    assert (bs' = bs) as -> by congruence.
    assert (Hok : is_zero rc || is_eagain rc = true)
      by (destruct Hrc as [-> | ->]; reflexivity).
    rewrite (resend_eq w1 b bs Hbusy Hp Hb Hlen). subst w1. norm.
    rewrite Hsend, Hok.
    eexists _, (trace w ++ [_]). split; [reflexivity|]. norm.
    split; [reflexivity|]. rewrite <- app_assoc. reflexivity.
Qed.

(** The IDs of the requests built along a run. *)
Lemma run_ids (cs : list call) w (frames : list (list byte)) w' :
  run SP_RESEND_IVL cs w = Ret frames w' ->
  length frames = count_sends cs /\
  (fun f => Z.land (sp_getl (take 4 f)) 0x7fffffff) <$> frames
    = (fun k => (reqid (self w) + Z.of_nat k) mod 2 ^ 31)
        <$> seq 1 (count_sends cs) /\
  Forall (fun f => Z.testbit (sp_getl (take 4 f)) 31 = true) frames /\
  reqid (self w') mod 2 ^ 31
    = (reqid (self w) + Z.of_nat (count_sends cs)) mod 2 ^ 31.
Proof.
  intros Hrun. revert w frames Hrun. induction cs as [|c cs IH]; intros w frames Hrun.
  - injection Hrun as <- <-. cbn [count_sends length seq fmap list_fmap].
    rewrite Z.add_0_r. auto.
  - assert (Hskip : forall {A} (m : M X A),
        keeps_reqid m -> count_sends (c :: cs) = count_sends cs ->
        bind m (fun _ => run SP_RESEND_IVL cs) w = Ret frames w' ->
        length frames = count_sends (c :: cs) /\
        (fun f => Z.land (sp_getl (take 4 f)) 0x7fffffff) <$> frames
          = (fun k => (reqid (self w) + Z.of_nat k) mod 2 ^ 31)
              <$> seq 1 (count_sends (c :: cs)) /\
        Forall (fun f => Z.testbit (sp_getl (take 4 f)) 31 = true) frames /\
        reqid (self w') mod 2 ^ 31
          = (reqid (self w) + Z.of_nat (count_sends (c :: cs))) mod 2 ^ 31).
    { intros A m Hk Hc Hb. apply bind_inv in Hb as (a & w1 & Hm & Hr).
      rewrite Hc, <- (Hk _ _ _ Hm). exact (IH _ _ Hr). }
    destruct c as [buf|len| |o v|o n]; cbn [run] in Hrun.
    + apply bind_inv in Hrun as (rc & w1 & Hs & Hrun).
      rewrite !bind_rd in Hrun.
      apply bind_inv in Hrun as (frame & w1' & Hl & Hrun).
      apply bind_inv in Hrun as (frames' & w2 & Hr & Hrun).
      injection Hrun as <- <-.
      apply send_ret in Hs as (_ & Hid & b & Hp & Hb & Hlen).
      apply load_inv in Hl as (-> & b' & cells & Hp' & Hb' & _ & _ & _ & Ht).
      rewrite Hp in Hp'. injection Hp' as <-. rewrite Hb in Hb'.
      apply (inj Some) in Hb'. subst cells.
      rewrite Hlen, Nat2Z.id in Ht. change (Z.to_nat 0) with 0%nat in Ht.
      rewrite drop_0, take_ge in Ht by (rewrite length_fmap; lia).
      apply (inj (fmap Some)) in Ht. subst frame.
      destruct (IH _ _ Hr) as (IH1 & IH2 & IH3 & IH4).
      set (id' := (reqid (self w) + 1) mod 2 ^ 31) in *.
      assert (Hr' : 0 <= id' < 2 ^ 31) by (apply Z.mod_pos_bound; lia).
      assert (Htag : sp_getl (take 4 (sp_putl (Z.lor id' 0x80000000) ++ buf))
                     = id' + 2 ^ 31).
      { rewrite take_app_length' by reflexivity. apply tag_roundtrip, Hr'. }
      cbn [count_sends length seq]. rewrite !fmap_cons.
      rewrite Htag, IH1. split; [reflexivity|]. split; [|split].
      * f_equal.
        -- rewrite land_mask31. unfold id'.
           rewrite <- Z.add_mod_idemp_r, Z.mod_same, Z.add_0_r, Z.mod_mod by lia.
           reflexivity.
        -- rewrite IH2, Hid, <- (fmap_S_seq 1), <- list_fmap_compose.
           apply list_fmap_ext. intros i k _. cbn [compose]. unfold id'.
           rewrite Z.add_mod_idemp_l by lia. f_equal. lia.
      * constructor; [|exact IH3]. rewrite Htag. apply testbit31_add, Hr'.
      * rewrite IH4, Hid. unfold id'.
        rewrite Z.add_mod_idemp_l by lia. f_equal. lia.
    + exact (Hskip _ _ (keeps_recv len) eq_refl Hrun).
    + exact (Hskip _ _ keeps_resend eq_refl Hrun).
    + exact (Hskip _ _ (keeps_setopt _ o v) eq_refl Hrun).
    + exact (Hskip _ _ (keeps_getopt _ o n) eq_refl Hrun).
Qed.

(** C3. Over any sequence of calls on one socket, the tagged requests built
    by the successive [send]s carry the marker bit and the IDs
    [id0 + 1, id0 + 2, ..., id0 + N] modulo [2^31], where [id0] is the ID
    before the first call, whatever [recv]s, timer firings and option calls
    come in between and whatever they return. N consecutive [send]s do all
    return when each request fits and the raw socket never fails. [recv]
    never changes the request ID. *)
Theorem send_ids_advance w :
  (forall (cs : list call) (frames : list (list byte)) w',
      run SP_RESEND_IVL cs w = Ret frames w' ->
      length frames = count_sends cs /\
      (fun f => Z.land (sp_getl (take 4 f)) 0x7fffffff) <$> frames
        = (fun k => (reqid (self w) + Z.of_nat k) mod 2 ^ 31)
            <$> seq 1 (count_sends cs) /\
      Forall (fun f => Z.testbit (sp_getl (take 4 f)) 31 = true) frames /\
      reqid (self w') mod 2 ^ 31
        = (reqid (self w) + Z.of_nat (count_sends cs)) mod 2 ^ 31)
  /\ (forall (bufs : list (list byte)),
        req_wf w = true ->
        (forall (x : X) (frame : list byte),
            fst (raw_send x frame) = RC0
            \/ fst (raw_send x frame) = RCneg EAGAIN) ->
        Forall (fun buf => 4 + Z.of_nat (length buf) <= SIZE_MAX
                           /\ 4 + Z.of_nat (length buf) <= heap_room w) bufs ->
        exists frames w',
          run SP_RESEND_IVL (CallSend <$> bufs) w = Ret frames w')
  /\ (forall (len : Z) wa r wb,
        sp_req_recv len wa = Ret r wb -> reqid (self wb) = reqid (self wa)).
Proof.
  split; [|split].
  - intros cs frames w' Hrun. exact (run_ids _ _ _ _ Hrun).
  - intros bufs Hwf Hraw Hfit. exact (sends_return bufs w Hwf Hraw Hfit).
  - exact keeps_recv.
Qed.

(** ** Termination, and what every call conserves *)

Lemma Ret_inv {A} (a b : A) w1 w2 : Ret a w1 = Ret b w2 -> a = b /\ w1 = w2.
Proof. intros [= -> ->]. split; reflexivity. Qed.

Lemma dispatched_app (tr1 tr2 : list event) :
  dispatched (tr1 ++ tr2) = dispatched tr1 ++ dispatched tr2.
Proof.
  induction tr1 as [|e tr1 IH]; [reflexivity|].
  destruct e; cbn [dispatched app]; rewrite ?IH; reflexivity.
Qed.


Lemma term_eq w :
  req_wf w = true ->
  exists w',
    sp_req_term w = Ret tt w' /\
    blocks (mem w') = other_blocks w /\
    avail (mem w') = heap_room w /\
    xreq (self w') = raw_term (xreq (self w)) /\
    reqid (self w') = reqid (self w) /\
    resend_ivl (self w') = resend_ivl (self w) /\
    trace w' = trace w ++ (if in_progress (flags (self w))
                           then [EvTimerCancel; EvFree (request (self w))]
                           else []) /\
    (in_progress (flags (self w)) = true ->
     request_bytes w' = None /\ resend_timer (self w') = TimerIdle).
Proof.
  intros Hwf. unfold sp_req_term, other_blocks, heap_room. rewrite bind_rd.
  destruct (in_progress (flags (self w))) eqn:Hfl.
  - destruct (req_wf_busy _ Hwf Hfl) as (b & bs & Hp & Hb & _ & Hlen & _).
    unfold sp_sockbase_timer_cancel. step. rewrite Hp.
    unfold bind at 1. erewrite sp_free_ok by (norm; exact Hb). norm.
    unfold sp_xreq_term. step. eexists. split; [reflexivity|]. norm.
    rewrite Hlen, length_fmap, <- app_assoc.
    repeat split. unfold request_bytes. norm. unfold set_xreq, set_resend_timer.
    norm. rewrite Hp, lookup_delete_eq. reflexivity.
  - unfold sp_xreq_term. step. eexists. split; [reflexivity|]. norm.
    rewrite app_nil_r. repeat split; try lia; try discriminate.
Qed.

(** The cases of a returning [recv] on a well-formed socket with a request
    in progress: the reply is discarded, or it is delivered and the request
    is over. *)
Lemma recv_ret_cases w (len : Z) (rc : retcode) (data : list byte) (n : Z) w' :
  in_progress (flags (self w)) = true ->
  req_wf w = true ->
  sp_req_recv len w = Ret (rc, data, n) w' ->
  (rc = RCneg EAGAIN /\ data = [] /\ n = len /\ mem w' = mem w /\
   exists x', self w' = set_xreq x' (self w))
  \/ (rc = RC0 /\
      exists x' b cells,
        request (self w) = Ptr b /\
        blocks (mem w) !! b = Some cells /\
        mem w' = mk_heap (delete b (blocks (mem w)))
                         (avail (mem w) + Z.of_nat (length cells)) /\
        self w' = mk_req x' (reqid (self w))
                         (Z.land (flags (self w)) (uint32_not SP_REQ_INPROGRESS))
                         0 NULL (resend_ivl (self w)) TimerIdle).
Proof.
  intros Hbusy Hwf.
  destruct (req_wf_busy _ Hwf Hbusy) as (breq & bs & Hp & Hreq & _).
  unfold sp_req_recv. rewrite bind_rd, Hbusy. cbn [negb].
  set (cap := size_wrap (sizeof_uint32 + len)).
  assert (Hcap : 0 <= cap < SIZE_MOD) by (apply Z.mod_pos_bound; reflexivity).
  intros Hr. apply bind_inv in Hr as (p & w1 & Ha & Hr).
  apply sp_alloc_inv in Ha as [(-> & _ & ->)|(-> & Hav & ->)].
  { discriminate Hr. }
  set (b := fresh (dom (blocks (mem w)))) in *.
  assert (Hfresh : blocks (mem w) !! b = None) by apply fresh_block_unused.
  assert (Hne : b <> breq) by congruence.
  revert Hr. unfold alloc_assert. step. unfold sp_xreq_recv. step.
  destruct (raw_recv (xreq (self w))) as [[frame|e] x']; step.
  - unfold bind at 1.
    erewrite store_ok; [| norm; apply lookup_insert_eq | lia | ].
    2:{ rewrite length_take, length_replicate. lia. }
    norm. step. rewrite insert_insert_eq.
    set (cells := take (Z.to_nat 0) _ ++ _ ++ _).
    assert (Hcells : Z.of_nat (length cells) = cap).
    { subst cells. rewrite length_stored.
      - rewrite length_replicate. lia.
      - rewrite length_take, length_replicate. simpl. lia. }
    cbn [is_eagain is_zero errnum_assert]. step.
    assert (Hdiscard : forall tr : list event,
      bind (sp_free (Ptr b)) (fun _ => ret (RCneg EAGAIN, @nil byte, len))
        (mk_world (mk_heap (<[b := cells]> (blocks (mem w))) (avail (mem w) - cap))
                  (set_xreq x' (self w)) tr) = Ret (rc, data, n) w' ->
      (rc = RCneg EAGAIN /\ data = [] /\ n = len /\ mem w' = mem w /\
       exists x'0, self w' = set_xreq x'0 (self w))
      \/ (rc = RC0 /\
          exists x'0 b0 cells0,
            request (self w) = Ptr b0 /\
            blocks (mem w) !! b0 = Some cells0 /\
            mem w' = mk_heap (delete b0 (blocks (mem w)))
                             (avail (mem w) + Z.of_nat (length cells0)) /\
            self w' = mk_req x'0 (reqid (self w))
                        (Z.land (flags (self w)) (uint32_not SP_REQ_INPROGRESS))
                        0 NULL (resend_ivl (self w)) TimerIdle)).
    { intros tr. rewrite discard_reply by assumption.
      intros [= <- <- <- <-]. left. norm. eauto 10. }
    destruct (Z.of_nat (length frame) <? sizeof_uint32); [apply Hdiscard|].
    unfold sp_getl_at. rewrite bind_assoc.
    intros Hr. apply bind_inv in Hr as (tag & w2 & Hl & Hr).
    apply load_inv in Hl as (-> & _). revert Hr. step.
    destruct (Z.land (sp_getl tag) 0x80000000 =? 0); [apply Hdiscard|].
    rewrite bind_rd.
    destruct (negb (Z.land (sp_getl tag) 0x7fffffff =? _)); [apply Hdiscard|].
    intros Hr. apply bind_inv in Hr as (copied & w3 & Hl & Hr).
    apply load_inv in Hl as (-> & _). revert Hr.
    unfold sp_sockbase_timer_cancel. step.
    unfold bind at 1.
    erewrite sp_free_ok by (norm; apply lookup_insert_eq). norm. step.
    rewrite Hp. unfold bind at 1.
    erewrite sp_free_ok
      by (norm; rewrite lookup_delete_ne, lookup_insert_ne by assumption;
          exact Hreq).
    norm. step. unfold ret. rewrite delete_insert_id by assumption.
    intros [= <- _ _ <-]. right. split; [reflexivity|].
    exists x', breq, (Some <$> bs). norm.
    split; [reflexivity|]. split; [exact Hreq|]. split; [|reflexivity].
    f_equal. lia.
  - destruct e; cbn [is_eagain is_zero errnum_assert]; try discriminate.
    rewrite discard_reply
      by (try assumption; rewrite length_replicate; lia).
    intros [= <- <- <- <-]. left. norm. eauto 10.
Qed.

(** The four quantities below depend only on the heap and on the fields
    [reqid], [flags], [requestlen], [request] and [resend_timer]. *)
Lemma inv_same w w' :
  mem w' = mem w ->
  reqid (self w') = reqid (self w) ->
  flags (self w') = flags (self w) ->
  requestlen (self w') = requestlen (self w) ->
  request (self w') = request (self w) ->
  timer_armed (resend_timer (self w'))
  = timer_armed (resend_timer (self w)) ->
  req_wf w' = req_wf w /\ req_tagged w' = req_tagged w /\
  heap_room w' = heap_room w /\ other_blocks w' = other_blocks w.
Proof.
  intros Hm Hid Hfl Hrl Hp Ht.
  unfold req_wf, req_tagged, heap_room, other_blocks, request_bytes.
  rewrite Hm, Hid, Hfl, Hrl, Hp, Ht. repeat split.
Qed.

(** The state a returning [send] leaves, from a socket with no request in
    progress. *)
Lemma send_idle_world w (buf : list byte) (rc : retcode) w' :
  let len := Z.of_nat (length buf) in
  let id' := (reqid (self w) + 1) mod 2 ^ 31 in
  let frame := sp_putl (Z.lor id' 0x80000000) ++ buf in
  let b := fresh (dom (blocks (mem w))) in
  in_progress (flags (self w)) = false ->
  sp_req_send buf w = Ret rc w' ->
  rc = RC0 /\
  4 + len <= SIZE_MAX /\ 4 + len <= avail (mem w) /\
  exists rc0 x',
    raw_send (xreq (self w)) frame = (rc0, x') /\
    (rc0 = RC0 \/ rc0 = RCneg EAGAIN) /\
    w' = mk_world
           (mk_heap (<[b := Some <$> frame]> (blocks (mem w)))
                    (avail (mem w) - (4 + len)))
           (mk_req x' id' (Z.lor (flags (self w)) SP_REQ_INPROGRESS)
                   (4 + len) (Ptr b) (resend_ivl (self w))
                   (TimerArmed (resend_ivl (self w))))
           (trace w ++ [EvAlloc (4 + len) (Ptr b); EvXreqSend frame rc0;
                        EvTimerStart (resend_ivl (self w))]).
Proof.
  intros len id' frame b Hidle Hsend.
  destruct (send_idle_inv _ _ _ _ Hidle Hsend) as [Hsz Hav].
  rewrite (send_idle_eq _ _ Hidle Hsz Hav) in Hsend.
  rewrite next_reqid in Hsend. fold id' frame b len in Hsend.
  destruct (raw_send (xreq (self w)) frame) as [rc0 x'].
  destruct (is_zero rc0 || is_eagain rc0) eqn:Hok; [|discriminate].
  apply Ret_inv in Hsend as [<- <-].
  split; [reflexivity|]. split; [exact Hsz|]. split; [exact Hav|].
  exists rc0, x'. split; [reflexivity|]. split; [|reflexivity].
  destruct rc0 as [|[]]; try discriminate; auto.
Qed.

Lemma tagged_frame (id : Z) (buf : list byte) :
  0 <= id < 2 ^ 31 ->
  sp_getl (take 4 (sp_putl (Z.lor id 0x80000000) ++ buf))
  = Z.lor id 0x80000000.
Proof.
  intros Hid. rewrite take_app_length' by reflexivity.
  rewrite tag_roundtrip, lor_bit31 by lia. reflexivity.
Qed.

(** What a returning [send] establishes and conserves. *)
Lemma send_conserves w (buf : list byte) (rc : retcode) w' :
  req_wf w = true ->
  sp_req_send buf w = Ret rc w' ->
  rc = RC0 /\
  req_wf w' = true /\ req_tagged w' = true /\
  heap_room w' = heap_room w /\ other_blocks w' = other_blocks w /\
  in_progress (flags (self w')) = true /\
  reqid (self w') = (reqid (self w) + 1) mod 2 ^ 31 /\
  request_bytes w'
  = Some (sp_putl (Z.lor ((reqid (self w) + 1) mod 2 ^ 31) 0x80000000) ++ buf) /\
  resend_ivl (self w') = resend_ivl (self w) /\
  dispatched (trace w')
  = dispatched (trace w)
    ++ [sp_putl (Z.lor ((reqid (self w) + 1) mod 2 ^ 31) 0x80000000) ++ buf].
Proof.
  intros Hwf Hsend.
  set (id' := (reqid (self w) + 1) mod 2 ^ 31).
  set (frame := sp_putl (Z.lor id' 0x80000000) ++ buf).
  assert (Hid' : 0 <= id' < 2 ^ 31) by (apply Z.mod_pos_bound; lia).
  assert (Hidle : forall w1,
    in_progress (flags (self w1)) = false ->
    reqid (self w1) = reqid (self w) ->
    resend_ivl (self w1) = resend_ivl (self w) ->
    blocks (mem w1) = other_blocks w ->
    avail (mem w1) = heap_room w ->
    dispatched (trace w1) = dispatched (trace w) ->
    sp_req_send buf w1 = Ret rc w' ->
    rc = RC0 /\
    req_wf w' = true /\ req_tagged w' = true /\
    heap_room w' = heap_room w /\ other_blocks w' = other_blocks w /\
    in_progress (flags (self w')) = true /\
    reqid (self w') = id' /\
    request_bytes w' = Some frame /\
    resend_ivl (self w') = resend_ivl (self w) /\
    dispatched (trace w') = dispatched (trace w) ++ [frame]).
  { intros w1 Hfl1 Hid1 Hivl1 Hbl1 Hav1 Htr1 Hs1.
    destruct (send_idle_world _ _ _ _ Hfl1 Hs1)
      as (-> & Hsz & Hav & rc0 & x' & _ & _ & ->).
    rewrite Hid1, Hivl1, Hbl1, Hav1. fold id' frame.
    set (b := fresh (dom (other_blocks w))).
    assert (Hb : other_blocks w !! b = None)
      by (apply not_elem_of_dom, is_fresh).
    match goal with
    | |- _ /\ req_wf ?t = _ /\ _ => set (wn := t)
    end.
    assert (Hbytes : request_bytes wn = Some frame).
    { unfold request_bytes. subst wn. norm. rewrite lookup_insert_eq.
      apply written_bytes. }
    assert (Hlenf : Z.of_nat (length frame) = 4 + Z.of_nat (length buf)).
    { unfold frame. rewrite length_app, length_sp_putl. lia. }
    assert (Hbusy : in_progress (flags (self wn)) = true)
      by apply in_progress_set.
    split; [reflexivity|].
    split.
    { unfold req_wf. rewrite Hbusy, Hbytes. subst wn. norm.
      rewrite Hlenf, Z.eqb_refl. reflexivity. }
    split.
    { unfold req_tagged. rewrite Hbusy, Hbytes. subst wn. norm.
      unfold frame at 2. rewrite tagged_frame, Z.eqb_refl, Hlenf by exact Hid'.
      destruct (Z.leb_spec 4 (4 + Z.of_nat (length buf))); [|lia].
      destruct (Z.leb_spec 0 id'); [|lia].
      destruct (Z.ltb_spec id' (2 ^ 31)); [reflexivity|lia]. }
    split.
    { unfold heap_room at 1. rewrite Hbusy. subst wn. norm. lia. }
    split.
    { unfold other_blocks at 1. rewrite Hbusy. subst wn. norm.
      apply delete_insert_id, Hb. }
    split; [exact Hbusy|]. split; [reflexivity|]. split; [exact Hbytes|].
    split; [reflexivity|]. subst wn. norm.
    rewrite dispatched_app, Htr1. reflexivity. }
  destruct (in_progress (flags (self w))) eqn:Hfl.
  - destruct (req_wf_busy _ Hwf Hfl) as (b & bs & Hp & Hb & _ & Hrl & _).
    rewrite (send_supersede _ _ _ _ Hfl Hp Hb) in Hsend.
    revert Hsend. apply Hidle; norm; try reflexivity.
    + apply in_progress_clear.
    + unfold other_blocks. rewrite Hfl, Hp. reflexivity.
    + unfold heap_room. rewrite Hfl, Hrl, length_fmap. reflexivity.
    + rewrite dispatched_app. cbn [dispatched]. apply app_nil_r.
  - revert Hsend. apply Hidle; try reflexivity; try assumption.
    + unfold other_blocks. rewrite Hfl. reflexivity.
    + unfold heap_room. rewrite Hfl. lia.
Qed.

(** ** What is appended to the log of calls *)

Lemma emits_bind {A B} (ok : event -> bool) (m : M X A) (k : A -> M X B) :
  emits_only ok m -> (forall a, emits_only ok (k a)) ->
  emits_only ok (bind m k).
Proof.
  intros Hm Hk w b w2 Hb. apply bind_inv in Hb as (a & w1 & H1 & H2).
  destruct (Hm _ _ _ H1) as (e1 & Ht1 & Ho1).
  destruct (Hk _ _ _ _ H2) as (e2 & Ht2 & Ho2).
  exists (e1 ++ e2). rewrite Ht2, Ht1, <- app_assoc, forallb_app, Ho1, Ho2.
  split; reflexivity.
Qed.

Lemma emits_nothing {A} (ok : event -> bool) (m : M X A) :
  (forall w a w', m w = Ret a w' -> trace w' = trace w) -> emits_only ok m.
Proof.
  intros Hm w a w' Hr. exists []. rewrite app_nil_r. split; [eauto|reflexivity].
Qed.

Lemma emits_ret {A} ok (a : A) : emits_only ok (ret (X:=X) a).
Proof. apply emits_nothing. intros w a' w' [= _ <-]. reflexivity. Qed.

Lemma emits_abort {A} ok : emits_only ok (abort (X:=X) (A:=A)).
Proof. intros w a w' [=]. Qed.

Lemma emits_rd {A} ok (f : sp_req X -> A) : emits_only ok (rd f).
Proof. apply emits_nothing. intros w a w' [= _ <-]. reflexivity. Qed.

Lemma emits_upd ok (g : sp_req X -> sp_req X) : emits_only ok (upd g).
Proof. apply emits_nothing. intros w [] w' [= <-]. reflexivity. Qed.

Lemma emits_load ok (p : ptr) (off n : Z) : emits_only ok (load (X:=X) p off n).
Proof.
  apply emits_nothing. intros w bs w' Hl. apply load_inv in Hl as [-> _].
  reflexivity.
Qed.

Lemma emits_store ok (p : ptr) (off : Z) (bs : list byte) :
  emits_only ok (store (X:=X) p off bs).
Proof.
  apply emits_nothing. intros w [] w' Hs.
  apply store_inv in Hs as (b & cells & _ & _ & _ & _ & ->). reflexivity.
Qed.

Lemma emits_emit (ok : event -> bool) (e : event) :
  ok e = true -> emits_only ok (emit (X:=X) e).
Proof.
  intros He w [] w' [= <-]. exists [e]. cbn [forallb]. rewrite He.
  split; reflexivity.
Qed.

Lemma emits_alloc (ok : event -> bool) (size : Z) :
  (forall s p, ok (EvAlloc s p) = true) -> emits_only ok (sp_alloc (X:=X) size).
Proof.
  intros Hok w p w' Ha.
  apply sp_alloc_inv in Ha as [(_ & _ & ->)|(_ & _ & ->)];
    eexists [_]; cbn [forallb trace]; rewrite Hok; split; reflexivity.
Qed.

Lemma emits_free (ok : event -> bool) (p : ptr) :
  (forall q, ok (EvFree q) = true) -> emits_only ok (sp_free (X:=X) p).
Proof.
  intros Hok w [] w' Hf.
  apply sp_free_inv in Hf as [(_ & ->)|(b & cells & _ & _ & ->)];
    eexists [_]; cbn [forallb trace]; rewrite Hok; split; reflexivity.
Qed.

Ltac emits :=
  repeat first
    [ apply emits_ret | apply emits_abort | apply emits_rd | apply emits_upd
    | apply emits_load | apply emits_store
    | apply emits_emit; reflexivity
    | apply emits_alloc; reflexivity
    | apply emits_free; reflexivity
    | apply emits_bind; [|intros ?]
    | match goal with
      | |- emits_only _ (if ?c then _ else _) => destruct c
      | |- emits_only _ (match ?x with _ => _ end) => destruct x
      end ].

Lemma recv_passive (len : Z) : emits_only passive (sp_req_recv len).
Proof.
  unfold sp_req_recv, alloc_assert, errnum_assert, sp_getl_at, sp_xreq_recv,
    sp_sockbase_timer_cancel.
  emits.
Qed.

Lemma passive_dispatched (evs : list event) :
  forallb passive evs = true -> dispatched evs = [].
Proof.
  induction evs as [|e evs IH]; [reflexivity|].
  cbn [forallb]. intros [He Hevs]%andb_true_iff.
  destruct e; try discriminate; cbn [dispatched]; auto.
Qed.

Lemma recv_idle_eq w (len : Z) :
  in_progress (flags (self w)) = false ->
  sp_req_recv len w = Ret (RCneg EFSM, [], len) w.
Proof. intros Hfl. unfold sp_req_recv. rewrite bind_rd, Hfl. reflexivity. Qed.

(** What a returning [recv] conserves. *)
Lemma recv_conserves w (len : Z) (rc : retcode) (data : list byte) (n : Z) w' :
  req_wf w = true -> req_tagged w = true ->
  sp_req_recv len w = Ret (rc, data, n) w' ->
  req_wf w' = true /\ req_tagged w' = true /\
  heap_room w' = heap_room w /\ other_blocks w' = other_blocks w /\
  dispatched (trace w') = dispatched (trace w) /\
  (rc = RC0 ->
   in_progress (flags (self w)) = true /\
   in_progress (flags (self w')) = false) /\
  (rc <> RC0 -> flags (self w') = flags (self w)).
Proof.
  intros Hwf Htag Hr.
  assert (Hd : dispatched (trace w') = dispatched (trace w)).
  { destruct (recv_passive len _ _ _ Hr) as (evs & -> & Hevs).
    rewrite dispatched_app, (passive_dispatched _ Hevs). apply app_nil_r. }
  destruct (in_progress (flags (self w))) eqn:Hfl.
  - destruct (recv_ret_cases _ _ _ _ _ _ Hfl Hwf Hr)
      as [(-> & _ & _ & Hm & x' & Hs)
         |(-> & x' & b & cells & Hp & Hb & Hm & Hs)].
    + pose proof (inv_same w w' Hm
                    ltac:(rewrite Hs; reflexivity) ltac:(rewrite Hs; reflexivity)
                    ltac:(rewrite Hs; reflexivity) ltac:(rewrite Hs; reflexivity)
                    ltac:(rewrite Hs; reflexivity)) as (E1 & E2 & E3 & E4).
      rewrite E1, E2, E3, E4.
      repeat split; try assumption; try discriminate.
      rewrite Hs. reflexivity.
    + destruct (req_wf_busy _ Hwf Hfl) as (b' & bs & Hp' & Hb' & _ & Hrl & _).
      assert (b' = b) as -> by congruence.
      assert (cells = Some <$> bs) as -> by congruence.
      unfold req_wf, req_tagged, heap_room, other_blocks.
      rewrite Hm, Hs, Hfl, Hp, Hrl. norm.
      rewrite in_progress_clear, length_fmap.
      repeat split; try assumption; try congruence. lia.
  - rewrite (recv_idle_eq _ _ Hfl) in Hr. apply Ret_inv in Hr as [[= <- _ _] <-].
    repeat split; try assumption; discriminate.
Qed.

(** What a returning firing of the resend callback conserves. *)
Lemma resend_conserves w w' :
  req_wf w = true -> req_tagged w = true ->
  sp_req_resend_routine w = Ret tt w' ->
  in_progress (flags (self w)) = true /\
  req_wf w' = true /\ req_tagged w' = true /\
  heap_room w' = heap_room w /\ other_blocks w' = other_blocks w /\
  flags (self w') = flags (self w) /\
  exists bs,
    request_bytes w = Some bs /\
    dispatched (trace w') = dispatched (trace w) ++ [bs].
Proof.
  intros Hwf Htag Hr.
  destruct (in_progress (flags (self w))) eqn:Hfl;
    [|rewrite (resend_idle _ Hfl) in Hr; discriminate].
  destruct (req_wf_busy _ Hwf Hfl) as (b & bs & Hp & Hb & Hbs & Hrl & Harm).
  rewrite (resend_eq _ _ _ Hfl Hp Hb Hrl) in Hr.
  destruct (raw_send (xreq (self w)) bs) as [rc x'].
  destruct (is_zero rc || is_eagain rc); [|discriminate].
  apply Ret_inv in Hr as [_ <-].
  split; [reflexivity|].
  match goal with
  | |- req_wf ?t = _ /\ _ => set (wn := t)
  end.
  pose proof (inv_same w wn eq_refl eq_refl eq_refl eq_refl eq_refl
                (eq_sym Harm)) as (_ & E2 & E3 & E4).
  assert (Hwf' : req_wf wn = true).
  { apply (req_wf_intro wn b bs); subst wn; norm; auto. }
  rewrite E2, E3, E4. repeat split; try assumption.
  exists bs. split; [exact Hbs|]. subst wn. norm.
  rewrite dispatched_app. reflexivity.
Qed.

(** The option calls change nothing but [resend_ivl]. *)
Lemma setopt_conserves w (o : Z) (v : list byte) (rc : retcode) w' :
  sp_req_setopt SP_RESEND_IVL o v w = Ret rc w' ->
  mem w' = mem w /\ trace w' = trace w /\
  reqid (self w') = reqid (self w) /\ flags (self w') = flags (self w) /\
  requestlen (self w') = requestlen (self w) /\
  request (self w') = request (self w) /\
  resend_timer (self w') = resend_timer (self w) /\
  xreq (self w') = xreq (self w).
Proof.
  unfold sp_req_setopt.
  destruct (o =? SP_RESEND_IVL);
    [destruct (negb (Z.of_nat (length v) =? sizeof_int))|].
  all: intros Hr; apply Ret_inv in Hr as [_ <-]; repeat split.
Qed.

Lemma getopt_conserves w (o n : Z) r w' :
  sp_req_getopt SP_RESEND_IVL o n w = Ret r w' -> w' = w.
Proof.
  unfold sp_req_getopt.
  destruct (o =? SP_RESEND_IVL); [destruct (n <? sizeof_int)|].
  all: intros Hr; apply Ret_inv in Hr as [_ <-]; reflexivity.
Qed.

Lemma in_progress_flags_eq w w' :
  flags (self w') = flags (self w) ->
  in_progress (flags (self w')) = in_progress (flags (self w)).
Proof. intros ->. reflexivity. Qed.

(** What a call establishes and conserves, whichever it is. *)
Lemma do_call_conserves (c : call) w (rc : retcode) w' :
  req_wf w = true -> req_tagged w = true ->
  do_call SP_RESEND_IVL c w = Ret rc w' ->
  req_wf w' = true /\ req_tagged w' = true /\
  heap_room w' = heap_room w /\ other_blocks w' = other_blocks w /\
  (exists sent,
     dispatched (trace w') = dispatched (trace w) ++ sent /\
     Forall (fun f => 4 <= Z.of_nat (length f)
                      /\ Z.testbit (sp_getl (take 4 f)) 31 = true) sent) /\
  (recv_successes [c] [rc]
   + (if in_progress (flags (self w')) then 1 else 0)
   <= count_sends [c]
      + (if in_progress (flags (self w)) then 1 else 0))%nat.
Proof.
  intros Hwf Htag.
  assert (Hbit : forall id : Z, 0 <= id < 2 ^ 31 ->
            Z.testbit (Z.lor id 0x80000000) 31 = true).
  { intros id Hid. rewrite lor_bit31 by lia. apply testbit31_add, Hid. }
  destruct c as [buf|len| |o v|o n]; cbn [do_call recv_successes count_sends].
  - intros Hs.
    destruct (send_conserves _ _ _ _ Hwf Hs)
      as (-> & H1 & H2 & H3 & H4 & H5 & _ & _ & _ & H6).
    rewrite H5. do 4 (split; [assumption|]). split.
    + eexists. split; [exact H6|]. constructor; [|constructor].
      assert (0 <= (reqid (self w) + 1) mod 2 ^ 31 < 2 ^ 31)
        by (apply Z.mod_pos_bound; lia).
      rewrite tagged_frame, length_app, length_sp_putl by assumption.
      split; [lia|]. apply Hbit. assumption.
    + destruct (in_progress (flags (self w))); simpl; lia.
  - intros Hr. apply bind_inv in Hr as ([[rc0 data] n] & w1 & Hr & Hret).
    apply Ret_inv in Hret as [<- <-]. cbn [fst].
    destruct (recv_conserves _ _ _ _ _ _ Hwf Htag Hr)
      as (H1 & H2 & H3 & H4 & H5 & H6 & H7).
    do 4 (split; [assumption|]). split.
    + exists []. rewrite app_nil_r. split; [exact H5|constructor].
    + destruct rc0 as [|e].
      * destruct (H6 eq_refl) as [-> ->]. simpl. lia.
      * rewrite (in_progress_flags_eq _ _ (H7 ltac:(discriminate))).
        simpl. lia.
  - intros Hr. apply bind_inv in Hr as ([] & w1 & Hr & Hret).
    apply Ret_inv in Hret as [<- <-].
    destruct (resend_conserves _ _ Hwf Htag Hr)
      as (Hbusy & H1 & H2 & H3 & H4 & H5 & bs & Hbs & H6).
    do 4 (split; [assumption|]). split.
    + exists [bs]. split; [exact H6|]. constructor; [|constructor].
      revert Htag. unfold req_tagged. rewrite Hbusy, Hbs.
      intros [[[Hl Hg]%andb_true_iff Hlo]%andb_true_iff Hhi]%andb_true_iff.
      apply Z.leb_le in Hl, Hlo. apply Z.eqb_eq in Hg. apply Z.ltb_lt in Hhi.
      split; [exact Hl|]. rewrite Hg. apply Hbit. lia.
    + rewrite (in_progress_flags_eq _ _ H5). simpl. lia.
  - intros Hr.
    destruct (setopt_conserves _ _ _ _ _ Hr)
      as (Hm & Ht & Hid & Hfl & Hrl & Hp & Htm & _).
    destruct (inv_same w w' Hm Hid Hfl Hrl Hp (f_equal timer_armed Htm))
      as (E1 & E2 & E3 & E4).
    rewrite E1, E2, E3, E4, Ht, Hfl. do 4 (split; [assumption || reflexivity|]).
    split; [exists []; rewrite app_nil_r; split; [reflexivity|constructor]|].
    simpl. lia.
  - intros Hr. apply bind_inv in Hr as (r & w1 & Hr & Hret).
    apply Ret_inv in Hret as [<- <-].
    apply getopt_conserves in Hr as ->.
    do 4 (split; [assumption || reflexivity|]).
    split; [exists []; rewrite app_nil_r; split; [reflexivity|constructor]|].
    simpl. lia.
Qed.

Lemma recv_successes_cons (c : call) (cs : list call) (rc : retcode)
      (rcs : list retcode) :
  recv_successes (c :: cs) (rc :: rcs)
  = (recv_successes [c] [rc] + recv_successes cs rcs)%nat.
Proof. destruct c, rc; reflexivity. Qed.

Lemma count_sends_cons (c : call) (cs : list call) :
  count_sends (c :: cs) = (count_sends [c] + count_sends cs)%nat.
Proof. destruct c; reflexivity. Qed.

Lemma do_calls_conserves (cs : list call) w (rcs : list retcode) w' :
  req_wf w = true -> req_tagged w = true ->
  do_calls SP_RESEND_IVL cs w = Ret rcs w' ->
  req_wf w' = true /\ req_tagged w' = true /\
  heap_room w' = heap_room w /\ other_blocks w' = other_blocks w /\
  length rcs = length cs /\
  (exists sent,
     dispatched (trace w') = dispatched (trace w) ++ sent /\
     Forall (fun f => 4 <= Z.of_nat (length f)
                      /\ Z.testbit (sp_getl (take 4 f)) 31 = true) sent) /\
  (recv_successes cs rcs + (if in_progress (flags (self w')) then 1 else 0)
   <= count_sends cs + (if in_progress (flags (self w)) then 1 else 0))%nat.
Proof.
  revert w rcs. induction cs as [|c cs IH]; intros w rcs Hwf Htag Hr.
  - apply Ret_inv in Hr as [<- <-]. do 5 (split; [assumption || reflexivity|]).
    split; [exists []; rewrite app_nil_r; split; [reflexivity|constructor]|].
    simpl. lia.
  - cbn [do_calls] in Hr.
    apply bind_inv in Hr as (rc & w1 & Hc & Hr).
    apply bind_inv in Hr as (rcs' & w2 & Hcs & Hr).
    apply Ret_inv in Hr as [<- <-].
    destruct (do_call_conserves _ _ _ _ Hwf Htag Hc)
      as (Hwf1 & Htag1 & Hroom1 & Hoth1 & (s1 & Hd1 & Hs1) & Hn1).
    destruct (IH _ _ Hwf1 Htag1 Hcs)
      as (Hwf2 & Htag2 & Hroom2 & Hoth2 & Hlen & (s2 & Hd2 & Hs2) & Hn2).
    split; [assumption|]. split; [assumption|].
    split; [congruence|]. split; [congruence|].
    split; [cbn [length]; congruence|]. split.
    + exists (s1 ++ s2). rewrite Hd2, Hd1, <- app_assoc.
      split; [reflexivity|]. apply Forall_app. split; assumption.
    + rewrite recv_successes_cons, (count_sends_cons c cs). lia.
Qed.

Lemma init_world (rnd : Z) w :
  exists w1,
    sp_req_init rnd w = Ret tt w1 /\
    in_progress (flags (self w1)) = false /\
    request (self w1) = NULL /\
    requestlen (self w1) = 0 /\
    mem w1 = mem w.
Proof.
  eexists. split.
  { unfold sp_req_init, sp_xreq_init, sp_random_generate. step. reflexivity. }
  norm. repeat split.
Qed.

(** ** Further properties of req.c *)

(** X1. [sp_req_term] on a well-formed socket returns; when a request is in
    progress it cancels the timer and then releases the stored request, and
    otherwise it calls neither the timer nor the allocator. Afterwards the
    heap holds the blocks it held beside the request and the allocator has
    got back the bytes of the request, and the raw socket is terminated. *)
Theorem term_releases_request w :
  req_wf w = true ->
  exists w',
    sp_req_term w = Ret tt w' /\
    blocks (mem w') = other_blocks w /\
    avail (mem w') = heap_room w /\
    xreq (self w') = raw_term (xreq (self w)) /\
    trace w' = trace w ++ (if in_progress (flags (self w))
                           then [EvTimerCancel; EvFree (request (self w))]
                           else []) /\
    (in_progress (flags (self w)) = true ->
     request_bytes w' = None /\ resend_timer (self w') = TimerIdle).
Proof.
  intros Hwf.
  destruct (term_eq w Hwf) as (w' & H1 & H2 & H3 & H4 & _ & _ & H5 & H6).
  exists w'. repeat split; try assumption; apply H6; assumption.
Qed.

(** X2. The representation invariant is kept by every call: from a socket
    on which [req_wf] and [req_tagged] hold, whatever sequence of [send],
    [recv], timer firings and option calls returns ends in a socket on which
    both hold again; that is, while a request is in progress [request]
    points to a live block of [requestlen] written bytes whose tag is
    [reqid | 0x80000000], [reqid] has 31 bits and the timer is armed, and
    otherwise [request] is null and [requestlen] is 0. *)
Theorem calls_keep_invariant (cs : list call) w (rcs : list retcode) w' :
  req_wf w = true -> req_tagged w = true ->
  do_calls SP_RESEND_IVL cs w = Ret rcs w' ->
  req_wf w' = true /\ req_tagged w' = true /\ length rcs = length cs.
Proof.
  intros Hwf Htag Hr.
  destruct (do_calls_conserves _ _ _ _ Hwf Htag Hr) as (H1 & H2 & _ & _ & H3 & _).
  auto.
Qed.

(** X3. No call leaks or touches memory that is not the socket's: over any
    returning sequence of calls the blocks of the heap other than the stored
    request are the same at the end as at the start, and the bytes the
    allocator has left plus the bytes of the stored request are the same. *)
Theorem calls_conserve_memory (cs : list call) w (rcs : list retcode) w' :
  req_wf w = true -> req_tagged w = true ->
  do_calls SP_RESEND_IVL cs w = Ret rcs w' ->
  other_blocks w' = other_blocks w /\ heap_room w' = heap_room w.
Proof.
  intros Hwf Htag Hr.
  destruct (do_calls_conserves _ _ _ _ Hwf Htag Hr) as (_ & _ & H1 & H2 & _).
  auto.
Qed.

(** X4. The whole life of a socket gives the heap back as it was: after
    [sp_req_init], any returning sequence of calls and [sp_req_term], the
    heap has the blocks and the available bytes it had before. *)
Theorem lifecycle_restores_heap (rnd : Z) (cs : list call) w0
        (rcs : list retcode) w2 :
  do_calls SP_RESEND_IVL cs (state_after (sp_req_init rnd) w0) = Ret rcs w2 ->
  exists w3, sp_req_term w2 = Ret tt w3 /\ mem w3 = mem w0.
Proof.
  intros Hr.
  destruct (init_world rnd w0) as (w1 & Hinit & Hfl & Hp & Hrl & Hm1).
  unfold state_after in Hr. rewrite Hinit in Hr.
  assert (Hwf1 : req_wf w1 = true).
  { unfold req_wf. rewrite Hfl, Hp, Hrl. reflexivity. }
  assert (Htag1 : req_tagged w1 = true).
  { unfold req_tagged. rewrite Hfl. reflexivity. }
  destruct (do_calls_conserves _ _ _ _ Hwf1 Htag1 Hr)
    as (Hwf2 & _ & Hroom & Hoth & _).
  destruct (term_eq w2 Hwf2) as (w3 & Ht & Hb & Ha & _).
  exists w3. split; [exact Ht|].
  rewrite Hoth in Hb. rewrite Hroom in Ha.
  unfold other_blocks in Hb. unfold heap_room in Ha.
  rewrite Hfl, Hm1 in Hb, Ha.
  destruct (mem w3) as [bl av], (mem w0) as [bl0 av0]. simpl in *.
  f_equal; [exact Hb | lia].
Qed.

(** X5. A request is answered at most once: over any returning sequence of
    calls, the number of [recv]s that return 0 is at most the number of
    [send]s, plus one if a request was in progress at the start. *)
Theorem recv_succeeds_once_per_send (cs : list call) w (rcs : list retcode) w' :
  req_wf w = true -> req_tagged w = true ->
  do_calls SP_RESEND_IVL cs w = Ret rcs w' ->
  (recv_successes cs rcs
   <= count_sends cs + (if in_progress (flags (self w)) then 1 else 0))%nat.
Proof.
  intros Hwf Htag Hr.
  destruct (do_calls_conserves _ _ _ _ Hwf Htag Hr)
    as (_ & _ & _ & _ & _ & _ & Hn).
  lia.
Qed.

(** X6. Every frame the socket hands to the raw socket, by [send] or by the
    resend callback, has at least 4 bytes and a tag with bit 31 set; [recv]
    and the option calls hand it none. *)
Theorem dispatched_frames_are_tagged (cs : list call) w (rcs : list retcode) w' :
  req_wf w = true -> req_tagged w = true ->
  do_calls SP_RESEND_IVL cs w = Ret rcs w' ->
  exists sent,
    dispatched (trace w') = dispatched (trace w) ++ sent /\
    Forall (fun f => 4 <= Z.of_nat (length f)
                     /\ Z.testbit (sp_getl (take 4 f)) 31 = true) sent.
Proof.
  intros Hwf Htag Hr.
  destruct (do_calls_conserves _ _ _ _ Hwf Htag Hr)
    as (_ & _ & _ & _ & _ & Hs & _).
  exact Hs.
Qed.

(** ** The fatal paths *)

Lemma sp_alloc_fail w (size : Z) :
  avail (mem w) < size ->
  sp_alloc size w
  = Ret NULL (mk_world (mem w) (self w) (trace w ++ [EvAlloc size NULL])).
Proof.
  intros Hav. unfold sp_alloc.
  destruct (Z.leb_spec size (avail (mem w))); [lia|reflexivity].
Qed.

Lemma send_idle_nomem w (buf : list byte) :
  in_progress (flags (self w)) = false ->
  4 + Z.of_nat (length buf) <= SIZE_MAX ->
  avail (mem w) < 4 + Z.of_nat (length buf) ->
  sp_req_send buf w = Abort.
Proof.
  intros Hidle Hsz Hav.
  unfold sp_req_send. rewrite bind_rd, Hidle. step.
  change sizeof_uint32 with 4.
  rewrite size_wrap_small by lia.
  unfold bind at 1. rewrite sp_alloc_fail by (norm; lia). norm. step.
  reflexivity.
Qed.

Lemma not_ok_code (rc : retcode) :
  rc <> RC0 -> rc <> RCneg EAGAIN -> is_zero rc || is_eagain rc = false.
Proof. destruct rc as [|[]]; intros H0 H1; try reflexivity; congruence. Qed.

(** X7. [send] does not survive a failed allocation: when the tagged
    request, of [4 + len] bytes, does not fit in what the allocator has left
    together with the request that [send] releases first, the
    [alloc_assert] after [sp_alloc] ends the process; [send] returns no
    error code for it. *)
Theorem send_aborts_without_memory w (buf : list byte) :
  req_wf w = true ->
  4 + Z.of_nat (length buf) <= SIZE_MAX ->
  heap_room w < 4 + Z.of_nat (length buf) ->
  sp_req_send buf w = Abort.
Proof.
  intros Hwf Hsz Hroom. unfold heap_room in Hroom.
  destruct (in_progress (flags (self w))) eqn:Hfl.
  - destruct (req_wf_busy _ Hwf Hfl) as (b & bs & Hp & Hb & _ & Hrl & _).
    rewrite (send_supersede _ _ _ _ Hfl Hp Hb).
    apply send_idle_nomem; norm; try assumption.
    + apply in_progress_clear.
    + rewrite length_fmap. lia.
  - apply send_idle_nomem; try assumption. lia.
Qed.

(** X8. [send] does not survive an error of the raw socket other than the
    pushback: a code that is neither 0 nor [-EAGAIN] fails the
    [errnum_assert] and ends the process. *)
Theorem send_aborts_on_raw_error w (buf : list byte) (rc : retcode) (x' : X) :
  let id' := (reqid (self w) + 1) mod 2 ^ 31 in
  let frame := sp_putl (Z.lor id' 0x80000000) ++ buf in
  req_wf w = true ->
  4 + Z.of_nat (length buf) <= SIZE_MAX ->
  4 + Z.of_nat (length buf) <= heap_room w ->
  raw_send (xreq (self w)) frame = (rc, x') ->
  rc <> RC0 -> rc <> RCneg EAGAIN ->
  sp_req_send buf w = Abort.
Proof.
  intros id' frame Hwf Hsz Hroom Hsend H0 H1. unfold heap_room in Hroom.
  pose proof (not_ok_code _ H0 H1) as Hbad.
  destruct (in_progress (flags (self w))) eqn:Hfl.
  - destruct (req_wf_busy _ Hwf Hfl) as (b & bs & Hp & Hb & _ & Hrl & _).
    rewrite (send_supersede _ _ _ _ Hfl Hp Hb).
    rewrite send_idle_eq;
      [| norm; apply in_progress_clear | assumption
       | norm; rewrite length_fmap; lia ].
    norm. rewrite next_reqid. fold id' frame. rewrite Hsend, Hbad. reflexivity.
  - rewrite send_idle_eq by (try assumption; lia).
    rewrite next_reqid. fold id' frame. rewrite Hsend, Hbad. reflexivity.
Qed.

(** X9. [recv] allocates a buffer of [4 + len] bytes before it asks the raw
    socket for a reply; when the allocator cannot give it, the
    [alloc_assert] ends the process, whether or not a reply is waiting. *)
Theorem recv_aborts_without_memory w (len : Z) :
  in_progress (flags (self w)) = true ->
  0 <= len -> 4 + len <= SIZE_MAX ->
  avail (mem w) < 4 + len ->
  sp_req_recv len w = Abort.
Proof.
  intros Hbusy Hlen Hsz Hav.
  unfold sp_req_recv. rewrite bind_rd, Hbusy. cbn [negb].
  change sizeof_uint32 with 4. rewrite size_wrap_small by lia.
  unfold bind at 1. rewrite sp_alloc_fail by lia. reflexivity.
Qed.

(** X10. [recv] does not survive an error of the raw socket other than
    [-EAGAIN]: the [errnum_assert (rc == 0)] ends the process, and the reply
    buffer is not released first. *)
Theorem recv_aborts_on_raw_error w (len : Z) (e : errnum) (x' : X) :
  in_progress (flags (self w)) = true ->
  0 <= len -> 4 + len <= SIZE_MAX -> 4 + len <= avail (mem w) ->
  raw_recv (xreq (self w)) = (RawFail e, x') ->
  e <> EAGAIN ->
  sp_req_recv len w = Abort.
Proof.
  intros Hbusy Hlen Hsz Hav Hrecv He.
  unfold sp_req_recv. rewrite bind_rd, Hbusy. cbn [negb].
  change sizeof_uint32 with 4. rewrite size_wrap_small by lia.
  unfold bind at 1. rewrite sp_alloc_ok by lia. norm.
  unfold alloc_assert. step.
  unfold sp_xreq_recv. step. rewrite Hrecv. step.
  destruct e; try reflexivity. contradiction.
Qed.

(** X11. The resend callback does not survive an error of the raw socket
    other than the pushback: a code that is neither 0 nor [-EAGAIN] ends
    the process, and the timer is not started again. *)
Theorem resend_aborts_on_raw_error w (bs : list byte) (rc : retcode) (x' : X) :
  in_progress (flags (self w)) = true ->
  req_wf w = true ->
  request_bytes w = Some bs ->
  raw_send (xreq (self w)) bs = (rc, x') ->
  rc <> RC0 -> rc <> RCneg EAGAIN ->
  sp_req_resend_routine w = Abort.
Proof.
  intros Hbusy Hwf Hbs Hsend H0 H1.
  destruct (req_wf_busy _ Hwf Hbusy) as (b & bs' & Hp & Hb & Hbs' & Hrl & _).
  assert (bs' = bs) as -> by congruence.
  rewrite (resend_eq _ _ _ Hbusy Hp Hb Hrl), Hsend, (not_ok_code _ H0 H1).
  reflexivity.
Qed.

(** X12. [replylen = sizeof (uint32_t) + *len] is computed in [size_t] and
    wraps: for [*len] within 2 of [SIZE_MAX] the reply buffer has 1, 2 or
    3 bytes, and a reply of 4 bytes or more, of which the buffer receives
    what fits, passes the length check on [replylen]; [sp_getl] then reads
    4 bytes from the shorter buffer, past its end. *)
Theorem recv_length_wrap_overreads w (len : Z) (frame : list byte) (x' : X) :
  in_progress (flags (self w)) = true ->
  SIZE_MAX - 2 <= len <= SIZE_MAX ->
  3 <= avail (mem w) ->
  raw_recv (xreq (self w)) = (RawFrame frame, x') ->
  4 <= Z.of_nat (length frame) ->
  sp_req_recv len w = Fault.
Proof.
  intros Hbusy Hlen Hav Hrecv Hfr.
  unfold sp_req_recv. rewrite bind_rd, Hbusy. cbn [negb].
  change sizeof_uint32 with 4.
  assert (Hcap : exists cap, size_wrap (4 + len) = cap /\ 1 <= cap <= 3).
  { exists (4 + len - SIZE_MOD). split; [|unfold SIZE_MAX, SIZE_MOD in *; lia].
    unfold size_wrap. symmetry. apply Z.mod_unique_pos with (q := 1).
    - unfold SIZE_MAX, SIZE_MOD in *. lia.
    - lia. }
  destruct Hcap as (cap & -> & Hcap).
  unfold bind at 1. rewrite sp_alloc_ok by lia. norm.
  unfold alloc_assert. step.
  unfold sp_xreq_recv. step. rewrite Hrecv. step.
  unfold bind at 1.
  erewrite store_ok; [| norm; apply lookup_insert_eq | lia | ].
  2:{ rewrite length_take, length_replicate. lia. }
  norm. step. rewrite insert_insert_eq.
  cbn [is_eagain is_zero errnum_assert]. step.
  destruct (Z.ltb_spec (Z.of_nat (length frame)) 4) as [Hshort|_]; [lia|].
  unfold sp_getl_at. step. unfold bind at 1.
  unfold load. norm. rewrite lookup_insert_eq.
  rewrite length_stored
    by (rewrite length_take, length_replicate; simpl; lia).
  rewrite length_replicate.
  destruct (Z.leb_spec (0 + 4) (Z.of_nat (Z.to_nat cap))); [lia|].
  reflexivity.
Qed.

(** ** Replies, repeated firings, and what [recv] calls *)

Lemma take_min_length {A} (n : Z) (l : list A) :
  take (Z.to_nat (Z.min n (Z.of_nat (length l)))) l = take (Z.to_nat n) l.
Proof.
  destruct (Z.le_ge_cases n (Z.of_nat (length l))) as [Hle|Hge].
  - rewrite Z.min_l by assumption. reflexivity.
  - rewrite Z.min_r by lia. rewrite Nat2Z.id.
    rewrite firstn_all. symmetry. apply take_ge. lia.
Qed.

(** X13. The tag [send] stores is the tag [recv] accepts: while a request
    is in progress on a socket that satisfies the invariant, a reply made of
    the first four bytes of the stored request followed by any payload is
    taken as the reply; [recv] returns 0 with the payload, cut to [len]
    bytes, and its whole length, the socket is idle, and the request is
    released: the heap holds the other blocks and the allocator has got
    back the bytes of the request. *)
Theorem recv_accepts_reply_to_stored_request
        w (len : Z) (bs payload : list byte) (x' : X) :
  in_progress (flags (self w)) = true ->
  req_wf w = true -> req_tagged w = true ->
  request_bytes w = Some bs ->
  0 <= len -> 4 + len <= SIZE_MAX -> 4 + len <= avail (mem w) ->
  4 + Z.of_nat (length payload) <= SIZE_MAX ->
  raw_recv (xreq (self w)) = (RawFrame (take 4 bs ++ payload), x') ->
  exists w',
    sp_req_recv len w
    = Ret (RC0, take (Z.to_nat len) payload, Z.of_nat (length payload)) w' /\
    in_progress (flags (self w')) = false /\
    request_bytes w' = None /\
    blocks (mem w') = other_blocks w /\
    avail (mem w') = heap_room w /\
    reqid (self w') = reqid (self w).
Proof.
  intros Hbusy Hwf Htag Hbs Hlen Hsz Hav Hpl Hrecv.
  destruct (req_wf_busy _ Hwf Hbusy) as (b & bs' & Hp & Hb & Hbs' & Hrl & _).
  assert (bs' = bs) as -> by congruence.
  unfold req_tagged in Htag. rewrite Hbusy, Hbs in Htag.
  apply andb_true_iff in Htag as [Htag Hhi].
  apply andb_true_iff in Htag as [Htag Hlo].
  apply andb_true_iff in Htag as [H4 Htag].
  apply Z.leb_le in H4, Hlo. apply Z.ltb_lt in Hhi. apply Z.eqb_eq in Htag.
  assert (Hl4 : length (take 4 bs) = 4%nat) by (rewrite length_take; lia).
  assert (Htk : take 4 (take 4 bs ++ payload) = take 4 bs).
  { rewrite take_app_le by lia. apply take_ge. lia. }
  assert (Hdr : drop 4 (take 4 bs ++ payload) = payload).
  { rewrite <- Hl4 at 1. apply drop_app_length. }
  assert (Hfl : Z.of_nat (length (take 4 bs ++ payload))
                = 4 + Z.of_nat (length payload)).
  { rewrite length_app, Hl4. lia. }
  rewrite lor_bit31 in Htag by lia.
  rewrite (recv_accept w len (take 4 bs ++ payload) x' b (Some <$> bs));
    try assumption.
  - rewrite Hdr, Hfl.
    replace (4 + Z.of_nat (length payload) - 4)
      with (Z.of_nat (length payload)) by lia.
    rewrite take_min_length.
    eexists. split; [reflexivity|]. norm.
    unfold request_bytes, other_blocks, heap_room. norm.
    rewrite Hbusy, Hp, Hrl, length_fmap.
    repeat split. apply in_progress_clear.
  - lia.
  - rewrite Htk, Htag. apply testbit31_add. lia.
  - rewrite Htk, Htag.
    rewrite <- Z.add_mod_idemp_r, Z.mod_same, Z.add_0_r by lia.
    apply Z.mod_small. lia.
Qed.

Lemma resend_step w (bs : list byte) :
  req_wf w = true ->
  in_progress (flags (self w)) = true ->
  request_bytes w = Some bs ->
  (forall (x : X) (f : list byte),
      fst (raw_send x f) = RC0 \/ fst (raw_send x f) = RCneg EAGAIN) ->
  exists w',
    sp_req_resend_routine w = Ret tt w' /\
    req_wf w' = true /\
    mem w' = mem w /\
    reqid (self w') = reqid (self w) /\
    flags (self w') = flags (self w) /\
    request (self w') = request (self w) /\
    resend_ivl (self w') = resend_ivl (self w) /\
    resend_timer (self w') = TimerArmed (resend_ivl (self w)) /\
    dispatched (trace w') = dispatched (trace w) ++ [bs].
Proof.
  intros Hwf Hbusy Hbs Hraw.
  destruct (req_wf_busy _ Hwf Hbusy) as (b & bs' & Hp & Hb & Hbs' & Hrl & _).
  assert (bs' = bs) as -> by congruence.
  rewrite (resend_eq _ _ _ Hbusy Hp Hb Hrl).
  specialize (Hraw (xreq (self w)) bs).
  destruct (raw_send (xreq (self w)) bs) as [rc x']. simpl in Hraw.
  assert (Hok : is_zero rc || is_eagain rc = true)
    by (destruct Hraw as [-> | ->]; reflexivity).
  rewrite Hok. eexists. split; [reflexivity|]. norm.
  repeat split.
  - apply (req_wf_intro _ b bs); norm; auto.
  - rewrite dispatched_app. reflexivity.
Qed.

(** X14. The resend callback can fire any number of times without memory
    growth: over a raw socket that answers every send with 0 or [-EAGAIN],
    [n] firings in a row all return, hand the raw socket the same stored
    request [n] times and nothing else, and leave the heap, the request ID,
    the flags and the stored request as they were. *)
Theorem resend_repeats (n : nat) w (bs : list byte) :
  req_wf w = true ->
  in_progress (flags (self w)) = true ->
  request_bytes w = Some bs ->
  (forall (x : X) (f : list byte),
      fst (raw_send x f) = RC0 \/ fst (raw_send x f) = RCneg EAGAIN) ->
  exists w',
    do_calls SP_RESEND_IVL (replicate n CallResend) w
    = Ret (replicate n RC0) w' /\
    dispatched (trace w') = dispatched (trace w) ++ replicate n bs /\
    mem w' = mem w /\
    reqid (self w') = reqid (self w) /\
    flags (self w') = flags (self w) /\
    request_bytes w' = Some bs /\
    resend_ivl (self w') = resend_ivl (self w).
Proof.
  intros Hwf Hbusy Hbs Hraw. revert w Hwf Hbusy Hbs.
  induction n as [|n IH]; intros w Hwf Hbusy Hbs.
  - exists w. cbn [replicate do_calls]. rewrite app_nil_r.
    repeat split; assumption.
  - destruct (resend_step w bs Hwf Hbusy Hbs Hraw)
      as (w1 & Hr & Hwf1 & Hm1 & Hid1 & Hfl1 & Hp1 & Hivl1 & _ & Hd1).
    assert (Hbs1 : request_bytes w1 = Some bs).
    { unfold request_bytes in *. rewrite Hp1, Hm1. exact Hbs. }
    destruct (IH w1 Hwf1 ltac:(rewrite Hfl1; exact Hbusy) Hbs1)
      as (w' & Hc & Hd & Hm & Hid & Hfl & Hbs' & Hivl).
    exists w'. split.
    { cbn [replicate do_calls do_call]. rewrite bind_assoc.
      unfold bind at 1. rewrite Hr. rewrite bind_ret.
      unfold bind at 1. rewrite Hc. reflexivity. }
    rewrite Hd, Hd1, <- app_assoc.
    repeat split; try congruence.
Qed.

(** X15. [recv] only receives: whatever it returns, it has made no call to
    the send of the raw socket and has not started the timer, so the frames
    handed to the raw socket are those handed before the call. *)
Theorem recv_never_dispatches w (len : Z) (r : retcode * list byte * Z) w' :
  sp_req_recv len w = Ret r w' ->
  exists evs,
    trace w' = trace w ++ evs /\
    forallb passive evs = true /\
    dispatched (trace w') = dispatched (trace w).
Proof.
  intros Hr. destruct (recv_passive len _ _ _ Hr) as (evs & Htr & Hevs).
  exists evs. split; [exact Htr|]. split; [exact Hevs|].
  rewrite Htr, dispatched_app, (passive_dispatched _ Hevs). apply app_nil_r.
Qed.

(** ** The codes returned, and when a new interval takes effect *)

(** X16. [send] reports no error: whenever it returns, it returns 0, a
    request is in progress and the resend timer is armed; the pushback of
    the raw socket is not passed on to the caller. *)
Theorem send_returns_zero w (buf : list byte) (rc : retcode) w' :
  req_wf w = true ->
  sp_req_send buf w = Ret rc w' ->
  rc = RC0 /\
  in_progress (flags (self w')) = true /\
  timer_armed (resend_timer (self w')) = true.
Proof.
  intros Hwf Hs.
  destruct (send_conserves _ _ _ _ Hwf Hs) as (Hrc & Hwf' & _ & _ & _ & Hfl & _).
  destruct (req_wf_busy _ Hwf' Hfl) as (_ & _ & _ & _ & _ & _ & Harm).
  auto.
Qed.

(** X17. [recv] returns 0, [-EAGAIN] or [-EFSM] and nothing else;
    [-EFSM] exactly when no request is in progress; and when the code is not
    0 the caller's buffer and [*len] are as they were, and so are the heap
    and the flags of the socket. *)
Theorem recv_return_codes w (len : Z) (rc : retcode) (data : list byte)
        (n : Z) w' :
  req_wf w = true ->
  sp_req_recv len w = Ret (rc, data, n) w' ->
  (rc = RC0 \/ rc = RCneg EAGAIN \/ rc = RCneg EFSM) /\
  (rc = RCneg EFSM <-> in_progress (flags (self w)) = false) /\
  (rc <> RC0 ->
   data = [] /\ n = len /\ mem w' = mem w /\ flags (self w') = flags (self w)).
Proof.
  intros Hwf Hr.
  destruct (in_progress (flags (self w))) eqn:Hfl.
  - destruct (recv_ret_cases _ _ _ _ _ _ Hfl Hwf Hr)
      as [(-> & -> & -> & Hm & x' & Hs)|(-> & _)].
    + split; [auto|]. split; [split; discriminate|].
      intros _. rewrite Hs. auto.
    + split; [auto|]. split; [split; discriminate|].
      intros Hne. contradiction.
  - rewrite (recv_idle_eq _ _ Hfl) in Hr.
    apply Ret_inv in Hr as [[= <- <- <-] <-].
    split; [auto|]. split; [split; reflexivity|]. auto.
Qed.

(** X18. Setting the resend interval does not touch a timer that is
    running: after a successful [setopt] the timer is armed as it was, and
    the new interval is the one the next firing of the resend callback
    arms it with. *)
Theorem setopt_takes_effect_at_next_firing
        w (optval bs : list byte) (rc : retcode) (x' : X) :
  length optval = 4%nat ->
  in_progress (flags (self w)) = true ->
  req_wf w = true ->
  request_bytes w = Some bs ->
  raw_send (xreq (self w)) bs = (rc, x') ->
  rc = RC0 \/ rc = RCneg EAGAIN ->
  exists w1 w2,
    sp_req_setopt SP_RESEND_IVL SP_RESEND_IVL optval w = Ret RC0 w1 /\
    resend_timer (self w1) = resend_timer (self w) /\
    sp_req_resend_routine w1 = Ret tt w2 /\
    resend_timer (self w2) = TimerArmed (int_load optval) /\
    trace w2 = trace w ++ [EvXreqSend bs rc; EvTimerStart (int_load optval)].
Proof.
  intros Hlen Hbusy Hwf Hbs Hsend Hrc.
  destruct (req_wf_busy _ Hwf Hbusy) as (b & bs' & Hp & Hb & Hbs' & Hrl & _).
  assert (bs' = bs) as -> by congruence.
  assert (Hok : is_zero rc || is_eagain rc = true)
    by (destruct Hrc as [-> | ->]; reflexivity).
  eexists _, _. split.
  { unfold sp_req_setopt. rewrite Z.eqb_refl, Hlen.
    change (Z.of_nat 4 =? sizeof_int) with true. cbn [negb]. step.
    reflexivity. }
  norm. split; [reflexivity|]. split.
  { rewrite (resend_eq _ b bs) by (norm; assumption). norm.
    rewrite Hsend, Hok. reflexivity. }
  norm. split; reflexivity.
Qed.

End Proofs.

(** ** The properties on concrete sockets *)

(** C6 at work: [recv] on a fresh socket, and [recv] after the reply to
    request 43 has been received. *)
Lemma recv_idle_efsm_witness :
  sp_req_recv 8 (idle_world quiet) = Ret (RCneg EFSM, [], 8) (idle_world quiet)
  /\ (let w := state_after (sp_req_recv 8) (busy_world (delivering [reply43])) in
      sp_req_recv 8 (busy_world (delivering [reply43])) = Ret (RC0, pong, 4) w
      /\ sp_req_recv 8 w = Ret (RCneg EFSM, [], 8) w).
Proof.
  split.
  - apply (proj1 (recv_idle_efsm (idle_world quiet) 8)). vm_compute. reflexivity.
  - assert (Hr : sp_req_recv 8 (busy_world (delivering [reply43]))
                 = Ret (RC0, pong, 4)
                       (state_after (sp_req_recv 8)
                                    (busy_world (delivering [reply43]))))
      by (vm_compute; reflexivity).
    split; [exact Hr|].
    exact (proj2 (recv_idle_efsm _ 8) _ 8 pong 4 Hr).
Defined.

(** C2 at work: the reply to the superseded request 42 is discarded. *)
Lemma recv_rejects_keep_state_witness :
  let w := busy_world (delivering [reply42]) in
  exists w',
    sp_req_recv 8 w = Ret (RCneg EAGAIN, [], 8) w' /\
    in_progress (flags (self w')) = true /\
    request_bytes w' = Some request43 /\
    resend_timer (self w') = TimerArmed 60000 /\
    mem w' = mem w.
Proof.
  intros w.
  destruct (recv_rejects_keep_state w 8 (RawFrame reply42)
              (snd (raw_recv (xreq (self w)))))
    as (w' & Hr & Hfl & _ & _ & _ & _ & _ & _ & Ht & Hm & Hb & _).
  - vm_compute. reflexivity.
  - lia.
  - vm_compute. discriminate.
  - vm_compute. discriminate.
  - vm_compute. reflexivity.
  - right. exists reply42. split; [reflexivity|].
    right. right. vm_compute. discriminate.
  - exists w'. split; [exact Hr|]. split; [exact Hfl|].
    split; [rewrite Hb; vm_compute; reflexivity|].
    split; [rewrite Ht; vm_compute; reflexivity|]. exact Hm.
Defined.

(** C2 on the other replies: nothing to receive, a 3-byte frame, and a tag
    without the marker bit. *)
Example recv_nothing_available :
  sp_req_recv 8 (busy_world quiet) =
    Ret (RCneg EAGAIN, [], 8)
        (state_after (sp_req_recv 8) (busy_world quiet))
  /\ self (state_after (sp_req_recv 8) (busy_world quiet))
     = self (busy_world quiet).
Proof. split; vm_compute; reflexivity. Qed.

Example recv_short_reply :
  sp_req_recv 8 (busy_world (delivering [reply_short])) =
    Ret (RCneg EAGAIN, [], 8)
        (state_after (sp_req_recv 8) (busy_world (delivering [reply_short])))
  /\ in_progress
       (flags (self (state_after (sp_req_recv 8)
                                 (busy_world (delivering [reply_short])))))
     = true.
Proof. split; vm_compute; reflexivity. Qed.

Example recv_unmarked_reply :
  sp_req_recv 8 (busy_world (delivering [reply_unmarked])) =
    Ret (RCneg EAGAIN, [], 8)
        (state_after (sp_req_recv 8)
                     (busy_world (delivering [reply_unmarked])))
  /\ in_progress
       (flags (self (state_after (sp_req_recv 8)
                                 (busy_world (delivering [reply_unmarked])))))
     = true.
Proof. split; vm_compute; reflexivity. Qed.

(** C5 at work: a 2-byte buffer receives the first two bytes of [pong] and
    the length 4 is reported. *)
Lemma recv_delivers_payload_witness :
  exists w',
    sp_req_recv 2 (busy_world (delivering [reply43]))
      = Ret (RC0, [x70; x6f], 4) w' /\
    in_progress (flags (self w')) = false /\
    request (self w') = NULL.
Proof.
  set (w := busy_world (delivering [reply43])).
  destruct (recv_delivers_payload w 2 reply43 (snd (raw_recv (xreq (self w)))))
    as (copied & w' & Hr & Hc & _ & Hfl & Hp & _).
  - vm_compute. reflexivity.
  - vm_compute. reflexivity.
  - lia.
  - vm_compute. discriminate.
  - vm_compute. discriminate.
  - vm_compute. reflexivity.
  - vm_compute. split; discriminate.
  - vm_compute. reflexivity.
  - vm_compute. reflexivity.
  - exists w'. subst copied. split; [exact Hr|]. split; assumption.
Defined.

(** C4 at work: [send (ping)] on a fresh socket seeded with 42 stores and
    dispatches [80 00 00 2b] followed by [ping]; so it does when the raw
    socket pushes back. *)
Lemma send_stores_tagged_request_witness :
  (exists w',
     sp_req_send ping (idle_world quiet) = Ret RC0 w' /\
     request_bytes w' = Some ([x80; x00; x00; x2b] ++ ping) /\
     requestlen (self w') = 8)
  /\ (exists w',
        sp_req_send ping (idle_world congested) = Ret RC0 w' /\
        request_bytes w' = Some ([x80; x00; x00; x2b] ++ ping) /\
        in_progress (flags (self w')) = true).
Proof.
  split.
  - destruct (send_stores_tagged_request (idle_world quiet) ping RC0
                (mk_scripted [] [] [request43]))
      as (w' & Hs & _ & Hb & Hl & _).
    + vm_compute. reflexivity.
    + vm_compute. discriminate.
    + vm_compute. discriminate.
    + vm_compute. reflexivity.
    + left. reflexivity.
    + exists w'. split; [exact Hs|]. split; [exact Hb|exact Hl].
  - destruct (send_stores_tagged_request (idle_world congested) ping
                (RCneg EAGAIN) (mk_scripted [] [] [request43]))
      as (w' & Hs & _ & Hb & _ & _ & _ & _ & _ & Hfl & _).
    + vm_compute. reflexivity.
    + vm_compute. discriminate.
    + vm_compute. discriminate.
    + vm_compute. reflexivity.
    + right. reflexivity.
    + exists w'. split; [exact Hs|]. split; [exact Hb|exact Hfl].
Defined.

(** C1 at work: request 43 is in progress; [send (pong)] supersedes it with
    request 44; the reply to 43 that the raw socket then delivers first is
    discarded, and the reply to 44 behind it is received. *)
Lemma send_supersedes_request_witness :
  let w := busy_world (delivering [reply43; reply44]) in
  exists w' w2,
    sp_req_send pong w = Ret RC0 w' /\
    sp_req_recv 8 w' = Ret (RCneg EAGAIN, [], 8) w2 /\
    in_progress (flags (self w2)) = true /\
    reqid (self w2) = 44 /\
    exists w3, sp_req_recv 8 w2 = Ret (RC0, ping, 4) w3.
Proof.
  intros w.
  pose proof (send_supersedes_request w pong RC0
                (snd (raw_send (xreq (self w)) ([x80; x00; x00; x2c] ++ pong))))
    as Hthm.
  cbv zeta in Hthm.
  assert (H1 : in_progress (flags (self w)) = true)
    by (vm_compute; reflexivity).
  assert (H2 : req_wf w = true) by (vm_compute; reflexivity).
  assert (H3 : 4 + Z.of_nat (length pong) <= SIZE_MAX)
    by (vm_compute; discriminate).
  assert (H4 : 4 + Z.of_nat (length pong) <= avail (mem w))
    by (vm_compute; discriminate).
  assert (H5 : raw_send (xreq (self w))
                 (sp_putl (Z.lor ((reqid (self w) + 1) mod 2 ^ 31) 0x80000000)
                  ++ pong)
               = (RC0, snd (raw_send (xreq (self w))
                                     ([x80; x00; x00; x2c] ++ pong))))
    by (vm_compute; reflexivity).
  destruct (Hthm H1 H2 H3 H4 H5 (or_introl eq_refl))
    as (b & w1 & w' & _ & _ & _ & _ & _ & _ & _ & _ & _ & Hs & _ & _ & _
        & Hstale).
  set (wn := state_after (sp_req_send pong) w).
  assert (Hc : sp_req_send pong w = Ret RC0 wn) by (vm_compute; reflexivity).
  rewrite Hc in Hs. apply Ret_world in Hs. subst w'.
  assert (G1 : 0 <= 8) by lia.
  assert (G2 : 4 + 8 <= SIZE_MAX) by (vm_compute; discriminate).
  assert (G3 : 4 + 8 <= avail (mem wn)) by (vm_compute; discriminate).
  assert (G4 : raw_recv (xreq (self wn))
               = (RawFrame reply43, snd (raw_recv (xreq (self wn)))))
    by (vm_compute; reflexivity).
  assert (G5 : sp_getl (take 4 reply43) mod 2 ^ 31 = reqid (self w))
    by (vm_compute; reflexivity).
  destruct (Hstale 8 reply43 _ G1 G2 G3 G4 G5) as (w2 & Hr & _ & _ & Hfl & Hid).
  exists wn, w2.
  split; [exact Hc|]. split; [exact Hr|]. split; [exact Hfl|].
  split; [rewrite Hid; vm_compute; reflexivity|].
  assert (Hc2 : sp_req_recv 8 wn
                = Ret (RCneg EAGAIN, [], 8) (state_after (sp_req_recv 8) wn))
    by (vm_compute; reflexivity).
  rewrite Hc2 in Hr. apply Ret_world in Hr. subst w2.
  eexists. vm_compute. reflexivity.
Defined.

(** C7 at work: the timer fires on request 43; on a fresh socket the
    callback stops. *)
Lemma resend_redispatches_request_witness :
  (exists w',
     sp_req_resend_routine (busy_world quiet) = Ret tt w' /\
     trace w' = trace (busy_world quiet)
                ++ [EvXreqSend request43 RC0; EvTimerStart 60000] /\
     mem w' = mem (busy_world quiet) /\
     reqid (self w') = 43)
  /\ sp_req_resend_routine (idle_world quiet) = Abort.
Proof.
  split.
  - destruct (proj1 (resend_redispatches_request (busy_world quiet) request43
                       RC0 (mk_scripted [] [] [request43; request43])))
      as (w' & Hr & Ht & _ & Hid & _ & _ & _ & _ & Hm & _).
    + vm_compute. reflexivity.
    + vm_compute. reflexivity.
    + vm_compute. reflexivity.
    + vm_compute. reflexivity.
    + left. reflexivity.
    + exists w'. split; [exact Hr|]. split; [exact Ht|]. split; [exact Hm|].
      rewrite Hid. vm_compute. reflexivity.
  - apply (proj2 (resend_redispatches_request (idle_world quiet) [] RC0 quiet)).
    vm_compute. reflexivity.
Defined.

(** C8 as stated does not hold for [getopt]: with the resend interval option
    (identifier 1 here) and an 8-byte buffer, a length other than
    [sizeof (int)], the call succeeds instead of failing with [-EINVAL]. *)
Lemma getopt_accepts_longer_buffer :
  8 <> sizeof_int
  /\ sp_req_getopt 1 1 8 (idle_world quiet)
     = Ret (RC0, int_store 60000, sizeof_int) (idle_world quiet)
  /\ sp_req_getopt 1 1 8 (idle_world quiet)
     <> Ret (RCneg EINVAL, [], 8) (idle_world quiet).
Proof.
  split; [discriminate|]. split; [vm_compute; reflexivity|].
  vm_compute. discriminate.
Qed.

(** C8 at work, with 1 as the identifier of the resend interval: a 4-byte
    value is accepted and read back, a 2-byte value is refused, a 2-byte
    buffer is refused by [getopt], and option 7 is unknown to both. *)
Lemma resend_ivl_option_checks_witness :
  let w := idle_world quiet in
  let ms10000 := [x10; x27; x00; x00] in
  (exists w',
     sp_req_setopt 1 1 ms10000 w = Ret RC0 w' /\
     sp_req_getopt 1 1 4 w' = Ret (RC0, ms10000, 4) w')
  /\ sp_req_setopt 1 1 [x10; x27] w = Ret (RCneg EINVAL) w
  /\ sp_req_getopt 1 1 2 w = Ret (RCneg EINVAL, [], 2) w
  /\ sp_req_getopt 1 1 4 w = Ret (RC0, int_store 60000, 4) w
  /\ sp_req_setopt 1 7 ms10000 w = Ret (RCneg ENOPROTOOPT) w
  /\ sp_req_getopt 1 7 4 w = Ret (RCneg ENOPROTOOPT, [], 4) w.
Proof.
  intros w ms10000.
  destruct (resend_ivl_option_checks 1 w 1 ms10000 4)
    as (_ & _ & _ & _ & Hget & _ & Hround).
  destruct (resend_ivl_option_checks 1 w 1 [x10; x27] 2)
    as (Hset2 & _ & _ & Hget2 & _).
  destruct (resend_ivl_option_checks 1 w 7 ms10000 4)
    as (_ & _ & Hset7 & _ & _ & Hget7 & _).
  split; [apply Hround; [reflexivity | reflexivity | vm_compute; discriminate]|].
  split; [apply Hset2; [reflexivity | vm_compute; discriminate]|].
  split; [apply Hget2; [reflexivity | reflexivity]|].
  split.
  { rewrite Hget by (reflexivity || (vm_compute; discriminate)).
    vm_compute. reflexivity. }
  split; [apply Hset7; discriminate|].
  apply Hget7. discriminate.
Defined.

(** C10 at work: the 4-byte value [fb ff ff ff], the interval -5, is
    accepted, and the next [send] arms the timer with it; so is 0. *)
Lemma setopt_stores_any_interval_witness :
  let w := idle_world quiet in
  (exists w1 w2,
     sp_req_setopt 1 1 [xfb; xff; xff; xff] w = Ret RC0 w1 /\
     resend_ivl (self w1) = -5 /\
     sp_req_send ping w1 = Ret RC0 w2 /\
     resend_timer (self w2) = TimerArmed (-5))
  /\ (exists w1, sp_req_setopt 1 1 [x00; x00; x00; x00] w = Ret RC0 w1 /\
                 resend_ivl (self w1) = 0).
Proof.
  intros w. split.
  - destruct (setopt_stores_any_interval 1 w [xfb; xff; xff; xff] eq_refl)
      as (_ & _ & _ & w1 & Hset & Hivl & _ & Hsend & _).
    assert (H1 : req_wf w = true) by (vm_compute; reflexivity).
    assert (H2 : 4 + Z.of_nat (length ping) <= SIZE_MAX)
      by (vm_compute; discriminate).
    assert (H3 : 4 + Z.of_nat (length ping) <= avail (mem w))
      by (vm_compute; discriminate).
    assert (H4 : raw_send (xreq (self w))
                   (sp_putl (Z.lor ((reqid (self w) + 1) mod 2 ^ 31) 0x80000000)
                    ++ ping)
                 = (RC0, mk_scripted [] [] [request43]))
      by (vm_compute; reflexivity).
    destruct (Hsend ping RC0 _ H1 H2 H3 H4 (or_introl eq_refl))
      as (w2 & tr & Hs & Ht & _).
    exists w1, w2. repeat split; assumption.
  - destruct (setopt_stores_any_interval 1 w [x00; x00; x00; x00] eq_refl)
      as (_ & _ & _ & w1 & Hset & Hivl & _).
    exists w1. split; assumption.
Defined.

(** C3 at work: three [send]s from the ID 42, with a successful [recv], a
    firing of the timer, a discarded reply and an option call in between,
    are tagged 43, 44 and 45; three [send]s in a row over a raw socket that
    accepts every frame return and are tagged 43, 44 and 45 too. *)
Lemma send_ids_advance_witness :
  (let cs := [CallSend ping; CallRecv 8; CallSend pong; CallResend;
              CallRecv 8; CallSetopt 1 [x10; x27; x00; x00]; CallSend ping] in
   let w := idle_world (delivering [reply43; reply42]) in
   exists frames w',
     run 1 cs w = Ret frames w' /\
     (fun f => Z.land (sp_getl (take 4 f)) 0x7fffffff) <$> frames
     = [43; 44; 45])
  /\ (let w : world (list (list byte)) := idle_world [] in
      exists frames w',
        run 1 (CallSend <$> [ping; pong; ping]) w = Ret frames w' /\
        (fun f => Z.land (sp_getl (take 4 f)) 0x7fffffff) <$> frames
        = [43; 44; 45]).
Proof.
  split.
  - intros cs w.
    assert (Hrun : run 1 cs w
                   = Ret [[x80; x00; x00; x2b] ++ ping;
                          [x80; x00; x00; x2c] ++ pong;
                          [x80; x00; x00; x2d] ++ ping]
                         (state_after (run 1 cs) w))
      by (vm_compute; reflexivity).
    destruct (proj1 (send_ids_advance 1 w) cs _ _ Hrun) as (_ & Hids & _).
    eexists _, _. split; [exact Hrun|].
    rewrite Hids. vm_compute. reflexivity.
  - intros w.
    assert (Hwf : req_wf w = true) by (vm_compute; reflexivity).
    assert (Hraw : forall (x : list (list byte)) (frame : list byte),
               fst (raw_send x frame) = RC0
               \/ fst (raw_send x frame) = RCneg EAGAIN)
      by (intros x frame; left; reflexivity).
    assert (Hfit : Forall (fun buf => 4 + Z.of_nat (length buf) <= SIZE_MAX
                                      /\ 4 + Z.of_nat (length buf)
                                         <= heap_room w) [ping; pong; ping])
      by (repeat constructor; vm_compute; discriminate).
    destruct (proj1 (proj2 (send_ids_advance 1 w)) _ Hwf Hraw Hfit)
      as (frames & w' & Hrun).
    destruct (proj1 (send_ids_advance 1 w) _ _ _ Hrun) as (_ & Hids & _).
    exists frames, w'. split; [exact Hrun|].
    rewrite Hids. vm_compute. reflexivity.
Defined.

(** The request ID wraps from [2^31 - 1] to 0. *)
Example send_id_wraps :
  let w := state_after (sp_req_init 0x7fffffff) (raw_world quiet 100) in
  reqid (self w) = 0x7fffffff
  /\ reqid (self (state_after (sp_req_send ping) w)) = 0
  /\ request_bytes (state_after (sp_req_send ping) w)
     = Some ([x80; x00; x00; x00] ++ ping).
Proof. repeat split; vm_compute; reflexivity. Qed.

(** ** The further properties on concrete sockets *)

(** X1 at work: terminating the socket while request 43 is in progress
    cancels the timer, releases the request and leaves the heap empty. *)
Lemma term_releases_request_witness :
  let w := busy_world quiet in
  exists w',
    sp_req_term w = Ret tt w' /\
    avail (mem w') = 100 /\
    trace w' = trace w ++ [EvTimerCancel; EvFree (request (self w))] /\
    request_bytes w' = None.
Proof.
  intros w.
  assert (H1 : req_wf w = true) by (vm_compute; reflexivity).
  assert (H2 : in_progress (flags (self w)) = true)
    by (vm_compute; reflexivity).
  assert (H3 : heap_room w = 100) by (vm_compute; reflexivity).
  destruct (term_releases_request w H1) as (w' & Ht & _ & Ha & _ & Htr & Hn).
  exists w'. split; [exact Ht|]. split; [rewrite Ha; exact H3|].
  rewrite H2 in Htr. split; [exact Htr|]. exact (proj1 (Hn H2)).
Defined.

(** X2 at work: the invariant holds after the session. *)
Lemma calls_keep_invariant_witness :
  let w := idle_world (delivering [reply43; reply42]) in
  exists w',
    do_calls 1 session w = Ret session_codes w' /\
    req_wf w' = true /\ req_tagged w' = true.
Proof.
  intros w.
  assert (H1 : req_wf w = true) by (vm_compute; reflexivity).
  assert (H2 : req_tagged w = true) by (vm_compute; reflexivity).
  assert (Hrun : do_calls 1 session w
                 = Ret session_codes (state_after (do_calls 1 session) w))
    by (vm_compute; reflexivity).
  destruct (calls_keep_invariant 1 session w _ _ H1 H2 Hrun) as (Hwf & Htag & _).
  eexists. split; [exact Hrun|]. split; assumption.
Defined.

(** X3 at work: after the session, the 100 bytes of the heap are what the
    allocator has left and the request in progress. *)
Lemma calls_conserve_memory_witness :
  let w := idle_world (delivering [reply43; reply42]) in
  exists w',
    do_calls 1 session w = Ret session_codes w' /\
    heap_room w' = 100 /\
    avail (mem w') = 92.
Proof.
  intros w.
  assert (H1 : req_wf w = true) by (vm_compute; reflexivity).
  assert (H2 : req_tagged w = true) by (vm_compute; reflexivity).
  assert (H3 : heap_room w = 100) by (vm_compute; reflexivity).
  assert (Hrun : do_calls 1 session w
                 = Ret session_codes (state_after (do_calls 1 session) w))
    by (vm_compute; reflexivity).
  destruct (calls_conserve_memory 1 session w _ _ H1 H2 Hrun) as (_ & Hroom).
  eexists. split; [exact Hrun|]. split; [rewrite Hroom; exact H3|].
  vm_compute. reflexivity.
Defined.

(** X4 at work: a socket is initialised on an empty heap of 100 bytes, runs
    the session and is terminated with a request in progress; the heap is
    empty again. *)
Lemma lifecycle_restores_heap_witness :
  let w0 := raw_world (delivering [reply43; reply42]) 100 in
  exists w2 w3,
    do_calls 1 session (state_after (sp_req_init 42) w0)
    = Ret session_codes w2 /\
    in_progress (flags (self w2)) = true /\
    sp_req_term w2 = Ret tt w3 /\
    mem w3 = empty_heap 100.
Proof.
  intros w0.
  assert (Hrun : do_calls 1 session (state_after (sp_req_init 42) w0)
                 = Ret session_codes
                       (state_after (do_calls 1 session)
                                    (state_after (sp_req_init 42) w0)))
    by (vm_compute; reflexivity).
  destruct (lifecycle_restores_heap 1 42 session w0 _ _ Hrun)
    as (w3 & Ht & Hm).
  eexists _, w3. split; [exact Hrun|].
  split; [vm_compute; reflexivity|]. split; [exact Ht|]. exact Hm.
Defined.

(** X5 at work: the session has three [send]s and three [recv]s, of which
    one returns 0. *)
Lemma recv_succeeds_once_per_send_witness :
  let w := idle_world (delivering [reply43; reply42]) in
  exists w',
    do_calls 1 session w = Ret session_codes w' /\
    (recv_successes session session_codes <= 3)%nat.
Proof.
  intros w.
  assert (H1 : req_wf w = true) by (vm_compute; reflexivity).
  assert (H2 : req_tagged w = true) by (vm_compute; reflexivity).
  assert (H3 : in_progress (flags (self w)) = false)
    by (vm_compute; reflexivity).
  assert (Hrun : do_calls 1 session w
                 = Ret session_codes (state_after (do_calls 1 session) w))
    by (vm_compute; reflexivity).
  pose proof (recv_succeeds_once_per_send 1 session w _ _ H1 H2 Hrun) as Hn.
  rewrite H3 in Hn.
  eexists. split; [exact Hrun|]. exact Hn.
Defined.

(** X6 at work: the frames the session hands to the raw socket. *)
Lemma dispatched_frames_are_tagged_witness :
  let w := idle_world (delivering [reply43; reply42]) in
  exists w' sent,
    do_calls 1 session w = Ret session_codes w' /\
    dispatched (trace w') = sent /\
    length sent = 4%nat /\
    Forall (fun f => 4 <= Z.of_nat (length f)
                     /\ Z.testbit (sp_getl (take 4 f)) 31 = true) sent.
Proof.
  intros w.
  assert (H1 : req_wf w = true) by (vm_compute; reflexivity).
  assert (H2 : req_tagged w = true) by (vm_compute; reflexivity).
  assert (H3 : dispatched (trace w) = []) by (vm_compute; reflexivity).
  assert (Hrun : do_calls 1 session w
                 = Ret session_codes (state_after (do_calls 1 session) w))
    by (vm_compute; reflexivity).
  destruct (dispatched_frames_are_tagged 1 session w _ _ H1 H2 Hrun)
    as (sent & Hd & Hall).
  rewrite H3 in Hd. cbn [app] in Hd.
  exists (state_after (do_calls 1 session) w), sent.
  split; [exact Hrun|]. split; [exact Hd|]. split; [|exact Hall].
  rewrite <- Hd. vm_compute. reflexivity.
Defined.

(** X7 at work: a request of 100 bytes needs 104 bytes, and the heap has
    100. *)
Lemma send_aborts_without_memory_witness :
  sp_req_send (replicate 100 x00) (idle_world quiet) = Abort.
Proof.
  assert (H1 : req_wf (idle_world quiet) = true) by (vm_compute; reflexivity).
  assert (H2 : 4 + Z.of_nat (length (replicate 100 x00)) <= SIZE_MAX)
    by (vm_compute; discriminate).
  assert (H3 : heap_room (idle_world quiet)
               < 4 + Z.of_nat (length (replicate 100 x00)))
    by (vm_compute; reflexivity).
  exact (send_aborts_without_memory (idle_world quiet) (replicate 100 x00)
           H1 H2 H3).
Defined.

(** X8 at work: the raw socket answers the send with the error 5. *)
Lemma send_aborts_on_raw_error_witness :
  sp_req_send ping (idle_world failing_send) = Abort.
Proof.
  set (w := idle_world failing_send).
  pose proof (send_aborts_on_raw_error w ping (RCneg (EOTHER 5))
                (mk_scripted [] [] [request43])) as Hthm.
  cbv zeta in Hthm.
  assert (H1 : req_wf w = true) by (vm_compute; reflexivity).
  assert (H2 : 4 + Z.of_nat (length ping) <= SIZE_MAX)
    by (vm_compute; discriminate).
  assert (H3 : 4 + Z.of_nat (length ping) <= heap_room w)
    by (vm_compute; discriminate).
  assert (H4 : raw_send (xreq (self w))
                 (sp_putl (Z.lor ((reqid (self w) + 1) mod 2 ^ 31) 0x80000000)
                  ++ ping)
               = (RCneg (EOTHER 5), mk_scripted [] [] [request43]))
    by (vm_compute; reflexivity).
  assert (H5 : RCneg (EOTHER 5) <> RC0) by discriminate.
  assert (H6 : RCneg (EOTHER 5) <> RCneg EAGAIN) by discriminate.
  exact (Hthm H1 H2 H3 H4 H5 H6).
Defined.

(** X9 at work: with request 43 stored the allocator has 92 bytes left, and
    a [recv] into a buffer of 100 bytes asks for 104. *)
Lemma recv_aborts_without_memory_witness :
  sp_req_recv 100 (busy_world (delivering [reply43])) = Abort.
Proof.
  set (w := busy_world (delivering [reply43])).
  assert (H1 : in_progress (flags (self w)) = true)
    by (vm_compute; reflexivity).
  assert (H2 : 0 <= 100) by discriminate.
  assert (H3 : 4 + 100 <= SIZE_MAX) by (vm_compute; discriminate).
  assert (H4 : avail (mem w) < 4 + 100) by (vm_compute; reflexivity).
  exact (recv_aborts_without_memory w 100 H1 H2 H3 H4).
Defined.

(** X10 at work: the raw socket answers the receive with the error 5. *)
Lemma recv_aborts_on_raw_error_witness :
  sp_req_recv 8 (busy_world failing_recv) = Abort.
Proof.
  set (w := busy_world failing_recv).
  assert (H1 : in_progress (flags (self w)) = true)
    by (vm_compute; reflexivity).
  assert (H2 : 0 <= 8) by discriminate.
  assert (H3 : 4 + 8 <= SIZE_MAX) by (vm_compute; discriminate).
  assert (H4 : 4 + 8 <= avail (mem w)) by (vm_compute; discriminate).
  assert (H5 : raw_recv (xreq (self w))
               = (RawFail (EOTHER 5), snd (raw_recv (xreq (self w)))))
    by (vm_compute; reflexivity).
  assert (H6 : EOTHER 5 <> EAGAIN) by discriminate.
  exact (recv_aborts_on_raw_error w 8 (EOTHER 5) _ H1 H2 H3 H4 H5 H6).
Defined.

(** X11 at work: the raw socket took request 43 and answers the resend
    with the error 5. *)
Lemma resend_aborts_on_raw_error_witness :
  sp_req_resend_routine (busy_world failing_resend) = Abort.
Proof.
  set (w := busy_world failing_resend).
  assert (H1 : in_progress (flags (self w)) = true)
    by (vm_compute; reflexivity).
  assert (H2 : req_wf w = true) by (vm_compute; reflexivity).
  assert (H3 : request_bytes w = Some request43) by (vm_compute; reflexivity).
  assert (H4 : raw_send (xreq (self w)) request43
               = (RCneg (EOTHER 5), snd (raw_send (xreq (self w)) request43)))
    by (vm_compute; reflexivity).
  assert (H5 : RCneg (EOTHER 5) <> RC0) by discriminate.
  assert (H6 : RCneg (EOTHER 5) <> RCneg EAGAIN) by discriminate.
  exact (resend_aborts_on_raw_error w request43 (RCneg (EOTHER 5)) _
           H1 H2 H3 H4 H5 H6).
Defined.

(** X12 at work: [recv] with [*len = SIZE_MAX] allocates 3 bytes for the
    8 bytes of [reply43] and reads the tag past their end. *)
Lemma recv_length_wrap_overreads_witness :
  size_wrap (sizeof_uint32 + SIZE_MAX) = 3
  /\ sp_req_recv SIZE_MAX (busy_world (delivering [reply43])) = Fault.
Proof.
  split; [vm_compute; reflexivity|].
  set (w := busy_world (delivering [reply43])).
  assert (H1 : in_progress (flags (self w)) = true)
    by (vm_compute; reflexivity).
  assert (H2 : SIZE_MAX - 2 <= SIZE_MAX <= SIZE_MAX)
    by (split; vm_compute; discriminate).
  assert (H3 : 3 <= avail (mem w)) by (vm_compute; discriminate).
  assert (H4 : raw_recv (xreq (self w))
               = (RawFrame reply43, snd (raw_recv (xreq (self w)))))
    by (vm_compute; reflexivity).
  assert (H5 : 4 <= Z.of_nat (length reply43)) by (vm_compute; discriminate).
  exact (recv_length_wrap_overreads w SIZE_MAX reply43 _ H1 H2 H3 H4 H5).
Defined.

(** X13 at work: the raw socket delivers the tag of the stored request 43
    followed by [pong]; a 2-byte buffer receives its first two bytes. *)
Lemma recv_accepts_reply_to_stored_request_witness :
  let w := busy_world (delivering [take 4 request43 ++ pong]) in
  exists w',
    sp_req_recv 2 w = Ret (RC0, [x70; x6f], 4) w' /\
    in_progress (flags (self w')) = false /\
    avail (mem w') = 100.
Proof.
  intros w.
  assert (H1 : in_progress (flags (self w)) = true)
    by (vm_compute; reflexivity).
  assert (H2 : req_wf w = true) by (vm_compute; reflexivity).
  assert (H3 : req_tagged w = true) by (vm_compute; reflexivity).
  assert (H4 : request_bytes w = Some request43) by (vm_compute; reflexivity).
  assert (H5 : 0 <= 2) by discriminate.
  assert (H6 : 4 + 2 <= SIZE_MAX) by (vm_compute; discriminate).
  assert (H7 : 4 + 2 <= avail (mem w)) by (vm_compute; discriminate).
  assert (H8 : 4 + Z.of_nat (length pong) <= SIZE_MAX)
    by (vm_compute; discriminate).
  assert (H9 : raw_recv (xreq (self w))
               = (RawFrame (take 4 request43 ++ pong),
                  snd (raw_recv (xreq (self w)))))
    by (vm_compute; reflexivity).
  assert (H10 : heap_room w = 100) by (vm_compute; reflexivity).
  destruct (recv_accepts_reply_to_stored_request w 2 request43 pong _
              H1 H2 H3 H4 H5 H6 H7 H8 H9)
    as (w' & Hr & Hfl & _ & _ & Ha & _).
  exists w'. split; [exact Hr|]. split; [exact Hfl|].
  rewrite Ha. exact H10.
Defined.

(** X14 at work: three firings of the timer on request 43, over a raw
    socket that accepts every frame. *)
Lemma resend_repeats_witness :
  let w : world (list (list byte)) := busy_world [] in
  exists w',
    do_calls 1 [CallResend; CallResend; CallResend] w
    = Ret [RC0; RC0; RC0] w' /\
    dispatched (trace w') = [request43; request43; request43; request43] /\
    mem w' = mem w.
Proof.
  intros w.
  assert (H1 : req_wf w = true) by (vm_compute; reflexivity).
  assert (H2 : in_progress (flags (self w)) = true)
    by (vm_compute; reflexivity).
  assert (H3 : request_bytes w = Some request43) by (vm_compute; reflexivity).
  assert (H4 : forall (x : list (list byte)) (f : list byte),
             fst (raw_send x f) = RC0 \/ fst (raw_send x f) = RCneg EAGAIN)
    by (intros x f; left; reflexivity).
  assert (H5 : dispatched (trace w) = [request43])
    by (vm_compute; reflexivity).
  destruct (resend_repeats 1 3 w request43 H1 H2 H3 H4)
    as (w' & Hc & Hd & Hm & _).
  exists w'. split; [exact Hc|]. split; [|exact Hm].
  rewrite Hd, H5. reflexivity.
Defined.

(** X15 at work: a [recv] that takes the reply to request 43 leaves the
    frames handed to the raw socket as they were. *)
Lemma recv_never_dispatches_witness :
  let w := busy_world (delivering [reply43]) in
  exists w',
    sp_req_recv 8 w = Ret (RC0, pong, 4) w' /\
    dispatched (trace w') = [request43].
Proof.
  intros w.
  assert (Hr : sp_req_recv 8 w
               = Ret (RC0, pong, 4) (state_after (sp_req_recv 8) w))
    by (vm_compute; reflexivity).
  assert (H1 : dispatched (trace w) = [request43])
    by (vm_compute; reflexivity).
  destruct (recv_never_dispatches w 8 _ _ Hr) as (evs & _ & _ & Hd).
  eexists. split; [exact Hr|]. rewrite Hd. exact H1.
Defined.

(** X16 at work: the raw socket pushes back, and [send] returns 0 with a
    request in progress. *)
Lemma send_returns_zero_witness :
  let w := idle_world congested in
  dispatched (trace (state_after (sp_req_send ping) w)) = [request43]
  /\ in_progress (flags (self (state_after (sp_req_send ping) w))) = true.
Proof.
  intros w.
  assert (H1 : req_wf w = true) by (vm_compute; reflexivity).
  assert (Hs : sp_req_send ping w
               = Ret RC0 (state_after (sp_req_send ping) w))
    by (vm_compute; reflexivity).
  destruct (send_returns_zero w ping _ _ H1 Hs) as (_ & Hfl & _).
  split; [vm_compute; reflexivity|exact Hfl].
Defined.

(** X17 at work: the reply to the superseded request 42 gives [-EAGAIN]
    and leaves the heap as it was. *)
Lemma recv_return_codes_witness :
  let w := busy_world (delivering [reply42]) in
  exists w',
    sp_req_recv 8 w = Ret (RCneg EAGAIN, [], 8) w' /\
    mem w' = mem w /\ flags (self w') = flags (self w).
Proof.
  intros w.
  assert (H1 : req_wf w = true) by (vm_compute; reflexivity).
  assert (Hr : sp_req_recv 8 w
               = Ret (RCneg EAGAIN, [], 8) (state_after (sp_req_recv 8) w))
    by (vm_compute; reflexivity).
  assert (H2 : RCneg EAGAIN <> RC0) by discriminate.
  destruct (recv_return_codes w 8 _ _ _ _ H1 Hr) as (_ & _ & Hfail).
  destruct (Hfail H2) as (_ & _ & Hm & Hfl).
  eexists. split; [exact Hr|]. split; assumption.
Defined.

(** X18 at work, with 1 as the identifier of the resend interval: 10000 ms
    are set while the timer runs with 60000 ms; the next firing arms it
    with 10000 ms. *)
Lemma setopt_takes_effect_at_next_firing_witness :
  let w := busy_world quiet in
  exists w1 w2,
    sp_req_setopt 1 1 [x10; x27; x00; x00] w = Ret RC0 w1 /\
    resend_timer (self w1) = TimerArmed 60000 /\
    sp_req_resend_routine w1 = Ret tt w2 /\
    resend_timer (self w2) = TimerArmed 10000.
Proof.
  intros w.
  assert (H1 : in_progress (flags (self w)) = true)
    by (vm_compute; reflexivity).
  assert (H2 : req_wf w = true) by (vm_compute; reflexivity).
  assert (H3 : request_bytes w = Some request43) by (vm_compute; reflexivity).
  assert (H4 : raw_send (xreq (self w)) request43
               = (RC0, snd (raw_send (xreq (self w)) request43)))
    by (vm_compute; reflexivity).
  assert (H5 : resend_timer (self w) = TimerArmed 60000)
    by (vm_compute; reflexivity).
  assert (H6 : int_load [x10; x27; x00; x00] = 10000)
    by (vm_compute; reflexivity).
  destruct (setopt_takes_effect_at_next_firing 1 w [x10; x27; x00; x00]
              request43 RC0 _ eq_refl H1 H2 H3 H4 (or_introl eq_refl))
    as (w1 & w2 & Hset & Ht1 & Hr & Ht2 & _).
  exists w1, w2. split; [exact Hset|]. split; [rewrite Ht1; exact H5|].
  split; [exact Hr|]. rewrite Ht2, H6. reflexivity.
Defined.
